(** * Volume grid file cache and sequence frames (blenkernel/intern/volume.cc)

    A shallow embedding of the OpenVDB branch of [volume.cc]: the global
    file cache [VolumeFileCache], the grid handle [VolumeGrid], the grid
    vector [VolumeGridVector], collection loading [BKE_volume_load], the
    sequence frame mapping [volume_sequence_frame] and the active grid
    accessor [BKE_volume_grid_active_get].

    Conventions.
    - A C [int] is a [Z] in the range [INT_MIN, INT_MAX]. Signed overflow,
      a zero divisor and the use of a dangling entry pointer are undefined
      behaviour in C++: the model returns [None] there.
    - The cache is an [unordered_set<Entry>] hashed and compared on
      (filepath, grid_name) only: it is a finite map from that key to the
      remaining fields, and a pointer to an entry is its key.
    - Mutexes, file accesses and nothing else are recorded as events in a
      trace, in program order. *)

From Stdlib Require Import ZArith Lia.
From stdpp Require Import gmap strings list.

Local Open Scope Z_scope.

(** ** Machine integers *)

Module Int.

Definition INT_MAX : Z := 2147483647.
Definition INT_MIN : Z := -2147483648.

Definition in_range (z : Z) : bool := (INT_MIN <=? z) && (z <=? INT_MAX).

(** The value of an [int] expression, or [None] on signed overflow. *)
Definition checked (z : Z) : option Z := if in_range z then Some z else None.

Definition add (a b : Z) : option Z := checked (a + b).
Definition sub (a b : Z) : option Z := checked (a - b).
Definition mul (a b : Z) : option Z := checked (a * b).

(** [a % b]: the remainder of the division truncated towards zero;
    undefined for [b = 0] and for [INT_MIN % -1]. *)
Definition rem (a b : Z) : option Z :=
  if b =? 0 then None
  else if (a =? INT_MIN) && (b =? -1) then None
  else Some (Z.rem a b).

End Int.

(** Modelled from the spec: [clamp_i] of BLI_math is not part of the sources
    at hand; "clamp into [lo, hi]" is the larger of [lo] and the value, cut
    at [hi]. *)
Definition clamp_i (value lo hi : Z) : Z := Z.min (Z.max value lo) hi.

Definition VOLUME_FRAME_NONE : Z := Int.INT_MAX.

(** ** Grids, cache entries and the event trace *)

(** The voxel tree of an OpenVDB grid, reduced to its payload; the empty
    list is the empty tree. *)
Definition Tree : Type := list Z.

(** [openvdb::GridBase]: the name metadata and the tree. *)
Record Grid := mkGrid {
  grid_meta_name : string;
  grid_tree : Tree;
}.

Definition Grid_getName (g : Grid) : string := grid_meta_name g.

(** [grid->clear()] *)
Definition Grid_clear (g : Grid) : Grid :=
  {| grid_meta_name := grid_meta_name g; grid_tree := [] |}.

(** [grid->setTree(tree)] *)
Definition Grid_setTree (g : Grid) (t : Tree) : Grid :=
  {| grid_meta_name := grid_meta_name g; grid_tree := t |}.

(** Unique key of a cache entry: filename + grid name. *)
Definition Key : Type := string * string.

(** [VolumeFileCache::Entry] without its two key fields. *)
Module Entry.

Record t := mk {
  grid : Grid;
  is_loaded : bool;
  error_msg : string;
  num_metadata_users : Z;
  num_tree_users : Z;
}.

(** A template as built by [Entry(filepath, grid)]: the key and the fields. *)
Definition new (filepath : string) (g : Grid) : Key * t :=
  ((filepath, Grid_getName g),
   {| grid := g; is_loaded := false; error_msg := "";
      num_metadata_users := 0; num_tree_users := 0 |}).

(** The copy constructor [Entry(const Entry &other)]: the error message is
    not copied and both user counts start at zero. *)
Definition copy (other : t) : t :=
  {| grid := grid other; is_loaded := is_loaded other; error_msg := "";
     num_metadata_users := 0; num_tree_users := 0 |}.

Definition with_metadata_users (e : t) (n : Z) : t :=
  {| grid := grid e; is_loaded := is_loaded e; error_msg := error_msg e;
     num_metadata_users := n; num_tree_users := num_tree_users e |}.

Definition with_tree_users (e : t) (n : Z) : t :=
  {| grid := grid e; is_loaded := is_loaded e; error_msg := error_msg e;
     num_metadata_users := num_metadata_users e; num_tree_users := n |}.

Definition with_grid (e : t) (g : Grid) : t :=
  {| grid := g; is_loaded := is_loaded e; error_msg := error_msg e;
     num_metadata_users := num_metadata_users e;
     num_tree_users := num_tree_users e |}.

Definition with_is_loaded (e : t) (b : bool) : t :=
  {| grid := grid e; is_loaded := b; error_msg := error_msg e;
     num_metadata_users := num_metadata_users e;
     num_tree_users := num_tree_users e |}.

Definition with_error_msg (e : t) (msg : string) : t :=
  {| grid := grid e; is_loaded := is_loaded e; error_msg := msg;
     num_metadata_users := num_metadata_users e;
     num_tree_users := num_tree_users e |}.

End Entry.

(** The three kinds of mutex of the file. *)
Inductive Lock :=
| GlobalCacheLock               (* VolumeFileCache::mutex *)
| EntryLock (k : Key)           (* Entry::mutex *)
| GridsLock.                    (* VolumeGridVector::mutex *)

Inductive Event :=
| Acquire (l : Lock)
| Release (l : Lock)
| FileExists (path : string)            (* BLI_exists *)
| FileOpen (path : string)              (* openvdb::io::File::open *)
| FileReadAllGridMetadata (path : string)
| FileReadGrid (path name : string).

(** The process state: the contents of [GLOBAL_CACHE] and the trace. *)
Record State := mkState {
  cache : gmap Key Entry.t;
  trace : list Event;
}.

(** ** State and undefined-behaviour monad *)

Definition M (A : Type) : Type := State -> option (A * State).

Definition ret {A} (a : A) : M A := fun s => Some (a, s).

Definition bind {A B} (m : M A) (f : A -> M B) : M B :=
  fun s => match m s with
           | Some (a, s') => f a s'
           | None => None
           end.

Notation "'do' x <- m ;; k" := (bind m (fun x => k))
  (at level 10, x name, m at level 99, k at level 200).
Notation "'run' m ;; k" := (bind m (fun _ => k))
  (at level 10, m at level 99, k at level 200).

(** An [int] operation inside the monad. *)
Definition lift {A} (o : option A) : M A :=
  fun s => match o with Some a => Some (a, s) | None => None end.

Definition emit (ev : Event) : M unit :=
  fun s => Some (tt, {| cache := cache s; trace := trace s ++ [ev] |}).

(** Dereference of an entry pointer; dangling pointers are undefined. *)
Definition entry_get (k : Key) : M Entry.t :=
  fun s => match cache s !! k with
           | Some e => Some (e, s)
           | None => None
           end.

Definition entry_put (k : Key) (e : Entry.t) : M unit :=
  fun s => Some (tt, {| cache := <[k := e]> (cache s); trace := trace s |}).

Definition entry_find (k : Key) : M (option Entry.t) :=
  fun s => Some (cache s !! k, s).

(** [cache.erase(entry)] *)
Definition entry_erase (k : Key) : M unit :=
  fun s => Some (tt, {| cache := delete k (cache s); trace := trace s |}).

(** ** VolumeFileCache *)

Module VolumeFileCache.

Definition add_metadata_user (template_entry : Key * Entry.t) : M Key :=
  let k := fst template_entry in
  run emit (Acquire GlobalCacheLock) ;;
  do it <- entry_find k ;;
  run match it with
      | None => entry_put k (Entry.copy (snd template_entry))
      | Some _ => ret tt
      end ;;
  do e <- entry_get k ;;
  do n <- lift (Int.add (Entry.num_metadata_users e) 1) ;;
  run entry_put k (Entry.with_metadata_users e n) ;;
  run emit (Release GlobalCacheLock) ;;
  ret k.

Definition copy_user (k : Key) (tree_user : bool) : M unit :=
  run emit (Acquire GlobalCacheLock) ;;
  do e <- entry_get k ;;
  run (if tree_user then
     do n <- lift (Int.add (Entry.num_tree_users e) 1) ;;
     entry_put k (Entry.with_tree_users e n)
   else
     do n <- lift (Int.add (Entry.num_metadata_users e) 1) ;;
     entry_put k (Entry.with_metadata_users e n)) ;;
  emit (Release GlobalCacheLock).

Definition update_for_remove_user (k : Key) : M unit :=
  do e <- entry_get k ;;
  do total <- lift (Int.add (Entry.num_metadata_users e) (Entry.num_tree_users e)) ;;
  if total =? 0 then entry_erase k
  else if Entry.num_tree_users e =? 0 then
    entry_put k (Entry.with_is_loaded (Entry.with_grid e (Grid_clear (Entry.grid e))) false)
  else ret tt.

Definition remove_user (k : Key) (tree_user : bool) : M unit :=
  run emit (Acquire GlobalCacheLock) ;;
  do e <- entry_get k ;;
  run (if tree_user then
     do n <- lift (Int.sub (Entry.num_tree_users e) 1) ;;
     entry_put k (Entry.with_tree_users e n)
   else
     do n <- lift (Int.sub (Entry.num_metadata_users e) 1) ;;
     entry_put k (Entry.with_metadata_users e n)) ;;
  run update_for_remove_user k ;;
  emit (Release GlobalCacheLock).

Definition change_to_tree_user (k : Key) : M unit :=
  run emit (Acquire GlobalCacheLock) ;;
  do e <- entry_get k ;;
  do t <- lift (Int.add (Entry.num_tree_users e) 1) ;;
  do m <- lift (Int.sub (Entry.num_metadata_users e) 1) ;;
  run entry_put k (Entry.with_metadata_users (Entry.with_tree_users e t) m) ;;
  run update_for_remove_user k ;;
  emit (Release GlobalCacheLock).

Definition change_to_metadata_user (k : Key) : M unit :=
  run emit (Acquire GlobalCacheLock) ;;
  do e <- entry_get k ;;
  do m <- lift (Int.add (Entry.num_metadata_users e) 1) ;;
  do t <- lift (Int.sub (Entry.num_tree_users e) 1) ;;
  run entry_put k (Entry.with_tree_users (Entry.with_metadata_users e m) t) ;;
  run update_for_remove_user k ;;
  emit (Release GlobalCacheLock).

End VolumeFileCache.

(** ** The outside world

    The BLI path and file helpers, the OpenVDB reader and [std::vector] are
    not part of the sources at hand: they are the fields of an environment.
    A reader call either returns or throws [openvdb::IoError] with a message
    (the only exception the code catches). The capacity of a [std::vector]
    is chosen by the standard library: [Vector_reallocates n] tells whether
    [emplace_back] on a vector that holds [n] elements finds the capacity
    used up. The loop that fills the grid vector meets every size once, so
    a function of the size covers every growth policy and every capacity
    the vector may start with. *)

Record Main := mkMain {
  main_name : string;
}.

Record Env := mkEnv {
  ID_BLEND_PATH : Main -> string -> string;
  BLI_path_abs : string -> string -> string;
  BLI_path_frame_get : string -> option (Z * Z);
  BLI_path_frame_strip : string -> string * string;
  BLI_path_frame : string -> Z -> Z -> string;
  BLI_path_extension_ensure : string -> string -> string;
  BLI_exists : string -> bool;
  BLI_split_file_part : string -> string;
  (* [file.open()]: [Some what] when it throws *)
  File_open : string -> option string;
  (* [file.readAllGridMetadata()] *)
  File_readAllGridMetadata : string -> string + list (option Grid);
  (* [file.readGrid(name)->baseTreePtr()] *)
  File_readGrid : string -> string -> string + Tree;
  (* [size() == capacity()] at an [emplace_back] *)
  Vector_reallocates : nat -> bool;
}.

Definition string_empty (s : string) : bool :=
  match s with
  | EmptyString => true
  | String _ _ => false
  end.

(** ** VolumeGrid *)

(** The [vdb] pointer of a handle either owns a procedural grid or is the
    pointer [entry->grid] of the entry of the handle: the constructor from a
    template copies that pointer, and the [grid] field of an entry is never
    assigned again. *)
Inductive GridPtr :=
| OwnGrid (g : Grid)
| EntryGrid.

Module VolumeGrid.

Record t := mk {
  vdb : GridPtr;
  entry : option Key;
  is_loaded : bool;
}.

Definition with_is_loaded (self : t) (b : bool) : t :=
  {| vdb := vdb self; entry := entry self; is_loaded := b |}.

(** [VolumeGrid(const VolumeFileCache::Entry &template_entry)] *)
Definition of_template (template_entry : Key * Entry.t) : M t :=
  do k <- VolumeFileCache.add_metadata_user template_entry ;;
  ret {| vdb := EntryGrid; entry := Some k; is_loaded := false |}.

(** [VolumeGrid(const openvdb::GridBase::Ptr &vdb)] *)
Definition of_vdb (g : Grid) : t :=
  {| vdb := OwnGrid g; entry := None; is_loaded := true |}.

(** [VolumeGrid(const VolumeGrid &other)] *)
Definition copy (other : t) : M t :=
  let self := {| vdb := vdb other; entry := entry other;
                 is_loaded := is_loaded other |} in
  run match entry self with
      | Some k => VolumeFileCache.copy_user k (is_loaded self)
      | None => ret tt
      end ;;
  ret self.

(** [~VolumeGrid()] *)
Definition destroy (self : t) : M unit :=
  match entry self with
  | Some k => VolumeFileCache.remove_user k (is_loaded self)
  | None => ret tt
  end.

Definition name (self : t) : M string :=
  match vdb self with
  | OwnGrid g => ret (Grid_getName g)
  | EntryGrid =>
      match entry self with
      | Some k => do e <- entry_get k ;; ret (Grid_getName (Entry.grid e))
      | None => fun _ => None
      end
  end.

(** The [try] block of [load]: open the file, read the grid of that name
    and attach its tree; on [IoError] store the message. *)
Definition read_tree (env : Env) (k : Key) (filepath nm : string) : M unit :=
  run emit (FileOpen filepath) ;;
  match File_open env filepath with
  | Some what =>
      do e <- entry_get k ;; entry_put k (Entry.with_error_msg e what)
  | None =>
      run emit (FileReadGrid filepath nm) ;;
      match File_readGrid env filepath nm with
      | inr tree =>
          do e <- entry_get k ;;
          entry_put k (Entry.with_grid e (Grid_setTree (Entry.grid e) tree))
      | inl what =>
          do e <- entry_get k ;; entry_put k (Entry.with_error_msg e what)
      end
  end.

Definition load (env : Env) (self : t) (volume_name filepath : string) : M t :=
  match entry self with
  | None => ret self
  | Some k =>
      (* If already loaded or not file-backed, nothing to do. *)
      if is_loaded self then ret self
      else
        (* Double-checked lock. *)
        run emit (Acquire (EntryLock k)) ;;
        if is_loaded self then
          run emit (Release (EntryLock k)) ;; ret self
        else
          (* Change metadata user to tree user. *)
          run VolumeFileCache.change_to_tree_user k ;;
          do e <- entry_get k ;;
          (* If already loaded by another user, nothing further to do. *)
          if Entry.is_loaded e then
            run emit (Release (EntryLock k)) ;;
            ret (with_is_loaded self true)
          else
            (* Load grid from file. *)
            do nm <- name self ;;
            run read_tree env k filepath nm ;;
            do e <- entry_get k ;;
            run entry_put k (Entry.with_is_loaded e true) ;;
            run emit (Release (EntryLock k)) ;;
            ret (with_is_loaded self true)
  end.

Definition unload (self : t) (volume_name : string) : M t :=
  match entry self with
  | None => ret self
  | Some k =>
      (* Not loaded or not file-backed, nothing to do. *)
      if negb (is_loaded self) then ret self
      else
        (* Double-checked lock. *)
        run emit (Acquire (EntryLock k)) ;;
        if negb (is_loaded self) then
          run emit (Release (EntryLock k)) ;; ret self
        else
          (* Change tree user to metadata user. *)
          run VolumeFileCache.change_to_metadata_user k ;;
          run emit (Release (EntryLock k)) ;;
          ret (with_is_loaded self false)
  end.

Definition error_message (self : t) : M (option string) :=
  match entry self with
  | Some k =>
      if is_loaded self then
        do e <- entry_get k ;;
        ret (if negb (string_empty (Entry.error_msg e)) then Some (Entry.error_msg e)
             else None)
      else ret None
  | None => ret None
  end.

End VolumeGrid.

(** ** VolumeGridVector *)

Module VolumeGridVector.

Record t := mk {
  grids : list VolumeGrid.t;
  filepath : string;
  error_msg : string;
}.

(** [VolumeGridVector()] *)
Definition empty : t := {| grids := []; filepath := ""; error_msg := "" |}.

Definition is_loaded (self : t) : bool := negb (string_empty (filepath self)).

Definition with_filepath (self : t) (p : string) : t :=
  {| grids := grids self; filepath := p; error_msg := error_msg self |}.

Definition with_error_msg (self : t) (msg : string) : t :=
  {| grids := grids self; filepath := filepath self; error_msg := msg |}.

Definition with_grids (self : t) (l : list VolumeGrid.t) : t :=
  {| grids := l; filepath := filepath self; error_msg := error_msg self |}.

End VolumeGridVector.

(** ** Volume datablock *)

Inductive VolumeSequenceMode :=
| VOLUME_SEQUENCE_CLIP
| VOLUME_SEQUENCE_EXTEND
| VOLUME_SEQUENCE_REPEAT
| VOLUME_SEQUENCE_PING_PONG.

(** The fields of [Volume] (DNA_volume_types.h) that this file reads and
    writes; [runtime_grids] is the vector behind [runtime.grids], which is
    allocated by [BKE_volume_init_grids]. *)
Record Volume := mkVolume {
  id_name : string;
  filepath : string;
  is_sequence : bool;
  sequence_mode : VolumeSequenceMode;
  frame_duration : Z;
  frame_start : Z;
  frame_offset : Z;
  active_grid : Z;
  runtime_frame : Z;
  runtime_grids : VolumeGridVector.t;
}.

Definition Volume_with_grids (v : Volume) (g : VolumeGridVector.t) : Volume :=
  {| id_name := id_name v; filepath := filepath v;
     is_sequence := is_sequence v; sequence_mode := sequence_mode v;
     frame_duration := frame_duration v; frame_start := frame_start v;
     frame_offset := frame_offset v; active_grid := active_grid v;
     runtime_frame := runtime_frame v; runtime_grids := g |}.

Definition Volume_with_sequence (v : Volume) (mode : VolumeSequenceMode)
    (duration start offset : Z) : Volume :=
  {| id_name := id_name v; filepath := filepath v;
     is_sequence := true; sequence_mode := mode;
     frame_duration := duration; frame_start := start;
     frame_offset := offset; active_grid := active_grid v;
     runtime_frame := runtime_frame v; runtime_grids := runtime_grids v |}.

(** ** Sequence *)

(** How the [switch] of [volume_sequence_frame] is left: by [return] with a
    value, or by [break] with the current [frame]. *)
Inductive Switch :=
| Return (value : Z)
| Break (frame : Z).

(** The [switch (mode)] statement, on the frame relative to the start;
    [None] where the C arithmetic is undefined. *)
Definition volume_sequence_switch (mode : VolumeSequenceMode)
    (frame_duration frame : Z) : option Switch :=
  match mode with
  | VOLUME_SEQUENCE_CLIP =>
      if (frame <? 1) || (frame >? frame_duration) then
        Some (Return VOLUME_FRAME_NONE)
      else Some (Break frame)
  | VOLUME_SEQUENCE_EXTEND =>
      Some (Break (clamp_i frame 1 frame_duration))
  | VOLUME_SEQUENCE_REPEAT =>
      frame ← Int.rem frame frame_duration;
      frame ← (if frame <? 0 then Int.add frame frame_duration else Some frame);
      let frame := if frame =? 0 then frame_duration else frame in
      Some (Break frame)
  | VOLUME_SEQUENCE_PING_PONG =>
      twice ← Int.mul frame_duration 2;
      pingpong_duration ← Int.sub twice 2;
      frame ← Int.rem frame pingpong_duration;
      frame ← (if frame <? 0 then Int.add frame pingpong_duration
               else Some frame);
      let frame := if frame =? 0 then pingpong_duration else frame in
      frame ← (if frame >? frame_duration then
                 twice ← Int.mul frame_duration 2; Int.sub twice frame
               else Some frame);
      Some (Break frame)
  end.

(** [volume_sequence_frame]. [scene_frame] is the [int] that the scene time
    [DEG_get_ctime(depsgraph)] converts to. *)
Definition volume_sequence_frame (scene_frame : Z) (volume : Volume)
    : option Z :=
  if negb (is_sequence volume) then Some 0
  else
    let mode := sequence_mode volume in
    let frame_duration := frame_duration volume in
    let frame_start := frame_start volume in
    let frame_offset := frame_offset volume in
    if frame_duration =? 0 then Some VOLUME_FRAME_NONE
    else
      diff ← Int.sub scene_frame frame_start;
      frame ← Int.add diff 1;
      sw ← volume_sequence_switch mode frame_duration frame;
      match sw with
      | Return value => Some value
      | Break frame =>
          (* important to apply after else we cant loop on frames 100 - 110 *)
          Int.add frame frame_offset
      end.

Definition volume_filepath_get (env : Env) (bmain : Main) (volume : Volume)
    : string :=
  let r_filepath :=
    BLI_path_abs env (filepath volume)
      (ID_BLEND_PATH env bmain (id_name volume)) in
  if is_sequence volume then
    match BLI_path_frame_get env r_filepath with
    | Some (fframe, frame_len) =>
        let stripped := BLI_path_frame_strip env r_filepath in
        BLI_path_extension_ensure env
          (BLI_path_frame env (fst stripped) (runtime_frame volume) frame_len)
          (snd stripped)
    | None => r_filepath
    end
  else r_filepath.

(** ** File Load *)

Definition BKE_volume_is_loaded (volume : Volume) : bool :=
  string_empty (filepath volume)
  || VolumeGridVector.is_loaded (runtime_grids volume).

(** [grids.clear()], and the destruction of the old elements when the
    vector moves to new storage: the handles are destroyed front to back. *)
Fixpoint clear_grids (grids : list VolumeGrid.t) : M unit :=
  match grids with
  | [] => ret tt
  | g :: rest => run VolumeGrid.destroy g ;; clear_grids rest
  end.

(** The elements of a vector that moves to new storage are copied front to
    back: [VolumeGrid] declares a copy constructor and a destructor, hence
    has no move constructor. *)
Fixpoint copy_grids (grids : list VolumeGrid.t) : M (list VolumeGrid.t) :=
  match grids with
  | [] => ret []
  | g :: rest =>
      do g' <- VolumeGrid.copy g ;;
      do rest' <- copy_grids rest ;;
      ret (g' :: rest')
  end.

(** [grids.emplace_back(template_entry)]. With spare capacity the new handle
    is constructed behind the others. Without, the vector moves to new
    storage: it constructs the new handle there, copies the handles it holds
    and destroys the old ones. *)
Definition emplace_back (env : Env) (grids : list VolumeGrid.t)
    (template_entry : Key * Entry.t) : M (list VolumeGrid.t) :=
  if Vector_reallocates env (length grids) then
    do g <- VolumeGrid.of_template template_entry ;;
    do copies <- copy_grids grids ;;
    run clear_grids grids ;;
    ret (copies ++ [g])
  else
    do g <- VolumeGrid.of_template template_entry ;;
    ret (grids ++ [g]).

(** The loop that adds the grids read from the file to the vector,
    filtering out any null pointers. *)
Fixpoint add_grids (env : Env) (path : string) (vdb_grids : list (option Grid))
    (grids : list VolumeGrid.t) : M (list VolumeGrid.t) :=
  match vdb_grids with
  | [] => ret grids
  | None :: rest => add_grids env path rest grids
  | Some vdb_grid :: rest =>
      do grids <- emplace_back env grids (Entry.new path vdb_grid) ;;
      add_grids env path rest grids
  end.

(** The [try] block of [BKE_volume_load]: the grids that were read and the
    error message of the vector afterwards. *)
Definition read_metadata (env : Env) (path : string) (error_msg : string)
    : M (list (option Grid) * string) :=
  run emit (FileOpen path) ;;
  match File_open env path with
  | Some what => ret ([], what)
  | None =>
      run emit (FileReadAllGridMetadata path) ;;
      match File_readAllGridMetadata env path with
      | inr vdb_grids => ret (vdb_grids, error_msg)
      | inl what => ret ([], what)
      end
  end.

Definition not_found (env : Env) (volume : Volume) (grids : VolumeGridVector.t)
    : M (bool * Volume) :=
  let filename := BLI_split_file_part env (VolumeGridVector.filepath grids) in
  let grids := VolumeGridVector.with_error_msg grids (filename +:+ " not found") in
  run emit (Release GridsLock) ;;
  ret (false, Volume_with_grids volume grids).

Definition BKE_volume_load (env : Env) (volume : Volume) (bmain : Main)
    : M (bool * Volume) :=
  let grids := runtime_grids volume in
  if runtime_frame volume =? VOLUME_FRAME_NONE then
    (* Skip loading this frame, outside of sequence range. *)
    ret (true, volume)
  else if BKE_volume_is_loaded volume then
    ret (string_empty (VolumeGridVector.error_msg grids), volume)
  else
    (* Double-checked lock. *)
    run emit (Acquire GridsLock) ;;
    if BKE_volume_is_loaded volume then
      run emit (Release GridsLock) ;;
      ret (string_empty (VolumeGridVector.error_msg grids), volume)
    else
      (* Get absolute file path at current frame. *)
      let grids :=
        VolumeGridVector.with_filepath grids
          (volume_filepath_get env bmain volume) in
      let path := VolumeGridVector.filepath grids in
      (* Test if file exists. *)
      run emit (FileExists path) ;;
      if negb (BLI_exists env path) then not_found env volume grids
      else
        (* Test if file exists. *)
        run emit (FileExists path) ;;
        if negb (BLI_exists env path) then not_found env volume grids
        else
          (* Open OpenVDB file. *)
          do r <- read_metadata env path (VolumeGridVector.error_msg grids) ;;
          let grids := VolumeGridVector.with_error_msg grids (snd r) in
          (* Add grids read from file to own vector. *)
          do l <- add_grids env path (fst r) (VolumeGridVector.grids grids) ;;
          let grids := VolumeGridVector.with_grids grids l in
          run emit (Release GridsLock) ;;
          ret (string_empty (VolumeGridVector.error_msg grids),
               Volume_with_grids volume grids).

Definition BKE_volume_unload (volume : Volume) : M Volume :=
  let grids := runtime_grids volume in
  if negb (string_empty (VolumeGridVector.filepath grids)) then
    run clear_grids (VolumeGridVector.grids grids) ;;
    ret (Volume_with_grids volume VolumeGridVector.empty)
  else ret volume.

(** ** Grids *)

(** [size_t] to [int]: the value modulo 2^32, read as a signed number. *)
Definition int_of_size (n : nat) : Z :=
  let r := Z.of_nat n mod 4294967296 in
  if r <=? Int.INT_MAX then r else r - 4294967296.

Definition BKE_volume_num_grids (volume : Volume) : Z :=
  int_of_size (length (VolumeGridVector.grids (runtime_grids volume))).

(** A [VolumeGrid *] result: null, the address of the element at an index
    of the vector, or no result because [std::vector::at] threw. *)
Inductive GridRef :=
| GridNull
| GridAt (index : nat) (g : VolumeGrid.t)
| GridOutOfRange.

Definition BKE_volume_grid_get (volume : Volume) (grid_index : Z) : GridRef :=
  if grid_index <? 0 then GridOutOfRange
  else
    match VolumeGridVector.grids (runtime_grids volume) !! Z.to_nat grid_index with
    | Some g => GridAt (Z.to_nat grid_index) g
    | None => GridOutOfRange
    end.

Definition BKE_volume_grid_active_get (volume : Volume) : option GridRef :=
  let num_grids := BKE_volume_num_grids volume in
  if num_grids =? 0 then Some GridNull
  else
    last ← Int.sub num_grids 1;
    let index := clamp_i (active_grid volume) 0 last in
    Some (BKE_volume_grid_get volume index).

(** ** Operations as data

    The methods of the cache and of the handles, for statements that range
    over all of them. *)

Inductive CacheOp :=
| AddMetadataUser (template_entry : Key * Entry.t)
| CopyUser (k : Key) (tree_user : bool)
| RemoveUser (k : Key) (tree_user : bool)
| ChangeToTreeUser (k : Key)
| ChangeToMetadataUser (k : Key).

Definition run_cache_op (op : CacheOp) : M unit :=
  match op with
  | AddMetadataUser t => do _ <- VolumeFileCache.add_metadata_user t ;; ret tt
  | CopyUser k b => VolumeFileCache.copy_user k b
  | RemoveUser k b => VolumeFileCache.remove_user k b
  | ChangeToTreeUser k => VolumeFileCache.change_to_tree_user k
  | ChangeToMetadataUser k => VolumeFileCache.change_to_metadata_user k
  end.

Inductive GridOp :=
| Construct (template_entry : Key * Entry.t)
| Copy (g : VolumeGrid.t)
| Destroy (g : VolumeGrid.t)
| Load (g : VolumeGrid.t) (volume_name filepath : string)
| Unload (g : VolumeGrid.t) (volume_name : string).

Definition run_grid_op (env : Env) (op : GridOp) : M unit :=
  match op with
  | Construct t => do _ <- VolumeGrid.of_template t ;; ret tt
  | Copy g => do _ <- VolumeGrid.copy g ;; ret tt
  | Destroy g => VolumeGrid.destroy g
  | Load g volume_name filepath =>
      do _ <- VolumeGrid.load env g volume_name filepath ;; ret tt
  | Unload g volume_name => do _ <- VolumeGrid.unload g volume_name ;; ret tt
  end.

(** The three counter mutations that end in [update_for_remove_user]. *)
Inductive Mutation :=
| MutRemoveUser (tree_user : bool)
| MutChangeToTreeUser
| MutChangeToMetadataUser.

Definition run_mutation (mu : Mutation) (k : Key) : M unit :=
  match mu with
  | MutRemoveUser b => VolumeFileCache.remove_user k b
  | MutChangeToTreeUser => VolumeFileCache.change_to_tree_user k
  | MutChangeToMetadataUser => VolumeFileCache.change_to_metadata_user k
  end.

(** Specification side: the metadata and tree user counts that a mutation
    asks for, before the eviction check looks at them. *)
Definition mutated_counts (mu : Mutation) (e : Entry.t) : Z * Z :=
  let m := Entry.num_metadata_users e in
  let t := Entry.num_tree_users e in
  match mu with
  | MutRemoveUser true => (m, t - 1)
  | MutRemoveUser false => (m - 1, t)
  | MutChangeToTreeUser => (m - 1, t + 1)
  | MutChangeToMetadataUser => (m + 1, t - 1)
  end.

(** Specification side: whether the arithmetic of a mutation stays inside
    [int] on an entry, check by check as the method performs it. *)
Definition mutation_defined (mu : Mutation) (e : Entry.t) : bool :=
  let m := Entry.num_metadata_users e in
  let t := Entry.num_tree_users e in
  match mu with
  | MutRemoveUser true => Int.in_range (t - 1) && Int.in_range (m + (t - 1))
  | MutRemoveUser false => Int.in_range (m - 1) && Int.in_range (m - 1 + t)
  | MutChangeToTreeUser =>
      Int.in_range (t + 1) && Int.in_range (m - 1)
      && Int.in_range (m - 1 + (t + 1))
  | MutChangeToMetadataUser =>
      Int.in_range (m + 1) && Int.in_range (t - 1)
      && Int.in_range (m + 1 + (t - 1))
  end.

(** Specification side: the entry with both counts replaced, and the cache
    once the eviction check has looked at entry [e] of key [k]. *)
Definition with_counts (e : Entry.t) (m t : Z) : Entry.t :=
  Entry.with_tree_users (Entry.with_metadata_users e m) t.

Definition cleared (e : Entry.t) : Entry.t :=
  Entry.with_is_loaded (Entry.with_grid e (Grid_clear (Entry.grid e))) false.

Definition evicted (k : Key) (e : Entry.t) (c : gmap Key Entry.t)
    : gmap Key Entry.t :=
  if Entry.num_metadata_users e + Entry.num_tree_users e =? 0 then delete k c
  else if Entry.num_tree_users e =? 0 then <[k := cleared e]> c
  else <[k := e]> c.

(** Specification side: what [name()] returns for a handle whose entry
    is [e]. *)
Definition name_of (g : VolumeGrid.t) (e : Entry.t) : string :=
  match VolumeGrid.vdb g with
  | OwnGrid vdb => Grid_getName vdb
  | EntryGrid => Grid_getName (Entry.grid e)
  end.

(** Specification side: the entry once [load] has gone through its [try]
    block and has set [is_loaded], and the file events of the block. *)
Definition tree_read (env : Env) (filepath nm : string) (e : Entry.t)
    : Entry.t * list Event :=
  match File_open env filepath with
  | Some what =>
      (Entry.with_is_loaded (Entry.with_error_msg e what) true,
       [FileOpen filepath])
  | None =>
      match File_readGrid env filepath nm with
      | inr tree =>
          (Entry.with_is_loaded
             (Entry.with_grid e (Grid_setTree (Entry.grid e) tree)) true,
           [FileOpen filepath; FileReadGrid filepath nm])
      | inl what =>
          (Entry.with_is_loaded (Entry.with_error_msg e what) true,
           [FileOpen filepath; FileReadGrid filepath nm])
      end
  end.

(** Specification side: the entry that [change_to_tree_user] leaves for a
    handle to look at. *)
Definition promoted (e : Entry.t) : Entry.t :=
  let e1 := with_counts e (Entry.num_metadata_users e - 1)
              (Entry.num_tree_users e + 1) in
  if Entry.num_tree_users e + 1 =? 0 then cleared e1 else e1.

(** Specification side: every entry of the cache has a user. *)
Definition users_positive (c : gmap Key Entry.t) : Prop :=
  forall k e, c !! k = Some e ->
    1 <= Entry.num_metadata_users e + Entry.num_tree_users e.

(** Specification side: the counters of an entry count handles, and one
    more handle can be counted. *)
Definition counts_sane (e : Entry.t) : Prop :=
  0 <= Entry.num_metadata_users e /\ 0 <= Entry.num_tree_users e
  /\ 1 <= Entry.num_metadata_users e + Entry.num_tree_users e < Int.INT_MAX.

(** Specification side: reading the tree of grid [nm] of the file throws
    [IoError] with the message [what]. *)
Definition read_fails (env : Env) (filepath nm what : string) : Prop :=
  File_open env filepath = Some what
  \/ (File_open env filepath = None
      /\ File_readGrid env filepath nm = inl what).

(** States that the cache and handle methods can produce from an empty
    cache. *)
Inductive reachable (env : Env) : State -> Prop :=
| reachable_init tr : reachable env {| cache := ∅; trace := tr |}
| reachable_cache st op st' :
    reachable env st -> run_cache_op op st = Some (tt, st') ->
    reachable env st'
| reachable_grid st op st' :
    reachable env st -> run_grid_op env op st = Some (tt, st') ->
    reachable env st'.

(** ** Reading the trace *)

Global Instance Lock_eq_dec : EqDecision Lock.
Proof. solve_decision. Defined.

Definition is_io (ev : Event) : bool :=
  match ev with
  | Acquire _ | Release _ => false
  | FileExists _ | FileOpen _ | FileReadAllGridMetadata _ | FileReadGrid _ _ =>
      true
  end.

Fixpoint io_events (tr : list Event) : list Event :=
  match tr with
  | [] => []
  | ev :: rest => if is_io ev then ev :: io_events rest else io_events rest
  end.

(** The events of one call of a cache method. *)
Definition locked : list Event :=
  [Acquire GlobalCacheLock; Release GlobalCacheLock].

Fixpoint release (l : Lock) (held : list Lock) : list Lock :=
  match held with
  | [] => []
  | l' :: rest => if decide (l = l') then rest else l' :: release l rest
  end.

(** The locks held after an event, given those held before it. *)
Definition held_after (held : list Lock) (ev : Event) : list Lock :=
  match ev with
  | Acquire l => l :: held
  | Release l => release l held
  | _ => held
  end.

Definition is_global (l : Lock) : bool :=
  match l with
  | GlobalCacheLock => true
  | _ => false
  end.

(** The locks held once a trace is over. *)
Fixpoint held_at_end (held : list Lock) (tr : list Event) : list Lock :=
  match tr with
  | [] => held
  | ev :: rest => held_at_end (held_after held ev) rest
  end.

(** A check of every event of a trace against the locks held before it. *)
Fixpoint all_steps (check : list Lock -> Event -> bool) (held : list Lock)
    (tr : list Event) : bool :=
  match tr with
  | [] => true
  | ev :: rest => check held ev && all_steps check (held_after held ev) rest
  end.

(** At most [n] locks are held after every event. *)
Definition locks_at_most (n : nat) (held : list Lock) (tr : list Event) : bool :=
  all_steps (fun held ev => (length (held_after held ev) <=? n)%nat) held tr.

(** No two locks are ever held together. *)
Definition one_lock_at_a_time (tr : list Event) : bool := locks_at_most 1 [] tr.

(** No file access happens while the global cache lock is held. *)
Definition no_io_under_global (held : list Lock) (tr : list Event) : bool :=
  all_steps (fun held ev => negb (is_io ev && existsb is_global held)) held tr.

(** The nesting the code has: an entry lock or the grids lock is taken
    with no lock held, the global cache lock is taken with at most one
    other lock held and nothing is taken under it. *)
Definition may_acquire (held : list Lock) (l : Lock) : bool :=
  if is_global l then
    (length held <=? 1)%nat && negb (existsb is_global held)
  else
    match held with
    | [] => true
    | _ :: _ => false
    end.

Definition nested_locks (held : list Lock) (tr : list Event) : bool :=
  all_steps (fun held ev =>
               match ev with
               | Acquire l => may_acquire held l
               | _ => true
               end) held tr.

(** The discipline of a piece of a trace that starts with the locks
    [held] and ends with the locks [held']. *)
Definition segment (held : list Lock) (tr : list Event) (held' : list Lock)
    : Prop :=
  nested_locks held tr = true
  /\ locks_at_most 2 held tr = true
  /\ no_io_under_global held tr = true
  /\ held_at_end held tr = held'.

(** The discipline of one operation: it starts and ends with no lock. *)
Definition lock_discipline (tr : list Event) : Prop := segment [] tr [].

(** [n] calls of cache methods in a row. *)
Fixpoint locked_times (n : nat) : list Event :=
  match n with
  | O => []
  | S n => locked ++ locked_times n
  end.

(** ** A small world

    One file with the grids "density" and "heat", for statements at
    concrete inputs. *)

Module Sample.

(** The part of a path after its last slash. *)
Fixpoint file_part (acc s : string) : string :=
  match s with
  | EmptyString => acc
  | String c rest =>
      if Ascii.eqb c (Ascii.ascii_of_nat 47) then file_part "" rest
      else file_part (acc +:+ String c "") rest
  end.

Definition path : string := "/vdb/smoke.vdb".

Definition env : Env :=
  {| ID_BLEND_PATH := fun bmain _ => main_name bmain;
     BLI_path_abs := fun p base => "/vdb/" +:+ p;
     BLI_path_frame_get := fun _ => None;
     BLI_path_frame_strip := fun p => (p, "");
     BLI_path_frame := fun p _ _ => p;
     BLI_path_extension_ensure := fun p _ => p;
     BLI_exists := fun p => String.eqb p path;
     BLI_split_file_part := file_part "";
     File_open := fun _ => None;
     File_readAllGridMetadata :=
       fun _ => inr [Some (mkGrid "density" []); None; Some (mkGrid "heat" [])];
     File_readGrid :=
       fun _ nm => if String.eqb nm "density" then inr [4; 8; 15]
                   else inl "Cannot read grid";
     (* capacities 0, 1, 2, 4, 8, ... *)
     Vector_reallocates :=
       fun n => match n with
                | O => true
                | S _ => Nat.eqb (2 ^ Nat.log2 n) n
                end |}.

Definition key : Key := (path, "density").
Definition key_heat : Key := (path, "heat").

(** An entry with one metadata user and no tree. *)
Definition entry_metadata (nm : string) : Entry.t :=
  {| Entry.grid := mkGrid nm []; Entry.is_loaded := false;
     Entry.error_msg := ""; Entry.num_metadata_users := 1;
     Entry.num_tree_users := 0 |}.

(** An entry with one metadata user, one tree user and its tree. *)
Definition entry_tree : Entry.t :=
  {| Entry.grid := mkGrid "density" [4; 8; 15]; Entry.is_loaded := true;
     Entry.error_msg := ""; Entry.num_metadata_users := 1;
     Entry.num_tree_users := 1 |}.

Definition state_metadata : State :=
  {| cache := {[ key := entry_metadata "density" ]}; trace := [] |}.

Definition state_heat : State :=
  {| cache := {[ key_heat := entry_metadata "heat" ]}; trace := [] |}.

Definition state_tree : State :=
  {| cache := {[ key := entry_tree ]}; trace := [] |}.

Definition handle (k : Key) (loaded : bool) : VolumeGrid.t :=
  {| VolumeGrid.vdb := EntryGrid; VolumeGrid.entry := Some k;
     VolumeGrid.is_loaded := loaded |}.

Definition volume (file : string) : Volume :=
  {| id_name := "VOsmoke"; filepath := file; is_sequence := false;
     sequence_mode := VOLUME_SEQUENCE_CLIP; frame_duration := 0;
     frame_start := 1; frame_offset := 0; active_grid := 0;
     runtime_frame := 0; runtime_grids := VolumeGridVector.empty |}.

Definition bmain : Main := {| main_name := "/project/scene.blend" |}.

End Sample.

(** ** Sequence frames in closed form *)

(** Specification side: the frame relative to the start of the sequence. *)
Definition relative_frame (scene_frame start : Z) : Z := scene_frame - start + 1.

(** Specification side: the frame of a repeating sequence, by the modulo of
    mathematics (the remainder that is never negative). *)
Definition repeat_frame (duration raw : Z) : Z := (raw - 1) mod duration + 1.

(** Specification side: the frame of a sequence that plays forwards and
    backwards in turn. *)
Definition ping_pong_frame (duration raw : Z) : Z :=
  let q := (raw - 1) mod (duration * 2 - 2) + 1 in
  if q <=? duration then q else duration * 2 - q.

(** Specification side: the arithmetic of [volume_sequence_frame] on a
    sequence of [duration] frames stays inside [int] at this scene frame. *)
Definition sequence_args_ok (scene_frame start offset duration : Z) : Prop :=
  Int.in_range (scene_frame - start) = true
  /\ Int.in_range (relative_frame scene_frame start) = true
  /\ Int.in_range duration = true
  /\ Int.in_range (1 + offset) = true
  /\ Int.in_range (duration + offset) = true.

(** ** Live handles

    The grid handles that are alive (the elements of all grid vectors), next
    to the cache in which they are counted. A handle is named by its index
    in the list. *)

Record World := mkWorld {
  world_state : State;
  handles : list VolumeGrid.t;
}.

Definition world_empty : World :=
  {| world_state := {| cache := ∅; trace := [] |}; handles := [] |}.

(** What can happen to a handle: the three constructors, the destructor
    and the two methods. *)
Inductive HandleOp :=
| HOfTemplate (filepath : string) (vdb_grid : Grid)
| HOfVdb (vdb : Grid)
| HCopy (i : nat)
| HDestroy (i : nat)
| HLoad (i : nat) (volume_name filepath : string)
| HUnload (i : nat) (volume_name : string).

Definition world_step (env : Env) (op : HandleOp) (w : World) : option World :=
  match op with
  | HOfTemplate filepath vdb_grid =>
      r ← VolumeGrid.of_template (Entry.new filepath vdb_grid) (world_state w);
      Some {| world_state := snd r; handles := handles w ++ [fst r] |}
  | HOfVdb vdb =>
      Some {| world_state := world_state w;
              handles := handles w ++ [VolumeGrid.of_vdb vdb] |}
  | HCopy i =>
      g ← handles w !! i;
      r ← VolumeGrid.copy g (world_state w);
      Some {| world_state := snd r; handles := handles w ++ [fst r] |}
  | HDestroy i =>
      g ← handles w !! i;
      r ← VolumeGrid.destroy g (world_state w);
      Some {| world_state := snd r; handles := delete i (handles w) |}
  | HLoad i volume_name filepath =>
      g ← handles w !! i;
      r ← VolumeGrid.load env g volume_name filepath (world_state w);
      Some {| world_state := snd r; handles := <[i := fst r]> (handles w) |}
  | HUnload i volume_name =>
      g ← handles w !! i;
      r ← VolumeGrid.unload g volume_name (world_state w);
      Some {| world_state := snd r; handles := <[i := fst r]> (handles w) |}
  end.

Fixpoint world_run (env : Env) (ops : list HandleOp) (w : World)
    : option World :=
  match ops with
  | [] => Some w
  | op :: rest => w' ← world_step env op w; world_run env rest w'
  end.

(** Whether a handle is a user of the entry [k], of the tree-user kind for
    [tree_user = true] and of the metadata-user kind otherwise. *)
Definition uses (k : Key) (tree_user : bool) (g : VolumeGrid.t) : bool :=
  match VolumeGrid.entry g with
  | Some k' => bool_decide (k' = k) && Bool.eqb (VolumeGrid.is_loaded g) tree_user
  | None => false
  end.

Fixpoint count_users (k : Key) (tree_user : bool) (l : list VolumeGrid.t) : Z :=
  match l with
  | [] => 0
  | g :: rest =>
      (if uses k tree_user g then 1 else 0) + count_users k tree_user rest
  end.

(** The counters of the cache are the numbers of live handles. *)
Definition counted (w : World) : Prop :=
  forall k,
    match cache (world_state w) !! k with
    | Some e =>
        Entry.num_metadata_users e = count_users k false (handles w)
        /\ Entry.num_tree_users e = count_users k true (handles w)
        /\ 1 <= Entry.num_metadata_users e + Entry.num_tree_users e
    | None =>
        count_users k false (handles w) = 0
        /\ count_users k true (handles w) = 0
    end.

(** An entry is marked loaded exactly while it has tree users. *)
Definition resident (w : World) : Prop :=
  forall k e, cache (world_state w) !! k = Some e ->
    (Entry.is_loaded e = true <-> 1 <= Entry.num_tree_users e).

(** The two conditions together, on one key of the cache. *)
Definition key_ok (c : gmap Key Entry.t) (l : list VolumeGrid.t) (k : Key)
    : Prop :=
  match c !! k with
  | Some e =>
      Entry.num_metadata_users e = count_users k false l
      /\ Entry.num_tree_users e = count_users k true l
      /\ 1 <= Entry.num_metadata_users e + Entry.num_tree_users e
      /\ (Entry.is_loaded e = true <-> 1 <= Entry.num_tree_users e)
  | None => count_users k false l = 0 /\ count_users k true l = 0
  end.

(** ** More of the datablock functions *)

(** [VolumeGridVector(const VolumeGridVector &other)]: the initializer list
    names [error_msg] only, so the [std::vector] base of the copy is
    default-constructed and no handle is copied; the body copies the file
    path. *)
Definition VolumeGridVector_copy (other : VolumeGridVector.t)
    : VolumeGridVector.t :=
  {| VolumeGridVector.grids := [];
     VolumeGridVector.filepath := VolumeGridVector.filepath other;
     VolumeGridVector.error_msg := VolumeGridVector.error_msg other |}.

(** [BKE_volume_copy_data], on the grids; [volume_dst] arrives as the
    byte copy of [volume_src] that the library code makes. The packed file
    and the materials are not modelled. *)
Definition BKE_volume_copy_data (volume_dst volume_src : Volume) : Volume :=
  Volume_with_grids volume_dst (VolumeGridVector_copy (runtime_grids volume_src)).

Definition Volume_with_frame (v : Volume) (frame : Z) : Volume :=
  {| id_name := id_name v; filepath := filepath v;
     is_sequence := is_sequence v; sequence_mode := sequence_mode v;
     frame_duration := frame_duration v; frame_start := frame_start v;
     frame_offset := frame_offset v; active_grid := active_grid v;
     runtime_frame := frame; runtime_grids := runtime_grids v |}.

(** [BKE_volume_eval_geometry]. [scene_frame] is the scene time of the
    depsgraph as an [int], [is_active] is [DEG_is_active(depsgraph)], and
    [volume_orig] is the original datablock where that is another object
    than [volume]. *)
Definition BKE_volume_eval_geometry (scene_frame : Z) (is_active : bool)
    (volume : Volume) (volume_orig : option Volume)
    : M (Volume * option Volume) :=
  do frame <- lift (volume_sequence_frame scene_frame volume) ;;
  do volume <-
    (if negb (frame =? runtime_frame volume) then
       do volume <- BKE_volume_unload volume ;;
       ret (Volume_with_frame volume frame)
     else ret volume) ;;
  (* Flush back to original. *)
  if is_active then
    ret (volume,
         (fun orig => Volume_with_frame orig (runtime_frame volume))
           <$> volume_orig)
  else ret (volume, volume_orig).

(** [BKE_volume_grid_load]; the [grid] pointer is the element [grid] of the
    vector of the volume. The volume name is only logged. *)
Definition BKE_volume_grid_load (env : Env) (volume : Volume) (grid : nat)
    : M (bool * Volume) :=
  let grids := runtime_grids volume in
  match VolumeGridVector.grids grids !! grid with
  | None => fun _ => None
  | Some g =>
      do g <- VolumeGrid.load env g (id_name volume)
                (VolumeGridVector.filepath grids) ;;
      let grids :=
        VolumeGridVector.with_grids grids
          (<[grid := g]> (VolumeGridVector.grids grids)) in
      do error_msg <- VolumeGrid.error_message g ;;
      match error_msg with
      | Some msg =>
          ret (false,
               Volume_with_grids volume
                 (VolumeGridVector.with_error_msg grids msg))
      | None => ret (true, Volume_with_grids volume grids)
      end
  end.

(** [BKE_volume_grid_unload] *)
Definition BKE_volume_grid_unload (volume : Volume) (grid : nat) : M Volume :=
  let grids := runtime_grids volume in
  match VolumeGridVector.grids grids !! grid with
  | None => fun _ => None
  | Some g =>
      do g <- VolumeGrid.unload g (id_name volume) ;;
      ret (Volume_with_grids volume
             (VolumeGridVector.with_grids grids
                (<[grid := g]> (VolumeGridVector.grids grids))))
  end.




(** Specification side: the handles that a collection load makes for the
    grids that the file enumeration returned. *)
Fixpoint handles_of (path : string) (vdb_grids : list (option Grid))
    : list VolumeGrid.t :=
  match vdb_grids with
  | [] => []
  | None :: rest => handles_of path rest
  | Some vdb_grid :: rest =>
      {| VolumeGrid.vdb := EntryGrid;
         VolumeGrid.entry := Some (path, Grid_getName vdb_grid);
         VolumeGrid.is_loaded := false |} :: handles_of path rest
  end.

(** Specification side: a handle of the metadata-user kind. *)
Definition metadata_handle (g : VolumeGrid.t) : Prop :=
  VolumeGrid.is_loaded g = false /\ exists k, VolumeGrid.entry g = Some k.

(** Specification side: the cache [c] is the cache [c0] with the metadata
    handles [l] added as users. *)
Definition pending (c0 c : gmap Key Entry.t) (l : list VolumeGrid.t) : Prop :=
  forall k,
    match c0 !! k with
    | Some e0 =>
        c !! k
        = Some (Entry.with_metadata_users e0
                  (Entry.num_metadata_users e0 + count_users k false l))
    | None =>
        if count_users k false l =? 0 then c !! k = None
        else exists e,
            c !! k = Some e
            /\ Entry.num_metadata_users e = count_users k false l
            /\ Entry.num_tree_users e = 0
            /\ Entry.is_loaded e = false
    end.

(** Specification side: an entry without tree users holds no tree and is
    not marked loaded. *)
Definition unused_trees_dropped (c : gmap Key Entry.t) : Prop :=
  forall k e, c !! k = Some e -> Entry.num_tree_users e = 0 ->
    grid_tree (Entry.grid e) = [] /\ Entry.is_loaded e = false.

(** Specification side: the counters of the cache [c] can take [n] more
    users without leaving [int], alone and added up. *)
Definition room (c : gmap Key Entry.t) (n : nat) : Prop :=
  Z.of_nat n <= Int.INT_MAX
  /\ forall k e, c !! k = Some e ->
       0 <= Entry.num_metadata_users e
       /\ 0 <= Entry.num_tree_users e
       /\ Entry.num_metadata_users e + Entry.num_tree_users e + Z.of_nat n
          <= Int.INT_MAX.

(** ** More sample data *)

Module Scenario.

(** One handle made from a template, copied, loaded, and the copy
    destroyed. *)
Definition ops : list HandleOp :=
  [HOfTemplate Sample.path (mkGrid "density" []); HCopy 0;
   HLoad 0 "smoke" Sample.path; HDestroy 1].

(** The sample environment with a file that cannot be opened. *)
Definition env_unreadable : Env :=
  {| ID_BLEND_PATH := ID_BLEND_PATH Sample.env;
     BLI_path_abs := BLI_path_abs Sample.env;
     BLI_path_frame_get := BLI_path_frame_get Sample.env;
     BLI_path_frame_strip := BLI_path_frame_strip Sample.env;
     BLI_path_frame := BLI_path_frame Sample.env;
     BLI_path_extension_ensure := BLI_path_extension_ensure Sample.env;
     BLI_exists := BLI_exists Sample.env;
     BLI_split_file_part := BLI_split_file_part Sample.env;
     File_open := fun _ => Some "Failed to open file";
     File_readAllGridMetadata := File_readAllGridMetadata Sample.env;
     File_readGrid := File_readGrid Sample.env;
     Vector_reallocates := Vector_reallocates Sample.env |}.

(** An entry that kept the message of a failed read after its tree users
    were gone. *)
Definition entry_stale : Entry.t :=
  Entry.with_error_msg (Sample.entry_metadata "density") "Cannot read grid".

Definition state_stale : State :=
  {| cache := {[ Sample.key := entry_stale ]}; trace := [] |}.


(** The sample volume of file [file] with grids read from [path]. *)
Definition volume_with (file path : string) (l : list VolumeGrid.t)
    (error_msg : string) : Volume :=
  Volume_with_grids (Sample.volume file) (VolumeGridVector.mk l path error_msg).

End Scenario.


(** * Properties *)

(** ** Sequence frames *)

Section SequenceFrame.

Lemma in_range_spec z :
  Int.in_range z = true <-> Int.INT_MIN <= z <= Int.INT_MAX.
Proof. unfold Int.in_range. rewrite andb_true_iff, !Z.leb_le. tauto. Qed.

Lemma checked_in_range z : Int.in_range z = true -> Int.checked z = Some z.
Proof. unfold Int.checked. now intros ->. Qed.

(** The ping-pong case for a duration of at least two frames: the modulo
    is defined and the folded frame is one of the frames of the sequence. *)
Lemma ping_pong_folds (frame_duration frame : Z) :
  2 <= frame_duration <= 1073741823 ->
  Int.in_range frame = true ->
  exists folded,
    volume_sequence_switch VOLUME_SEQUENCE_PING_PONG frame_duration frame
    = Some (Break folded)
    /\ 1 <= folded <= frame_duration.
Proof.
  intros Hd Hf. apply in_range_spec in Hf.
  unfold Int.INT_MIN, Int.INT_MAX in Hf.
  unfold volume_sequence_switch, Int.mul, Int.sub, Int.add.
  rewrite (checked_in_range (frame_duration * 2))
    by (apply in_range_spec; unfold Int.INT_MIN, Int.INT_MAX; lia).
  cbn [mbind option_bind].
  rewrite (checked_in_range (frame_duration * 2 - 2))
    by (apply in_range_spec; unfold Int.INT_MIN, Int.INT_MAX; lia).
  cbn [mbind option_bind].
  remember (frame_duration * 2 - 2) as p eqn:Ep.
  assert (Hp : 2 <= p) by lia.
  unfold Int.rem.
  destruct (Z.eqb_spec p 0) as [|_]; [lia|].
  destruct (Z.eqb_spec p (-1)) as [|_]; [lia|].
  rewrite andb_false_r. cbn [mbind option_bind].
  pose proof (Z.rem_bound_abs frame p ltac:(lia)) as Hr.
  remember (Z.rem frame p) as r eqn:Er.
  assert (Hr' : - p < r < p) by lia.
  destruct (Z.ltb_spec r 0) as [Hneg|Hpos].
  - rewrite (checked_in_range (r + p))
      by (apply in_range_spec; unfold Int.INT_MIN, Int.INT_MAX; lia).
    cbn [mbind option_bind].
    destruct (Z.eqb_spec (r + p) 0) as [|_]; [lia|].
    destruct (Z.gtb_spec (r + p) frame_duration).
    + rewrite (checked_in_range (frame_duration * 2 - (r + p)))
        by (apply in_range_spec; unfold Int.INT_MIN, Int.INT_MAX; lia).
      cbn [mbind option_bind]. eexists; split; [reflexivity|lia].
    + cbn [mbind option_bind]. eexists; split; [reflexivity|lia].
  - cbn [mbind option_bind].
    destruct (Z.eqb_spec r 0) as [Hz|Hnz].
    + destruct (Z.gtb_spec p frame_duration).
      * rewrite (checked_in_range (frame_duration * 2 - p))
          by (apply in_range_spec; unfold Int.INT_MIN, Int.INT_MAX; lia).
        cbn [mbind option_bind]. eexists; split; [reflexivity|lia].
      * cbn [mbind option_bind]. eexists; split; [reflexivity|lia].
    + destruct (Z.gtb_spec r frame_duration).
      * rewrite (checked_in_range (frame_duration * 2 - r))
          by (apply in_range_spec; unfold Int.INT_MIN, Int.INT_MAX; lia).
        cbn [mbind option_bind]. eexists; split; [reflexivity|lia].
      * cbn [mbind option_bind]. eexists; split; [reflexivity|lia].
Qed.

End SequenceFrame.

(** C1. With a duration of 10 frames, start frame 1 and offset 0: Clip at
    scene time 15 gives the no-frame sentinel, Extend at 15 gives frame 10,
    Repeat at 21 gives frame 1, PingPong at 19 gives frame 1 and PingPong
    at 28 gives frame 10. *)
Theorem sequence_frame_golden_cases (v : Volume) :
  volume_sequence_frame 15 (Volume_with_sequence v VOLUME_SEQUENCE_CLIP 10 1 0)
  = Some VOLUME_FRAME_NONE
  /\ volume_sequence_frame 15
       (Volume_with_sequence v VOLUME_SEQUENCE_EXTEND 10 1 0) = Some 10
  /\ volume_sequence_frame 21
       (Volume_with_sequence v VOLUME_SEQUENCE_REPEAT 10 1 0) = Some 1
  /\ volume_sequence_frame 19
       (Volume_with_sequence v VOLUME_SEQUENCE_PING_PONG 10 1 0) = Some 1
  /\ volume_sequence_frame 28
       (Volume_with_sequence v VOLUME_SEQUENCE_PING_PONG 10 1 0) = Some 10.
Proof. repeat split; vm_compute; reflexivity. Qed.

(** C8. In PingPong mode with a duration of one frame the period
    [2 * frame_duration - 2] is zero and the modulo by it is undefined: the
    function has no result at any scene time, start frame and offset. *)
Theorem ping_pong_duration_one_undefined (v : Volume)
    (scene_frame start offset : Z) :
  (twice ← Int.mul 1 2; Int.sub twice 2) = Some 0
  /\ volume_sequence_frame scene_frame
       (Volume_with_sequence v VOLUME_SEQUENCE_PING_PONG 1 start offset)
     = None.
Proof.
  split; [reflexivity|].
  unfold volume_sequence_frame, Volume_with_sequence; cbn -[Int.sub Int.add].
  destruct (Int.sub scene_frame start) as [diff|]; [|reflexivity].
  cbn -[Int.add]. destruct (Int.add diff 1) as [frame|]; reflexivity.
Qed.

(** ** Active grid *)

Lemma int_of_size_small (n : nat) :
  Z.of_nat n <= Int.INT_MAX -> int_of_size n = Z.of_nat n.
Proof.
  unfold int_of_size, Int.INT_MAX. intros Hn.
  rewrite Z.mod_small by lia.
  destruct (Z.leb_spec (Z.of_nat n) 2147483647); [reflexivity|lia].
Qed.

Lemma clamp_i_bounds (value lo hi : Z) :
  lo <= hi -> lo <= clamp_i value lo hi <= hi.
Proof. unfold clamp_i. lia. Qed.

(** C10. For a vector whose size is an [int]: the active grid is null
    exactly when the volume has no grids, and otherwise it is the element at
    index [clamp_i active_grid 0 (num_grids - 1)], which is inside the
    vector for every value of [active_grid]. *)
Theorem active_grid_get_in_bounds (v : Volume) :
  Z.of_nat (length (VolumeGridVector.grids (runtime_grids v))) <= Int.INT_MAX ->
  (BKE_volume_grid_active_get v = Some GridNull
   <-> length (VolumeGridVector.grids (runtime_grids v)) = 0%nat)
  /\ (length (VolumeGridVector.grids (runtime_grids v)) <> 0%nat ->
      exists g index,
        index = Z.to_nat (clamp_i (active_grid v) 0 (BKE_volume_num_grids v - 1))
        /\ BKE_volume_grid_active_get v = Some (GridAt index g)
        /\ VolumeGridVector.grids (runtime_grids v) !! index = Some g
        /\ (index < length (VolumeGridVector.grids (runtime_grids v)))%nat).
Proof.
  intros Hsize.
  unfold BKE_volume_grid_active_get, BKE_volume_num_grids.
  rewrite (int_of_size_small _ Hsize).
  set (grids := VolumeGridVector.grids (runtime_grids v)) in *.
  destruct (Z.eqb_spec (Z.of_nat (length grids)) 0) as [Hz|Hnz].
  - split; [split; [lia | reflexivity] | lia].
  - assert (Hsub : Int.sub (Z.of_nat (length grids)) 1
                   = Some (Z.of_nat (length grids) - 1)).
    { apply checked_in_range, in_range_spec.
      unfold Int.INT_MIN, Int.INT_MAX in *. lia. }
    rewrite Hsub. cbn [mbind option_bind].
    pose proof (clamp_i_bounds (active_grid v) 0 (Z.of_nat (length grids) - 1)
                  ltac:(lia)) as Hc.
    set (i := clamp_i (active_grid v) 0 (Z.of_nat (length grids) - 1)) in *.
    assert (Hlt : (Z.to_nat i < length grids)%nat) by lia.
    destruct (lookup_lt_is_Some_2 grids (Z.to_nat i) Hlt) as [g Hg].
    assert (Hget : BKE_volume_grid_get v i = GridAt (Z.to_nat i) g).
    { unfold BKE_volume_grid_get. fold grids.
      destruct (Z.ltb_spec i 0); [lia|]. now rewrite Hg. }
    rewrite Hget. split.
    + split; [discriminate | lia].
    + intros _. exists g, (Z.to_nat i). repeat split; assumption.
Qed.

Lemma active_grid_get_in_bounds_witness :
  BKE_volume_grid_active_get
    (mkVolume "VO" "" false VOLUME_SEQUENCE_CLIP 0 1 0 7 0
       (VolumeGridVector.mk
          [VolumeGrid.of_vdb (mkGrid "density" []);
           VolumeGrid.of_vdb (mkGrid "heat" [])] "" ""))
  = Some (GridAt 1 (VolumeGrid.of_vdb (mkGrid "heat" []))).
Proof.
  destruct (active_grid_get_in_bounds
    (mkVolume "VO" "" false VOLUME_SEQUENCE_CLIP 0 1 0 7 0
       (VolumeGridVector.mk
          [VolumeGrid.of_vdb (mkGrid "density" []);
           VolumeGrid.of_vdb (mkGrid "heat" [])] "" "")))
    as [_ H]; [vm_compute; discriminate|].
  destruct H as (g & index & Hi & Hget & Hlook & _); [simpl; lia|].
  vm_compute in Hi. subst index. vm_compute in Hlook.
  injection Hlook as <-. exact Hget.
Defined.

(** ** The cache methods, evaluated *)

Section CacheMethods.

Implicit Types (k : Key) (e : Entry.t) (c : gmap Key Entry.t)
  (tr : list Event) (st : State).

Lemma emit_eval ev {A} (f : unit -> M A) st :
  bind (emit ev) f st = f tt {| cache := cache st; trace := trace st ++ [ev] |}.
Proof. reflexivity. Qed.

Lemma entry_get_eval k e {A} (f : Entry.t -> M A) st :
  cache st !! k = Some e -> bind (entry_get k) f st = f e st.
Proof. intros H. unfold bind, entry_get. now rewrite H. Qed.

Lemma entry_put_eval k e {A} (f : unit -> M A) st :
  bind (entry_put k e) f st
  = f tt {| cache := <[k := e]> (cache st); trace := trace st |}.
Proof. reflexivity. Qed.

Lemma bind_assoc {A B C} (m : M A) (f : A -> M B) (g : B -> M C) st :
  bind (bind m f) g st = bind m (fun a => bind (f a) g) st.
Proof. unfold bind. destruct (m st) as [[a s']|]; reflexivity. Qed.

Lemma lift_checked_eval {B} (z : Z) (f : Z -> M B) st :
  bind (lift (Int.checked z)) f st = if Int.in_range z then f z st else None.
Proof. unfold bind, lift, Int.checked. now destruct (Int.in_range z). Qed.

Lemma bind_eval {A B} (m : M A) (f : A -> M B) st a st' :
  m st = Some (a, st') -> bind m f st = f a st'.
Proof. intros H. unfold bind. now rewrite H. Qed.

Lemma bind_undefined {A B} (m : M A) (f : A -> M B) st :
  m st = None -> bind m f st = None.
Proof. intros H. unfold bind. now rewrite H. Qed.

Lemma update_for_remove_user_eval k e c tr :
  VolumeFileCache.update_for_remove_user k
    {| cache := <[k := e]> c; trace := tr |}
  = if Int.in_range (Entry.num_metadata_users e + Entry.num_tree_users e)
    then Some (tt, {| cache := evicted k e c; trace := tr |})
    else None.
Proof.
  unfold VolumeFileCache.update_for_remove_user.
  rewrite (entry_get_eval k e) by (cbn; apply lookup_insert_eq).
  unfold Int.add. rewrite lift_checked_eval.
  destruct (Int.in_range _); [|reflexivity].
  unfold evicted, cleared.
  destruct (_ + _ =? 0).
  - unfold entry_erase; cbn. now rewrite delete_insert_eq.
  - destruct (Entry.num_tree_users e =? 0).
    + unfold entry_put; cbn. now rewrite insert_insert_eq.
    + reflexivity.
Qed.

Ltac range_step :=
  rewrite ?bind_assoc, lift_checked_eval;
  match goal with
  | |- (if Int.in_range ?z then _ else _) = _ =>
      destruct (Int.in_range z) eqn:?; cbn [andb]; [|reflexivity]
  end.

(** What a counter mutation does: it is defined when the entry exists and
    the arithmetic it performs stays inside [int]. *)
Lemma run_mutation_eval mu k st :
  run_mutation mu k st
  = match cache st !! k with
    | Some e =>
        if mutation_defined mu e then
          Some (tt, {| cache := evicted k (with_counts e
                                             (fst (mutated_counts mu e))
                                             (snd (mutated_counts mu e)))
                                  (cache st);
                       trace := trace st ++ locked |})
        else None
    | None => None
    end.
Proof.
  destruct (cache st !! k) as [e|] eqn:Hk.
  2:{ destruct mu; unfold run_mutation, VolumeFileCache.remove_user,
        VolumeFileCache.change_to_tree_user,
        VolumeFileCache.change_to_metadata_user;
      rewrite emit_eval; apply bind_undefined;
      unfold entry_get; cbn [cache]; now rewrite Hk. }
  destruct mu as [[|]| |]; cbn [mutated_counts mutation_defined fst snd];
    unfold run_mutation, VolumeFileCache.remove_user,
      VolumeFileCache.change_to_tree_user,
      VolumeFileCache.change_to_metadata_user, Int.add, Int.sub;
    rewrite emit_eval, (entry_get_eval k e) by exact Hk;
    repeat range_step;
    rewrite entry_put_eval; cbn [cache trace];
    unfold bind at 1; rewrite update_for_remove_user_eval;
    cbn [Entry.num_metadata_users Entry.num_tree_users
         Entry.with_tree_users Entry.with_metadata_users];
    (match goal with
     | |- context [if Int.in_range ?z then _ else _] =>
         destruct (Int.in_range z) eqn:?; [|reflexivity]
     end);
    unfold emit; cbn [cache trace]; rewrite <- app_assoc;
    now destruct e.
Qed.

(** ** The handle methods, evaluated *)

Implicit Types (g : VolumeGrid.t).

Lemma evicted_lookup k e c :
  evicted k e c !! k
  = if Entry.num_metadata_users e + Entry.num_tree_users e =? 0 then None
    else if Entry.num_tree_users e =? 0 then Some (cleared e)
    else Some e.
Proof.
  unfold evicted. destruct (_ + _ =? 0).
  - apply lookup_delete_eq.
  - destruct (_ =? 0); apply lookup_insert_eq.
Qed.

Lemma evicted_lookup_ne k k' e c :
  k <> k' -> evicted k e c !! k' = c !! k'.
Proof.
  intros Hne. unfold evicted. destruct (_ + _ =? 0).
  - now apply lookup_delete_ne.
  - destruct (_ =? 0); now apply lookup_insert_ne.
Qed.

Lemma read_tree_eval env k e fp nm {A} (f : unit -> M A) st :
  cache st !! k = Some e ->
  bind (VolumeGrid.read_tree env k fp nm)
    (fun _ => bind (entry_get k)
       (fun e' => bind (entry_put k (Entry.with_is_loaded e' true)) f)) st
  = f tt {| cache := <[k := fst (tree_read env fp nm e)]> (cache st);
            trace := trace st ++ snd (tree_read env fp nm e) |}.
Proof.
  intros Hk. unfold VolumeGrid.read_tree, tree_read.
  rewrite bind_assoc, emit_eval.
  destruct (File_open env fp) as [what|].
  - rewrite bind_assoc, (entry_get_eval k e) by exact Hk.
    rewrite entry_put_eval; cbn [cache trace fst snd].
    rewrite (entry_get_eval k (Entry.with_error_msg e what))
      by (cbn; apply lookup_insert_eq).
    rewrite entry_put_eval; cbn [cache trace]. now rewrite insert_insert_eq.
  - rewrite bind_assoc, emit_eval.
    destruct (File_readGrid env fp nm) as [what|tree];
      rewrite bind_assoc, (entry_get_eval k e) by exact Hk;
      rewrite entry_put_eval; cbn [cache trace fst snd];
      (erewrite entry_get_eval by (cbn; apply lookup_insert_eq));
      rewrite entry_put_eval; cbn [cache trace];
      now rewrite insert_insert_eq, <- app_assoc.
Qed.

(** [load] on a file-backed handle that is not loaded yet. *)
Lemma load_eval env g vn fp st k e :
  VolumeGrid.entry g = Some k ->
  VolumeGrid.is_loaded g = false ->
  cache st !! k = Some e ->
  VolumeGrid.load env g vn fp st
  = if mutation_defined MutChangeToTreeUser e then
      if Entry.num_metadata_users e - 1 + (Entry.num_tree_users e + 1) =? 0
      then None
      else if Entry.is_loaded (promoted e) then
        Some (VolumeGrid.with_is_loaded g true,
              {| cache := <[k := promoted e]> (cache st);
                 trace := trace st ++ [Acquire (EntryLock k)] ++ locked
                          ++ [Release (EntryLock k)] |})
      else
        Some (VolumeGrid.with_is_loaded g true,
              {| cache :=
                   <[k := fst (tree_read env fp (name_of g (promoted e))
                                 (promoted e))]> (cache st);
                 trace := trace st ++ [Acquire (EntryLock k)] ++ locked
                          ++ snd (tree_read env fp (name_of g (promoted e))
                                    (promoted e))
                          ++ [Release (EntryLock k)] |})
    else None.
Proof.
  intros Hentry Hloaded Hk. unfold VolumeGrid.load.
  rewrite Hentry, Hloaded, emit_eval.
  unfold bind at 1.
  change (VolumeFileCache.change_to_tree_user k)
    with (run_mutation MutChangeToTreeUser k).
  rewrite run_mutation_eval; cbn [cache trace]. rewrite Hk.
  destruct (mutation_defined MutChangeToTreeUser e); [|reflexivity].
  cbn [mutated_counts fst snd].
  set (e1 := with_counts e _ _).
  assert (He1 : cache {| cache := evicted k e1 (cache st);
                         trace := (trace st ++ [Acquire (EntryLock k)]) ++ locked |}
                !! k
                = if Entry.num_metadata_users e - 1 + (Entry.num_tree_users e + 1) =? 0
                  then None else Some (promoted e)).
  { cbn [cache]. rewrite evicted_lookup. subst e1. unfold promoted.
    cbn [with_counts Entry.num_metadata_users Entry.num_tree_users
         Entry.with_tree_users Entry.with_metadata_users].
    destruct (_ + _ =? 0); [reflexivity|].
    now destruct (Entry.num_tree_users e + 1 =? 0). }
  destruct (_ + _ =? 0) eqn:Hsum.
  { apply bind_undefined. unfold entry_get. now rewrite He1. }
  rewrite (entry_get_eval _ _ _ _ He1).
  assert (Hcache : <[k := promoted e]> (cache st) = evicted k e1 (cache st)).
  { unfold evicted, promoted. subst e1.
    cbn [with_counts Entry.num_metadata_users Entry.num_tree_users
         Entry.with_tree_users Entry.with_metadata_users].
    rewrite Hsum. now destruct (Entry.num_tree_users e + 1 =? 0). }
  destruct (Entry.is_loaded (promoted e)) eqn:Hl.
  - rewrite emit_eval. unfold ret; cbn [cache trace].
    rewrite Hcache. now rewrite <- !app_assoc.
  - assert (Hname : VolumeGrid.name g
                      {| cache := evicted k e1 (cache st);
                         trace := (trace st ++ [Acquire (EntryLock k)]) ++ locked |}
                    = Some (name_of g (promoted e),
                            {| cache := evicted k e1 (cache st);
                               trace := (trace st ++ [Acquire (EntryLock k)])
                                        ++ locked |})).
    { unfold VolumeGrid.name, name_of. destruct (VolumeGrid.vdb g).
      - reflexivity.
      - rewrite Hentry. unfold bind, entry_get. now rewrite He1. }
    rewrite (bind_eval _ _ _ _ _ Hname).
    rewrite (read_tree_eval env k (promoted e)) by exact He1.
    rewrite emit_eval. unfold ret; cbn [cache trace].
    rewrite <- Hcache, insert_insert_eq. now rewrite <- !app_assoc.
Qed.

(** [unload] on a file-backed handle that is loaded. *)
Lemma unload_eval g vn st k e :
  VolumeGrid.entry g = Some k ->
  VolumeGrid.is_loaded g = true ->
  cache st !! k = Some e ->
  VolumeGrid.unload g vn st
  = if mutation_defined MutChangeToMetadataUser e then
      Some (VolumeGrid.with_is_loaded g false,
            {| cache := evicted k (with_counts e (Entry.num_metadata_users e + 1)
                                     (Entry.num_tree_users e - 1)) (cache st);
               trace := trace st ++ [Acquire (EntryLock k)] ++ locked
                        ++ [Release (EntryLock k)] |})
    else None.
Proof.
  intros Hentry Hloaded Hk. unfold VolumeGrid.unload.
  rewrite Hentry, Hloaded; cbn [negb]. rewrite emit_eval.
  unfold bind at 1.
  change (VolumeFileCache.change_to_metadata_user k)
    with (run_mutation MutChangeToMetadataUser k).
  rewrite run_mutation_eval; cbn [cache trace]. rewrite Hk.
  destruct (mutation_defined MutChangeToMetadataUser e); [|reflexivity].
  rewrite emit_eval. unfold ret; cbn [cache trace mutated_counts fst snd].
  now rewrite <- !app_assoc.
Qed.

(** ** The counting methods, evaluated *)

Lemma copy_user_eval k (tree_user : bool) st :
  VolumeFileCache.copy_user k tree_user st
  = match cache st !! k with
    | Some e =>
        if tree_user then
          if Int.in_range (Entry.num_tree_users e + 1) then
            Some (tt, {| cache := <[k := Entry.with_tree_users e
                                           (Entry.num_tree_users e + 1)]>
                                    (cache st);
                         trace := trace st ++ locked |})
          else None
        else
          if Int.in_range (Entry.num_metadata_users e + 1) then
            Some (tt, {| cache := <[k := Entry.with_metadata_users e
                                           (Entry.num_metadata_users e + 1)]>
                                    (cache st);
                         trace := trace st ++ locked |})
          else None
    | None => None
    end.
Proof.
  unfold VolumeFileCache.copy_user. rewrite emit_eval.
  destruct (cache st !! k) as [e|] eqn:Hk.
  2:{ apply bind_undefined. unfold entry_get; cbn [cache]. now rewrite Hk. }
  rewrite (entry_get_eval k e) by exact Hk.
  destruct tree_user; unfold Int.add; range_step;
    rewrite entry_put_eval; unfold emit; cbn [cache trace];
    now rewrite <- app_assoc.
Qed.

Lemma add_metadata_user_eval (template_entry : Key * Entry.t) st :
  VolumeFileCache.add_metadata_user template_entry st
  = let k := fst template_entry in
    let e := default (Entry.copy (snd template_entry)) (cache st !! k) in
    if Int.in_range (Entry.num_metadata_users e + 1) then
      Some (k, {| cache := <[k := Entry.with_metadata_users e
                                     (Entry.num_metadata_users e + 1)]>
                              (cache st);
                  trace := trace st ++ locked |})
    else None.
Proof.
  unfold VolumeFileCache.add_metadata_user. destruct template_entry as [k t].
  cbn [fst snd]. rewrite emit_eval.
  unfold bind at 1, entry_find; cbn [cache trace].
  destruct (cache st !! k) as [e|] eqn:Hk; cbn [default].
  - unfold bind at 1, ret.
    rewrite (entry_get_eval k e) by exact Hk.
    unfold Int.add. rewrite lift_checked_eval.
    destruct (Int.in_range _); [|reflexivity].
    rewrite entry_put_eval, emit_eval. unfold ret; cbn [cache trace].
    now rewrite <- app_assoc.
  - rewrite entry_put_eval; cbn [cache trace].
    rewrite (entry_get_eval k (Entry.copy t)) by (cbn; apply lookup_insert_eq).
    unfold Int.add. rewrite lift_checked_eval.
    destruct (Int.in_range _); [|reflexivity].
    rewrite entry_put_eval, emit_eval. unfold ret; cbn [cache trace].
    now rewrite insert_insert_eq, <- app_assoc.
Qed.

End CacheMethods.

(** ** Handles: copy, load and unload *)

Lemma load_noop env (g : VolumeGrid.t) vn fp st :
  VolumeGrid.is_loaded g = true \/ VolumeGrid.entry g = None ->
  VolumeGrid.load env g vn fp st = Some (g, st).
Proof.
  unfold VolumeGrid.load. intros [H|H].
  - rewrite H. now destruct (VolumeGrid.entry g).
  - now rewrite H.
Qed.

Lemma unload_noop (g : VolumeGrid.t) vn st :
  VolumeGrid.is_loaded g = false \/ VolumeGrid.entry g = None ->
  VolumeGrid.unload g vn st = Some (g, st).
Proof.
  unfold VolumeGrid.unload. intros [H|H].
  - rewrite H. now destruct (VolumeGrid.entry g).
  - now rewrite H.
Qed.

Lemma load_dangling env (g : VolumeGrid.t) vn fp st k :
  VolumeGrid.entry g = Some k -> VolumeGrid.is_loaded g = false ->
  cache st !! k = None ->
  VolumeGrid.load env g vn fp st = None.
Proof.
  intros He Hl Hk. unfold VolumeGrid.load. rewrite He, Hl.
  unfold bind at 1, emit. apply bind_undefined.
  change (VolumeFileCache.change_to_tree_user k)
    with (run_mutation MutChangeToTreeUser k).
  rewrite run_mutation_eval; cbn [cache]. now rewrite Hk.
Qed.

Lemma unload_dangling (g : VolumeGrid.t) vn st k :
  VolumeGrid.entry g = Some k -> VolumeGrid.is_loaded g = true ->
  cache st !! k = None ->
  VolumeGrid.unload g vn st = None.
Proof.
  intros He Hl Hk. unfold VolumeGrid.unload. rewrite He, Hl; cbn [negb].
  unfold bind at 1, emit. apply bind_undefined.
  change (VolumeFileCache.change_to_metadata_user k)
    with (run_mutation MutChangeToMetadataUser k).
  rewrite run_mutation_eval; cbn [cache]. now rewrite Hk.
Qed.

(** After [load] the handle is loaded or has no entry; after [unload] it is
    not loaded or has no entry. *)
Lemma load_result env (g g' : VolumeGrid.t) vn fp st st' :
  VolumeGrid.load env g vn fp st = Some (g', st') ->
  VolumeGrid.is_loaded g' = true \/ VolumeGrid.entry g' = None.
Proof.
  intros H.
  destruct (VolumeGrid.entry g) as [k|] eqn:He.
  2:{ rewrite load_noop in H by auto. injection H as <- _. auto. }
  destruct (VolumeGrid.is_loaded g) eqn:Hl.
  { rewrite load_noop in H by auto. injection H as <- _. auto. }
  destruct (cache st !! k) as [e|] eqn:Hk.
  2:{ now rewrite (load_dangling env g vn fp st k) in H. }
  rewrite (load_eval env g vn fp st k e He Hl Hk) in H.
  destruct (mutation_defined _ e); [|discriminate].
  destruct (_ =? 0); [discriminate|].
  destruct (Entry.is_loaded (promoted e)); injection H as <- _; now left.
Qed.

Lemma unload_result (g g' : VolumeGrid.t) vn st st' :
  VolumeGrid.unload g vn st = Some (g', st') ->
  VolumeGrid.is_loaded g' = false \/ VolumeGrid.entry g' = None.
Proof.
  intros H.
  destruct (VolumeGrid.entry g) as [k|] eqn:He.
  2:{ rewrite unload_noop in H by auto. injection H as <- _. auto. }
  destruct (VolumeGrid.is_loaded g) eqn:Hl.
  2:{ rewrite unload_noop in H by auto. injection H as <- _. auto. }
  destruct (cache st !! k) as [e|] eqn:Hk.
  2:{ now rewrite (unload_dangling g vn st k) in H. }
  rewrite (unload_eval g vn st k e He Hl Hk) in H.
  destruct (mutation_defined _ e); [|discriminate].
  injection H as <- _; now left.
Qed.


(** C7. [load] on a handle that is loaded or has no entry, and [unload] on
    a handle that is not loaded or has no entry, return the handle and the
    state as they were: no counter moves and no event is recorded. A second
    [load] after a [load], and a second [unload] after an [unload], are such
    calls. *)
Theorem load_unload_idempotent (env : Env) (g : VolumeGrid.t)
    (vn fp : string) (st : State) :
  (VolumeGrid.is_loaded g = true \/ VolumeGrid.entry g = None ->
   VolumeGrid.load env g vn fp st = Some (g, st))
  /\ (VolumeGrid.is_loaded g = false \/ VolumeGrid.entry g = None ->
      VolumeGrid.unload g vn st = Some (g, st))
  /\ (forall g' st',
         VolumeGrid.load env g vn fp st = Some (g', st') ->
         VolumeGrid.load env g' vn fp st' = Some (g', st'))
  /\ (forall g' st',
         VolumeGrid.unload g vn st = Some (g', st') ->
         VolumeGrid.unload g' vn st' = Some (g', st')).
Proof.
  repeat split.
  - apply load_noop.
  - apply unload_noop.
  - intros g' st' H. apply load_noop. eapply load_result, H.
  - intros g' st' H. apply unload_noop. eapply unload_result, H.
Qed.

(** ** Eviction *)

Section Eviction.

Implicit Types (k : Key) (e : Entry.t) (c : gmap Key Entry.t) (st : State).

Lemma mutation_defined_of_ranges mu e :
  Int.in_range (fst (mutated_counts mu e)) = true ->
  Int.in_range (snd (mutated_counts mu e)) = true ->
  Int.in_range (fst (mutated_counts mu e) + snd (mutated_counts mu e)) = true ->
  mutation_defined mu e = true.
Proof.
  destruct mu as [[|]| |]; cbn [mutated_counts mutation_defined fst snd];
    intros H1 H2 H3; rewrite ?H1, ?H2, ?H3; reflexivity.
Qed.

Lemma users_positive_insert k e c :
  users_positive c ->
  1 <= Entry.num_metadata_users e + Entry.num_tree_users e ->
  users_positive (<[k := e]> c).
Proof.
  intros Hc He k' e'. rewrite lookup_insert.
  destruct (decide (k = k')); [intros [= <-]; exact He | apply Hc].
Qed.

Lemma users_positive_evicted k e c :
  users_positive c ->
  0 <= Entry.num_metadata_users e + Entry.num_tree_users e ->
  users_positive (evicted k e c).
Proof.
  intros Hc He k' e'. destruct (decide (k = k')) as [<-|Hne].
  - rewrite evicted_lookup.
    destruct (Z.eqb_spec (Entry.num_metadata_users e + Entry.num_tree_users e) 0);
      [discriminate|].
    destruct (_ =? 0); intros [= <-]; cbn; lia.
  - rewrite evicted_lookup_ne by exact Hne. apply Hc.
Qed.

Lemma mutated_counts_sum mu e :
  Entry.num_metadata_users e + Entry.num_tree_users e - 1
  <= fst (mutated_counts mu e) + snd (mutated_counts mu e).
Proof. destruct mu as [[|]| |]; cbn; lia. Qed.

Lemma run_mutation_users_positive mu k st st' :
  run_mutation mu k st = Some (tt, st') ->
  users_positive (cache st) -> users_positive (cache st').
Proof.
  rewrite run_mutation_eval. intros H Hc.
  destruct (cache st !! k) as [e|] eqn:Hk; [|discriminate].
  destruct (mutation_defined mu e); [|discriminate].
  injection H as <-. cbn [cache].
  apply users_positive_evicted; [exact Hc|].
  pose proof (Hc k e Hk). pose proof (mutated_counts_sum mu e).
  destruct e; cbn in *; lia.
Qed.

Lemma copy_user_users_positive k b st st' :
  VolumeFileCache.copy_user k b st = Some (tt, st') ->
  users_positive (cache st) -> users_positive (cache st').
Proof.
  rewrite copy_user_eval. intros H Hc.
  destruct (cache st !! k) as [e|] eqn:Hk; [|discriminate].
  pose proof (Hc k e Hk).
  destruct b; (destruct (Int.in_range _); [|discriminate]);
    injection H as <-; cbn [cache];
    apply users_positive_insert; try exact Hc; destruct e; cbn in *; lia.
Qed.

Lemma add_metadata_user_users_positive t st k st' :
  VolumeFileCache.add_metadata_user t st = Some (k, st') ->
  users_positive (cache st) -> users_positive (cache st').
Proof.
  rewrite add_metadata_user_eval. cbn zeta. intros H Hc.
  destruct (Int.in_range _); [|discriminate].
  injection H as <- <-. cbn [cache].
  apply users_positive_insert; [exact Hc|].
  destruct (cache st !! t.1) as [e|] eqn:Hk; cbn [default].
  - pose proof (Hc _ e Hk). destruct e; cbn in *; lia.
  - cbn. lia.
Qed.

Lemma run_cache_op_users_positive op st st' :
  run_cache_op op st = Some (tt, st') ->
  users_positive (cache st) -> users_positive (cache st').
Proof.
  destruct op as [t|k b|k b|k|k]; cbn [run_cache_op].
  - unfold bind. destruct (VolumeFileCache.add_metadata_user t st)
      as [[k st1]|] eqn:H; [|discriminate].
    intros [= <-]. eapply add_metadata_user_users_positive, H.
  - apply copy_user_users_positive.
  - apply (run_mutation_users_positive (MutRemoveUser b)).
  - apply (run_mutation_users_positive MutChangeToTreeUser).
  - apply (run_mutation_users_positive MutChangeToMetadataUser).
Qed.

Lemma tree_read_counts env fp nm e :
  Entry.num_metadata_users (fst (tree_read env fp nm e))
  = Entry.num_metadata_users e
  /\ Entry.num_tree_users (fst (tree_read env fp nm e))
     = Entry.num_tree_users e.
Proof.
  unfold tree_read. destruct (File_open env fp); [now split|].
  destruct (File_readGrid env fp nm); now split.
Qed.

Lemma promoted_counts e :
  Entry.num_metadata_users (promoted e) = Entry.num_metadata_users e - 1
  /\ Entry.num_tree_users (promoted e) = Entry.num_tree_users e + 1.
Proof. unfold promoted. destruct (_ =? 0); now split. Qed.

Lemma load_users_positive env (g g' : VolumeGrid.t) vn fp st st' :
  VolumeGrid.load env g vn fp st = Some (g', st') ->
  users_positive (cache st) -> users_positive (cache st').
Proof.
  intros H Hc.
  destruct (VolumeGrid.entry g) as [k|] eqn:He.
  2:{ rewrite load_noop in H by auto. now injection H as _ <-. }
  destruct (VolumeGrid.is_loaded g) eqn:Hl.
  { rewrite load_noop in H by auto. now injection H as _ <-. }
  destruct (cache st !! k) as [e|] eqn:Hk.
  2:{ now rewrite (load_dangling env g vn fp st k) in H. }
  rewrite (load_eval env g vn fp st k e He Hl Hk) in H.
  destruct (mutation_defined _ e); [|discriminate].
  destruct (_ =? 0); [discriminate|].
  pose proof (Hc k e Hk). destruct (promoted_counts e) as [Hm Ht].
  destruct (Entry.is_loaded (promoted e)); injection H as _ <-; cbn [cache];
    apply users_positive_insert; try exact Hc.
  - lia.
  - destruct (tree_read_counts env fp (name_of g (promoted e)) (promoted e)).
    lia.
Qed.

Lemma unload_users_positive (g g' : VolumeGrid.t) vn st st' :
  VolumeGrid.unload g vn st = Some (g', st') ->
  users_positive (cache st) -> users_positive (cache st').
Proof.
  intros H Hc.
  destruct (VolumeGrid.entry g) as [k|] eqn:He.
  2:{ rewrite unload_noop in H by auto. now injection H as _ <-. }
  destruct (VolumeGrid.is_loaded g) eqn:Hl.
  2:{ rewrite unload_noop in H by auto. now injection H as _ <-. }
  destruct (cache st !! k) as [e|] eqn:Hk.
  2:{ now rewrite (unload_dangling g vn st k) in H. }
  rewrite (unload_eval g vn st k e He Hl Hk) in H.
  destruct (mutation_defined _ e); [|discriminate].
  injection H as _ <-; cbn [cache].
  apply users_positive_evicted; [exact Hc|].
  pose proof (Hc k e Hk). destruct e; cbn in *; lia.
Qed.

Lemma run_grid_op_users_positive env op st st' :
  run_grid_op env op st = Some (tt, st') ->
  users_positive (cache st) -> users_positive (cache st').
Proof.
  destruct op as [t|g|g|g vn fp|g vn]; cbn [run_grid_op].
  - unfold VolumeGrid.of_template. rewrite bind_assoc. unfold bind.
    destruct (VolumeFileCache.add_metadata_user t st)
      as [[k st1]|] eqn:H; [|discriminate].
    intros [= <-]. eapply add_metadata_user_users_positive, H.
  - unfold VolumeGrid.copy; cbn [VolumeGrid.entry].
    destruct (VolumeGrid.entry g) as [k|].
    + rewrite bind_assoc. unfold bind at 1.
      destruct (VolumeFileCache.copy_user k _ st) as [[[] st1]|] eqn:H;
        [|discriminate].
      intros [= <-]. eapply copy_user_users_positive, H.
    + now intros [= <-].
  - unfold VolumeGrid.destroy. destruct (VolumeGrid.entry g) as [k|].
    + apply (run_mutation_users_positive (MutRemoveUser _)).
    + now intros [= <-].
  - unfold bind at 1.
    destruct (VolumeGrid.load env g vn fp st) as [[g' st1]|] eqn:H;
      [|discriminate].
    intros [= <-]. eapply load_users_positive, H.
  - unfold bind at 1.
    destruct (VolumeGrid.unload g vn st) as [[g' st1]|] eqn:H;
      [|discriminate].
    intros [= <-]. eapply unload_users_positive, H.
Qed.

Lemma reachable_users_positive env st :
  reachable env st -> users_positive (cache st).
Proof.
  induction 1 as [tr|st op st' _ IH Hop|st op st' _ IH Hop].
  - intros k e. cbn. now rewrite lookup_empty.
  - eapply run_cache_op_users_positive; eassumption.
  - eapply run_grid_op_users_positive; eassumption.
Qed.

End Eviction.

Lemma mutation_evicts mu k e st :
  cache st !! k = Some e ->
  Int.in_range (fst (mutated_counts mu e)) = true ->
  Int.in_range (snd (mutated_counts mu e)) = true ->
  Int.in_range (fst (mutated_counts mu e) + snd (mutated_counts mu e)) = true ->
  exists st',
    run_mutation mu k st = Some (tt, st')
    /\ (cache st' !! k = None
        <-> fst (mutated_counts mu e) + snd (mutated_counts mu e) = 0)
    /\ (forall e', cache st' !! k = Some e' ->
          Entry.num_metadata_users e' = fst (mutated_counts mu e)
          /\ Entry.num_tree_users e' = snd (mutated_counts mu e)
          /\ (Entry.num_tree_users e' = 0 ->
              grid_tree (Entry.grid e') = [] /\ Entry.is_loaded e' = false))
    /\ (forall k', k' <> k -> cache st' !! k' = cache st !! k').
Proof.
  intros Hk Hm Ht Hsum. eexists. split.
  { rewrite run_mutation_eval, Hk.
    now rewrite (mutation_defined_of_ranges mu e Hm Ht Hsum). }
  cbn [cache]. rewrite evicted_lookup.
  set (m' := fst (mutated_counts mu e)). set (t' := snd (mutated_counts mu e)).
  replace (Entry.num_metadata_users (with_counts e m' t')) with m' by reflexivity.
  replace (Entry.num_tree_users (with_counts e m' t')) with t' by reflexivity.
  split; [|split].
  - split.
    + destruct (Z.eqb_spec (m' + t') 0); [easy|]. now destruct (t' =? 0).
    + intros ->. now rewrite Z.eqb_refl.
  - intros e'. destruct (m' + t' =? 0); [discriminate|].
    destruct (Z.eqb_spec t' 0) as [Hz|Hnz]; intros [= <-]; cbn.
    + repeat split.
    + repeat split; intros; lia.
  - intros k' Hne. now apply evicted_lookup_ne.
Qed.

(** C2. A counter mutation ([remove_user], [change_to_tree_user],
    [change_to_metadata_user]) on an entry of the cache, with counts that
    stay inside [int], has a result in which: the entry is gone exactly when
    the two new counts add up to 0; an entry that remains carries the new
    counts and, when its tree users are 0, has an empty tree and
    [is_loaded = false]; every other entry is untouched. Hence in every
    state that the cache and handle methods produce from an empty cache,
    each entry has [num_metadata_users + num_tree_users >= 1]. *)
Theorem eviction_invariant (env : Env) :
  (forall mu k e st,
      cache st !! k = Some e ->
      Int.in_range (fst (mutated_counts mu e)) = true ->
      Int.in_range (snd (mutated_counts mu e)) = true ->
      Int.in_range (fst (mutated_counts mu e) + snd (mutated_counts mu e))
      = true ->
      exists st',
        run_mutation mu k st = Some (tt, st')
        /\ (cache st' !! k = None
            <-> fst (mutated_counts mu e) + snd (mutated_counts mu e) = 0)
        /\ (forall e', cache st' !! k = Some e' ->
              Entry.num_metadata_users e' = fst (mutated_counts mu e)
              /\ Entry.num_tree_users e' = snd (mutated_counts mu e)
              /\ (Entry.num_tree_users e' = 0 ->
                  grid_tree (Entry.grid e') = []
                  /\ Entry.is_loaded e' = false))
        /\ (forall k', k' <> k -> cache st' !! k' = cache st !! k'))
  /\ (forall st, reachable env st ->
      forall k e, cache st !! k = Some e ->
        1 <= Entry.num_metadata_users e + Entry.num_tree_users e).
Proof.
  split.
  - apply mutation_evicts.
  - intros st Hst. exact (reachable_users_positive env st Hst).
Qed.

(** ** Failed loads *)

Section FailedLoad.

Implicit Types (k : Key) (e : Entry.t) (st : State) (g : VolumeGrid.t).

Lemma io_events_app (tr1 tr2 : list Event) :
  io_events (tr1 ++ tr2) = io_events tr1 ++ io_events tr2.
Proof.
  induction tr1 as [|ev tr1 IH]; [reflexivity|].
  cbn. destruct (is_io ev); cbn; now rewrite IH.
Qed.

Lemma counts_sane_defined e :
  counts_sane e ->
  mutation_defined MutChangeToTreeUser e = true
  /\ (Entry.num_metadata_users e - 1 + (Entry.num_tree_users e + 1) =? 0) = false
  /\ promoted e = with_counts e (Entry.num_metadata_users e - 1)
                    (Entry.num_tree_users e + 1).
Proof.
  intros (Hm & Ht & Hsum). unfold Int.INT_MAX in Hsum.
  repeat split.
  - cbn [mutation_defined]. rewrite !andb_true_iff, !in_range_spec.
    unfold Int.INT_MIN, Int.INT_MAX. lia.
  - apply Z.eqb_neq. lia.
  - unfold promoted.
    destruct (Z.eqb_spec (Entry.num_tree_users e + 1) 0); [lia|reflexivity].
Qed.

Lemma tree_read_fails env fp nm what e :
  read_fails env fp nm what ->
  fst (tree_read env fp nm e)
  = Entry.with_is_loaded (Entry.with_error_msg e what) true.
Proof.
  unfold read_fails, tree_read. intros [->|[-> ->]]; reflexivity.
Qed.

Lemma tree_read_is_loaded env fp nm e :
  Entry.is_loaded (fst (tree_read env fp nm e)) = true.
Proof.
  unfold tree_read. destruct (File_open env fp); [reflexivity|].
  now destruct (File_readGrid env fp nm).
Qed.

(** A failed read is recorded and published as loaded. *)
Lemma load_records_failure env g vn fp st k e what :
  VolumeGrid.entry g = Some k ->
  VolumeGrid.is_loaded g = false ->
  cache st !! k = Some e ->
  Entry.is_loaded e = false ->
  counts_sane e ->
  read_fails env fp (name_of g e) what ->
  exists st' e',
    VolumeGrid.load env g vn fp st = Some (VolumeGrid.with_is_loaded g true, st')
    /\ cache st' !! k = Some e'
    /\ Entry.error_msg e' = what
    /\ Entry.is_loaded e' = true.
Proof.
  intros He Hl Hk Hel Hsane Hfail.
  destruct (counts_sane_defined e Hsane) as (Hdef & Hsum & Hprom).
  rewrite (load_eval env g vn fp st k e He Hl Hk), Hdef, Hsum, Hprom.
  replace (Entry.is_loaded (with_counts e _ _)) with (Entry.is_loaded e)
    by reflexivity.
  rewrite Hel.
  replace (name_of g (with_counts e _ _)) with (name_of g e) by reflexivity.
  rewrite (tree_read_fails env fp (name_of g e) what _ Hfail).
  do 2 eexists. split; [reflexivity|].
  cbn [cache]. rewrite lookup_insert_eq. split; [reflexivity|]. now split.
Qed.

(** While the entry is published as loaded, [load] on any of its handles
    reads no file and keeps the flag and the message. *)
Lemma load_not_retried env g vn fp st k e :
  VolumeGrid.entry g = Some k ->
  cache st !! k = Some e ->
  Entry.is_loaded e = true ->
  counts_sane e ->
  exists g' st' e',
    VolumeGrid.load env g vn fp st = Some (g', st')
    /\ io_events (trace st') = io_events (trace st)
    /\ VolumeGrid.is_loaded g' = true
    /\ cache st' !! k = Some e'
    /\ Entry.is_loaded e' = true
    /\ Entry.error_msg e' = Entry.error_msg e.
Proof.
  intros He Hk Hel Hsane.
  destruct (VolumeGrid.is_loaded g) eqn:Hl.
  - exists g, st, e. rewrite load_noop by auto. repeat split; assumption.
  - destruct (counts_sane_defined e Hsane) as (Hdef & Hsum & Hprom).
    rewrite (load_eval env g vn fp st k e He Hl Hk), Hdef, Hsum, Hprom.
    replace (Entry.is_loaded (with_counts e _ _)) with (Entry.is_loaded e)
      by reflexivity.
    rewrite Hel. do 3 eexists. split; [reflexivity|].
    cbn [cache trace]. rewrite lookup_insert_eq, io_events_app.
    cbn. rewrite app_nil_r. repeat split; assumption.
Qed.

Lemma evicted_reset k0 e0 c k e' :
  evicted k0 e0 c !! k = Some e' ->
  Entry.is_loaded e' = false ->
  (k <> k0 /\ c !! k = Some e')
  \/ (k = k0 /\ (Entry.num_tree_users e' = 0 \/ e' = e0)).
Proof.
  intros Hlook Hl. destruct (decide (k0 = k)) as [<-|Hne].
  - right. split; [reflexivity|]. rewrite evicted_lookup in Hlook.
    destruct (_ + _ =? 0); [discriminate|].
    destruct (Z.eqb_spec (Entry.num_tree_users e0) 0) as [Hz|_];
      injection Hlook as <-; [left; exact Hz | now right].
  - left. rewrite evicted_lookup_ne in Hlook by exact Hne. now split.
Qed.

Lemma run_mutation_reset mu k0 st st' k e e' :
  run_mutation mu k0 st = Some (tt, st') ->
  cache st !! k = Some e -> Entry.is_loaded e = true ->
  cache st' !! k = Some e' -> Entry.is_loaded e' = false ->
  Entry.num_tree_users e' = 0.
Proof.
  rewrite run_mutation_eval. intros H Hk Hl Hk' Hl'.
  destruct (cache st !! k0) as [e0|] eqn:Hk0; [|discriminate].
  destruct (mutation_defined mu e0); [|discriminate].
  injection H as <-. cbn [cache] in Hk'.
  destruct (evicted_reset _ _ _ _ _ Hk' Hl') as [[_ Hsame]|[-> [Hz| ->]]].
  - congruence.
  - exact Hz.
  - assert (e0 = e) by congruence. subst e0. cbn in Hl'. congruence.
Qed.

(** [is_loaded] of an entry goes from true to false only where the tree
    users are zero afterwards. *)
Lemma reset_only_by_eviction env op st st' k e e' :
  run_grid_op env op st = Some (tt, st') ->
  cache st !! k = Some e -> Entry.is_loaded e = true ->
  cache st' !! k = Some e' -> Entry.is_loaded e' = false ->
  Entry.num_tree_users e' = 0.
Proof.
  intros H Hk Hl Hk' Hl'.
  destruct op as [t|g|g|g vn fp|g vn]; cbn [run_grid_op] in H.
  - exfalso. unfold VolumeGrid.of_template in H. rewrite bind_assoc in H.
    unfold bind at 1 in H. rewrite add_metadata_user_eval in H. cbn zeta in H.
    destruct (Int.in_range _); [|discriminate].
    injection H as <-. cbn [cache] in Hk'.
    rewrite lookup_insert in Hk'. destruct (decide (t.1 = k)) as [Heq|Hne].
    + rewrite Heq, Hk in Hk'. injection Hk' as <-. cbn in Hl'. congruence.
    + congruence.
  - exfalso. unfold VolumeGrid.copy in H; cbn [VolumeGrid.entry] in H.
    destruct (VolumeGrid.entry g) as [k0|].
    + rewrite bind_assoc in H. unfold bind at 1 in H.
      rewrite copy_user_eval in H.
      destruct (cache st !! k0) as [e0|] eqn:Hk0; [|discriminate].
      cbn [VolumeGrid.is_loaded] in H.
      destruct (VolumeGrid.is_loaded g);
        (destruct (Int.in_range _); [|discriminate]);
        injection H as <-; cbn [cache] in Hk';
        rewrite lookup_insert in Hk';
        (destruct (decide (k0 = k)) as [Heq|Hne];
         [subst k0; injection Hk' as <-; cbn in Hl'; congruence | congruence]).
    + injection H as <-. congruence.
  - unfold VolumeGrid.destroy in H. destruct (VolumeGrid.entry g) as [k0|].
    + eapply (run_mutation_reset (MutRemoveUser _)); eassumption.
    + injection H as <-. congruence.
  - exfalso. unfold bind at 1 in H.
    destruct (VolumeGrid.load env g vn fp st) as [[g' st1]|] eqn:Hload;
      [|discriminate].
    injection H as <-.
    destruct (VolumeGrid.entry g) as [k0|] eqn:He.
    2:{ rewrite load_noop in Hload by auto. injection Hload as _ <-.
        congruence. }
    destruct (VolumeGrid.is_loaded g) eqn:Hgl.
    { rewrite load_noop in Hload by auto. injection Hload as _ <-.
      congruence. }
    destruct (cache st !! k0) as [e0|] eqn:Hk0.
    2:{ now rewrite (load_dangling env g vn fp st k0) in Hload. }
    rewrite (load_eval env g vn fp st k0 e0 He Hgl Hk0) in Hload.
    destruct (mutation_defined _ e0); [|discriminate].
    destruct (_ =? 0); [discriminate|].
    destruct (Entry.is_loaded (promoted e0)) eqn:Hp;
      injection Hload as _ <-; cbn [cache] in Hk';
      rewrite lookup_insert in Hk';
      (destruct (decide (k0 = k)) as [Heq|Hne]; [|congruence]);
      injection Hk' as <-.
    + congruence.
    + rewrite tree_read_is_loaded in Hl'. discriminate.
  - unfold bind at 1 in H.
    destruct (VolumeGrid.unload g vn st) as [[g' st1]|] eqn:Hun;
      [|discriminate].
    injection H as <-.
    destruct (VolumeGrid.entry g) as [k0|] eqn:He.
    2:{ rewrite unload_noop in Hun by auto. injection Hun as _ <-.
        congruence. }
    destruct (VolumeGrid.is_loaded g) eqn:Hgl.
    2:{ rewrite unload_noop in Hun by auto. injection Hun as _ <-.
        congruence. }
    destruct (cache st !! k0) as [e0|] eqn:Hk0.
    2:{ now rewrite (unload_dangling g vn st k0) in Hun. }
    rewrite (unload_eval g vn st k0 e0 He Hgl Hk0) in Hun.
    assert (Hmut : run_mutation MutChangeToMetadataUser k0 st
                   = Some (tt, {| cache := cache st1;
                                  trace := trace st ++ locked |})).
    { rewrite run_mutation_eval, Hk0.
      destruct (mutation_defined _ e0); [|discriminate].
      injection Hun as _ <-. reflexivity. }
    exact (run_mutation_reset _ _ _ _ k e e' Hmut Hk Hl Hk' Hl').
Qed.

Lemma reset_only_by_eviction_cache op st st' k e e' :
  run_cache_op op st = Some (tt, st') ->
  cache st !! k = Some e -> Entry.is_loaded e = true ->
  cache st' !! k = Some e' -> Entry.is_loaded e' = false ->
  Entry.num_tree_users e' = 0.
Proof.
  intros H Hk Hl Hk' Hl'.
  destruct op as [t|k0 b|k0 b|k0|k0]; cbn [run_cache_op] in H.
  - apply (reset_only_by_eviction (Sample.env) (Construct t) st st' k e e');
      try assumption.
    cbn [run_grid_op]. unfold VolumeGrid.of_template. rewrite bind_assoc.
    revert H. unfold bind, ret.
    now destruct (VolumeFileCache.add_metadata_user t st) as [[k1 st1]|].
  - exfalso. rewrite copy_user_eval in H.
    destruct (cache st !! k0) as [e0|] eqn:Hk0; [|discriminate].
    destruct b; (destruct (Int.in_range _); [|discriminate]);
      injection H as <-; cbn [cache] in Hk'; rewrite lookup_insert in Hk';
      (destruct (decide (k0 = k)) as [Heq|Hne];
       [subst k0; injection Hk' as <-; cbn in Hl'; congruence | congruence]).
  - eapply (run_mutation_reset (MutRemoveUser b)); eassumption.
  - eapply (run_mutation_reset MutChangeToTreeUser); eassumption.
  - eapply (run_mutation_reset MutChangeToMetadataUser); eassumption.
Qed.

End FailedLoad.

(** C3. When the read of a tree fails with an I/O error, [load] stores the
    message in [error_msg] of the entry and sets [is_loaded] of the entry
    and of the handle to true. While the entry is published as loaded,
    [load] on any handle of the entry performs no file access and keeps the
    flag and the message. No handle method and no cache method takes
    [is_loaded] of an entry from true to false except by leaving the entry
    with zero tree users, which is the eviction check. *)
Theorem failed_load_is_terminal (env : Env) :
  (forall g vn fp st k e what,
      VolumeGrid.entry g = Some k ->
      VolumeGrid.is_loaded g = false ->
      cache st !! k = Some e ->
      Entry.is_loaded e = false ->
      counts_sane e ->
      read_fails env fp (name_of g e) what ->
      exists st' e',
        VolumeGrid.load env g vn fp st
        = Some (VolumeGrid.with_is_loaded g true, st')
        /\ cache st' !! k = Some e'
        /\ Entry.error_msg e' = what
        /\ Entry.is_loaded e' = true)
  /\ (forall g vn fp st k e,
         VolumeGrid.entry g = Some k ->
         cache st !! k = Some e ->
         Entry.is_loaded e = true ->
         counts_sane e ->
         exists g' st' e',
           VolumeGrid.load env g vn fp st = Some (g', st')
           /\ io_events (trace st') = io_events (trace st)
           /\ VolumeGrid.is_loaded g' = true
           /\ cache st' !! k = Some e'
           /\ Entry.is_loaded e' = true
           /\ Entry.error_msg e' = Entry.error_msg e)
  /\ (forall op st st' k e e',
         run_grid_op env op st = Some (tt, st') ->
         cache st !! k = Some e -> Entry.is_loaded e = true ->
         cache st' !! k = Some e' -> Entry.is_loaded e' = false ->
         Entry.num_tree_users e' = 0)
  /\ (forall op st st' k e e',
         run_cache_op op st = Some (tt, st') ->
         cache st !! k = Some e -> Entry.is_loaded e = true ->
         cache st' !! k = Some e' -> Entry.is_loaded e' = false ->
         Entry.num_tree_users e' = 0).
Proof.
  split; [|split; [|split]].
  - apply load_records_failure.
  - apply load_not_retried.
  - apply reset_only_by_eviction.
  - apply reset_only_by_eviction_cache.
Qed.

(** ** Collection load *)

Section CollectionLoad.

Implicit Types (v : Volume) (st : State).

Lemma append_not_empty (s suffix : string) :
  string_empty suffix = false -> string_empty (s +:+ suffix) = false.
Proof. intros H. destruct s; [exact H | reflexivity]. Qed.

Lemma load_outside_range env v bmain st :
  runtime_frame v = VOLUME_FRAME_NONE ->
  BKE_volume_load env v bmain st = Some ((true, v), st).
Proof.
  intros H. unfold BKE_volume_load. rewrite H, Z.eqb_refl. reflexivity.
Qed.

Lemma load_already_loaded env v bmain st :
  runtime_frame v <> VOLUME_FRAME_NONE ->
  BKE_volume_is_loaded v = true ->
  BKE_volume_load env v bmain st
  = Some ((string_empty (VolumeGridVector.error_msg (runtime_grids v)), v), st).
Proof.
  intros Hf Hl. unfold BKE_volume_load.
  destruct (Z.eqb_spec (runtime_frame v) VOLUME_FRAME_NONE); [contradiction|].
  now rewrite Hl.
Qed.

Lemma load_not_found env v bmain st :
  runtime_frame v <> VOLUME_FRAME_NONE ->
  BKE_volume_is_loaded v = false ->
  BLI_exists env (volume_filepath_get env bmain v) = false ->
  BKE_volume_load env v bmain st
  = Some ((false,
           Volume_with_grids v
             {| VolumeGridVector.grids := VolumeGridVector.grids (runtime_grids v);
                VolumeGridVector.filepath := volume_filepath_get env bmain v;
                VolumeGridVector.error_msg :=
                  BLI_split_file_part env (volume_filepath_get env bmain v)
                  +:+ " not found" |}),
          {| cache := cache st;
             trace := trace st ++ [Acquire GridsLock;
                                   FileExists (volume_filepath_get env bmain v);
                                   Release GridsLock] |}).
Proof.
  intros Hf Hl Hex. unfold BKE_volume_load.
  destruct (Z.eqb_spec (runtime_frame v) VOLUME_FRAME_NONE); [contradiction|].
  rewrite Hl. cbv iota. rewrite emit_eval. cbv iota. rewrite emit_eval.
  cbn [VolumeGridVector.filepath VolumeGridVector.with_filepath].
  rewrite Hex; cbn [negb]. cbv iota. unfold not_found. rewrite emit_eval.
  unfold ret; cbn. now rewrite <- !app_assoc.
Qed.

(** What a call that returns leaves behind: the volume is unchanged, or it
    carries the resolved path and an error message that agrees with the
    returned value. *)
Lemma load_result_agrees env v bmain st r v' st' :
  BKE_volume_load env v bmain st = Some ((r, v'), st') ->
  (v' = v /\ st' = st)
  \/ (runtime_frame v' = runtime_frame v
      /\ filepath v' = filepath v
      /\ VolumeGridVector.filepath (runtime_grids v')
         = volume_filepath_get env bmain v
      /\ r = string_empty (VolumeGridVector.error_msg (runtime_grids v'))).
Proof.
  unfold BKE_volume_load.
  destruct (runtime_frame v =? VOLUME_FRAME_NONE).
  { intros [= <- <- <-]. now left. }
  destruct (BKE_volume_is_loaded v).
  { intros [= <- <- <-]. now left. }
  rewrite emit_eval. cbv iota. rewrite emit_eval.
  cbn [VolumeGridVector.filepath VolumeGridVector.with_filepath].
  assert (Hnf : forall s,
    not_found env v
      {| VolumeGridVector.grids := VolumeGridVector.grids (runtime_grids v);
         VolumeGridVector.filepath := volume_filepath_get env bmain v;
         VolumeGridVector.error_msg := VolumeGridVector.error_msg (runtime_grids v) |}
      s = Some (r, v', st') ->
    (v' = v /\ st' = st)
    \/ (runtime_frame v' = runtime_frame v
        /\ filepath v' = filepath v
        /\ VolumeGridVector.filepath (runtime_grids v')
           = volume_filepath_get env bmain v
        /\ r = string_empty (VolumeGridVector.error_msg (runtime_grids v')))).
  { intros s. unfold not_found. rewrite emit_eval. intros [= <- <- <-].
    right. cbn. repeat split. symmetry. now apply append_not_empty. }
  destruct (BLI_exists env (volume_filepath_get env bmain v)); cbn [negb];
    [|apply Hnf].
  rewrite emit_eval.
  unfold bind at 1.
  destruct (read_metadata env _ _ _) as [[meta st1]|]; [|discriminate].
  unfold bind at 1.
  destruct (add_grids _ _ _ _ st1) as [[l st2]|]; [|discriminate].
  rewrite emit_eval. intros [= <- <- <-]. right. cbn. repeat split.
Qed.

End CollectionLoad.

(** C4. [BKE_volume_load] returns true and leaves volume and state as they
    are when the runtime frame is the no-frame sentinel; otherwise, when the
    vector has a file path, it returns whether the stored error message is
    empty and leaves volume and state, trace included, as they are. A
    second call after a call that resolved a non-empty path returns the
    same value and again changes nothing. *)
Theorem load_is_idempotent (env : Env) (v : Volume) (bmain : Main) (st : State) :
  (runtime_frame v = VOLUME_FRAME_NONE ->
   BKE_volume_load env v bmain st = Some ((true, v), st))
  /\ (runtime_frame v <> VOLUME_FRAME_NONE ->
      VolumeGridVector.is_loaded (runtime_grids v) = true ->
      BKE_volume_load env v bmain st
      = Some ((string_empty (VolumeGridVector.error_msg (runtime_grids v)), v),
              st))
  /\ (forall r v' st',
         string_empty (volume_filepath_get env bmain v) = false ->
         BKE_volume_load env v bmain st = Some ((r, v'), st') ->
         BKE_volume_load env v' bmain st' = Some ((r, v'), st')).
Proof.
  split; [|split].
  - apply load_outside_range.
  - intros Hf Hl. apply load_already_loaded; [exact Hf|].
    unfold BKE_volume_is_loaded. rewrite Hl. apply orb_true_r.
  - intros r v' st' Hpath H.
    destruct (Z.eq_dec (runtime_frame v) VOLUME_FRAME_NONE) as [Hnone|Hsome].
    { rewrite load_outside_range in H by exact Hnone.
      injection H as <- <- <-. now apply load_outside_range. }
    destruct (BKE_volume_is_loaded v) eqn:Hl.
    { rewrite load_already_loaded in H by assumption.
      injection H as <- <- <-. now apply load_already_loaded. }
    destruct (load_result_agrees env v bmain st r v' st' H)
      as [[-> ->]|(Hframe & _ & Hfp & ->)]; [exact H|].
    apply load_already_loaded; [congruence|].
    unfold BKE_volume_is_loaded, VolumeGridVector.is_loaded.
    rewrite Hfp, Hpath. apply orb_true_r.
Qed.

(** C5. When the volume is not loaded and the resolved path does not
    exist, [BKE_volume_load] returns false, the error message of the vector
    is the file part of the path followed by " not found", the path is
    stored in the vector, the only file event is the existence test (the
    file is not opened), and a repeated call, for a non-empty path, returns
    false again without any event. *)
Theorem load_not_found_short_circuits (env : Env) (v : Volume) (bmain : Main)
    (st : State) :
  runtime_frame v <> VOLUME_FRAME_NONE ->
  BKE_volume_is_loaded v = false ->
  BLI_exists env (volume_filepath_get env bmain v) = false ->
  exists v' st',
    BKE_volume_load env v bmain st = Some ((false, v'), st')
    /\ VolumeGridVector.error_msg (runtime_grids v')
       = BLI_split_file_part env (volume_filepath_get env bmain v)
         +:+ " not found"
    /\ VolumeGridVector.filepath (runtime_grids v')
       = volume_filepath_get env bmain v
    /\ trace st' = trace st ++ [Acquire GridsLock;
                                FileExists (volume_filepath_get env bmain v);
                                Release GridsLock]
    /\ cache st' = cache st
    /\ (string_empty (volume_filepath_get env bmain v) = false ->
        BKE_volume_load env v' bmain st' = Some ((false, v'), st')).
Proof.
  intros Hf Hl Hex. do 2 eexists. split.
  { apply load_not_found; assumption. }
  cbn. repeat split.
  intros Hpath. rewrite load_already_loaded.
  - cbn. now rewrite append_not_empty.
  - exact Hf.
  - unfold BKE_volume_is_loaded, VolumeGridVector.is_loaded. cbn.
    rewrite Hpath. apply orb_true_r.
Qed.

(** ** Locks *)

Section Locks.

Implicit Types (held : list Lock) (tr : list Event) (st : State).

Lemma all_steps_app check held tr1 tr2 :
  all_steps check held (tr1 ++ tr2)
  = all_steps check held tr1 && all_steps check (held_at_end held tr1) tr2.
Proof.
  revert held. induction tr1 as [|ev tr1 IH]; intros held; [reflexivity|].
  cbn. now rewrite IH, andb_assoc.
Qed.

Lemma held_at_end_app held tr1 tr2 :
  held_at_end held (tr1 ++ tr2) = held_at_end (held_at_end held tr1) tr2.
Proof.
  revert held. induction tr1 as [|ev tr1 IH]; intros held; [reflexivity|].
  cbn. apply IH.
Qed.

Lemma segment_app held tr1 held1 tr2 held2 :
  segment held tr1 held1 -> segment held1 tr2 held2 ->
  segment held (tr1 ++ tr2) held2.
Proof.
  unfold segment, nested_locks, locks_at_most, no_io_under_global.
  intros (N1 & L1 & I1 & <-) (N2 & L2 & I2 & <-).
  rewrite !all_steps_app, held_at_end_app, N1, N2, L1, L2, I1, I2.
  repeat split.
Qed.

Lemma segment_nil held : segment held [] held.
Proof. repeat split. Qed.

Lemma release_head (l : Lock) held : release l (l :: held) = held.
Proof. cbn. now rewrite decide_True. Qed.

(** A cache method call with no lock or one other lock held. *)
Lemma segment_locked held :
  (length held <= 1)%nat -> existsb is_global held = false ->
  segment held locked held.
Proof.
  intros Hlen Hg. unfold segment, nested_locks, locks_at_most,
    no_io_under_global, locked.
  cbn [all_steps held_at_end held_after is_io andb negb may_acquire is_global].
  rewrite release_head, Hg. cbn [negb andb length].
  destruct held as [|l [|l' held]]; cbn in *; try lia; repeat split.
Qed.

Lemma segment_locked_times n held :
  (length held <= 1)%nat -> existsb is_global held = false ->
  segment held (locked_times n) held.
Proof.
  intros Hlen Hg. induction n as [|n IH]; [apply segment_nil|].
  cbn [locked_times]. eapply segment_app; [|exact IH].
  now apply segment_locked.
Qed.

Lemma discipline_locked_times n : lock_discipline (locked_times n).
Proof. apply segment_locked_times; [cbn; lia | reflexivity]. Qed.

Lemma discipline_locked : lock_discipline locked.
Proof. apply segment_locked; [cbn; lia | reflexivity]. Qed.

(** An outer lock around a piece of trace that needs no more than it. *)
Lemma segment_outer (l : Lock) tr :
  is_global l = false ->
  segment [l] tr [l] ->
  segment [] (Acquire l :: tr ++ [Release l]) [].
Proof.
  intros Hl Hseg.
  change (Acquire l :: tr ++ [Release l])
    with ([Acquire l] ++ (tr ++ [Release l])).
  eapply (segment_app _ _ [l]).
  - unfold segment, nested_locks, locks_at_most, no_io_under_global.
    cbn. unfold may_acquire. rewrite Hl. repeat split.
  - eapply segment_app; [exact Hseg|].
    unfold segment, nested_locks, locks_at_most, no_io_under_global.
    cbn [all_steps held_at_end held_after is_io andb negb].
    rewrite release_head. repeat split.
Qed.

(** File events under an outer lock. *)
Lemma segment_io (l : Lock) tr :
  is_global l = false ->
  forallb is_io tr = true ->
  segment [l] tr [l].
Proof.
  intros Hl. induction tr as [|ev tr IH]; [intros _; apply segment_nil|].
  cbn [forallb]. rewrite andb_true_iff. intros [Hev Htr].
  change (ev :: tr) with ([ev] ++ tr).
  eapply segment_app; [|exact (IH Htr)].
  unfold segment, nested_locks, locks_at_most, no_io_under_global.
  destruct ev; try discriminate; cbn; rewrite Hl; repeat split.
Qed.

Lemma tree_read_io env fp nm e :
  forallb is_io (snd (tree_read env fp nm e)) = true.
Proof.
  unfold tree_read. destruct (File_open env fp); [reflexivity|].
  now destruct (File_readGrid env fp nm).
Qed.

Lemma run_cache_op_trace op st st' :
  run_cache_op op st = Some (tt, st') -> trace st' = trace st ++ locked.
Proof.
  destruct op as [t|k b|k b|k|k]; cbn [run_cache_op].
  - unfold bind at 1. rewrite add_metadata_user_eval. cbn zeta.
    destruct (Int.in_range _); [|discriminate]. now intros [= <-].
  - rewrite copy_user_eval.
    destruct (cache st !! k) as [e|]; [|discriminate].
    destruct b; (destruct (Int.in_range _); [|discriminate]); now intros [= <-].
  - change (VolumeFileCache.remove_user k b)
      with (run_mutation (MutRemoveUser b) k).
    rewrite run_mutation_eval.
    destruct (cache st !! k) as [e|]; [|discriminate].
    destruct (mutation_defined _ e); [|discriminate]. now intros [= <-].
  - change (VolumeFileCache.change_to_tree_user k)
      with (run_mutation MutChangeToTreeUser k).
    rewrite run_mutation_eval.
    destruct (cache st !! k) as [e|]; [|discriminate].
    destruct (mutation_defined _ e); [|discriminate]. now intros [= <-].
  - change (VolumeFileCache.change_to_metadata_user k)
      with (run_mutation MutChangeToMetadataUser k).
    rewrite run_mutation_eval.
    destruct (cache st !! k) as [e|]; [|discriminate].
    destruct (mutation_defined _ e); [|discriminate]. now intros [= <-].
Qed.

Lemma destroy_trace (g : VolumeGrid.t) st st' :
  VolumeGrid.destroy g st = Some (tt, st') ->
  exists n, trace st' = trace st ++ locked_times n.
Proof.
  unfold VolumeGrid.destroy. destruct (VolumeGrid.entry g) as [k|].
  - intros H. exists 1%nat. cbn [locked_times]. rewrite (app_nil_r locked).
    exact (run_cache_op_trace (RemoveUser k _) st st' H).
  - intros [= <-]. exists 0%nat. cbn. now rewrite app_nil_r.
Qed.

Lemma load_trace env (g g' : VolumeGrid.t) vn fp st st' :
  VolumeGrid.load env g vn fp st = Some (g', st') ->
  exists tr, trace st' = trace st ++ tr /\ lock_discipline tr.
Proof.
  intros H.
  destruct (VolumeGrid.entry g) as [k|] eqn:He.
  2:{ rewrite load_noop in H by auto. injection H as _ <-.
      exists []. rewrite app_nil_r. split; [reflexivity|apply segment_nil]. }
  destruct (VolumeGrid.is_loaded g) eqn:Hl.
  { rewrite load_noop in H by auto. injection H as _ <-.
    exists []. rewrite app_nil_r. split; [reflexivity|apply segment_nil]. }
  destruct (cache st !! k) as [e|] eqn:Hk.
  2:{ now rewrite (load_dangling env g vn fp st k) in H. }
  rewrite (load_eval env g vn fp st k e He Hl Hk) in H.
  destruct (mutation_defined _ e); [|discriminate].
  destruct (_ =? 0); [discriminate|].
  destruct (Entry.is_loaded (promoted e)); injection H as _ <-; cbn [trace];
    eexists; (split; [reflexivity|]).
  - apply (segment_outer (EntryLock k) locked); [reflexivity|].
    now apply segment_locked.
  - apply (segment_outer (EntryLock k) (locked ++ _)); [reflexivity|].
    eapply segment_app; [now apply segment_locked|].
    apply segment_io; [reflexivity|apply tree_read_io].
Qed.

Lemma unload_trace (g g' : VolumeGrid.t) vn st st' :
  VolumeGrid.unload g vn st = Some (g', st') ->
  exists tr, trace st' = trace st ++ tr /\ lock_discipline tr.
Proof.
  intros H.
  destruct (VolumeGrid.entry g) as [k|] eqn:He.
  2:{ rewrite unload_noop in H by auto. injection H as _ <-.
      exists []. rewrite app_nil_r. split; [reflexivity|apply segment_nil]. }
  destruct (VolumeGrid.is_loaded g) eqn:Hl.
  2:{ rewrite unload_noop in H by auto. injection H as _ <-.
      exists []. rewrite app_nil_r. split; [reflexivity|apply segment_nil]. }
  destruct (cache st !! k) as [e|] eqn:Hk.
  2:{ now rewrite (unload_dangling g vn st k) in H. }
  rewrite (unload_eval g vn st k e He Hl Hk) in H.
  destruct (mutation_defined _ e); [|discriminate].
  injection H as _ <-; cbn [trace]. eexists; split; [reflexivity|].
  apply (segment_outer (EntryLock k) locked); [reflexivity|].
  now apply segment_locked.
Qed.

End Locks.

Section CollectionLocks.

Implicit Types (st : State).

Lemma locked_times_add n1 n2 :
  locked_times n1 ++ locked_times n2 = locked_times (n1 + n2).
Proof.
  induction n1 as [|n1 IH]; [reflexivity|].
  cbn [locked_times Nat.add]. now rewrite <- app_assoc, IH.
Qed.

Lemma locked_times_chain st st1 st2 n1 n2 :
  trace st1 = trace st ++ locked_times n1 ->
  trace st2 = trace st1 ++ locked_times n2 ->
  trace st2 = trace st ++ locked_times (n1 + n2).
Proof. intros H1 H2. now rewrite H2, H1, <- app_assoc, locked_times_add. Qed.

Lemma of_template_trace t st (g : VolumeGrid.t) st' :
  VolumeGrid.of_template t st = Some (g, st') ->
  exists n, trace st' = trace st ++ locked_times n.
Proof.
  unfold VolumeGrid.of_template, bind at 1.
  rewrite add_metadata_user_eval. cbn zeta.
  destruct (Int.in_range _); [|discriminate]. unfold ret. intros [= _ <-].
  exists 1%nat. cbn [trace locked_times]. now rewrite (app_nil_r locked).
Qed.

Lemma copy_trace (g g' : VolumeGrid.t) st st' :
  VolumeGrid.copy g st = Some (g', st') ->
  exists n, trace st' = trace st ++ locked_times n.
Proof.
  unfold VolumeGrid.copy; cbn [VolumeGrid.entry VolumeGrid.is_loaded].
  destruct (VolumeGrid.entry g) as [k|].
  - unfold bind at 1.
    destruct (VolumeFileCache.copy_user k _ st) as [[[] st1]|] eqn:Hc;
      [|discriminate].
    unfold ret. intros [= _ <-]. exists 1%nat.
    cbn [locked_times]. rewrite (app_nil_r locked).
    exact (run_cache_op_trace (CopyUser k _) st st1 Hc).
  - unfold bind at 1, ret. intros [= _ <-]. exists 0%nat. cbn.
    now rewrite app_nil_r.
Qed.

Lemma copy_grids_trace grids : forall st l st',
  copy_grids grids st = Some (l, st') ->
  exists n, trace st' = trace st ++ locked_times n.
Proof.
  induction grids as [|g rest IH]; intros st l st'; cbn [copy_grids].
  - intros [= _ <-]. exists 0%nat. cbn. now rewrite app_nil_r.
  - unfold bind at 1.
    destruct (VolumeGrid.copy g st) as [[g1 st1]|] eqn:Hc; [|discriminate].
    unfold bind at 1.
    destruct (copy_grids rest st1) as [[l1 st2]|] eqn:Hr; [|discriminate].
    unfold ret. intros [= _ <-].
    destruct (copy_trace _ _ _ _ Hc) as [n1 Hn1].
    destruct (IH _ _ _ Hr) as [n2 Hn2].
    exists (n1 + n2)%nat. eapply locked_times_chain; eassumption.
Qed.

Lemma clear_grids_trace grids : forall st st',
  clear_grids grids st = Some (tt, st') ->
  exists n, trace st' = trace st ++ locked_times n.
Proof.
  induction grids as [|g rest IH]; intros st st'; cbn [clear_grids].
  - intros [= <-]. exists 0%nat. cbn. now rewrite app_nil_r.
  - unfold bind at 1.
    destruct (VolumeGrid.destroy g st) as [[[] st1]|] eqn:Hd; [|discriminate].
    intros H. destruct (destroy_trace g st st1 Hd) as [n1 Hn1].
    destruct (IH _ _ H) as [n2 Hn2]. exists (n1 + n2)%nat.
    eapply locked_times_chain; eassumption.
Qed.

Lemma emplace_back_trace env grids t st l st' :
  emplace_back env grids t st = Some (l, st') ->
  exists n, trace st' = trace st ++ locked_times n.
Proof.
  unfold emplace_back.
  destruct (Vector_reallocates env (length grids)).
  - unfold bind at 1.
    destruct (VolumeGrid.of_template t st) as [[g st1]|] eqn:Hg;
      [|discriminate].
    unfold bind at 1.
    destruct (copy_grids grids st1) as [[copies st2]|] eqn:Hc; [|discriminate].
    unfold bind at 1.
    destruct (clear_grids grids st2) as [[[] st3]|] eqn:Hd; [|discriminate].
    unfold ret. intros [= _ <-].
    destruct (of_template_trace _ _ _ _ Hg) as [n1 Hn1].
    destruct (copy_grids_trace _ _ _ _ Hc) as [n2 Hn2].
    destruct (clear_grids_trace _ _ _ Hd) as [n3 Hn3].
    exists (n1 + n2 + n3)%nat.
    eapply locked_times_chain; [|eassumption].
    eapply locked_times_chain; eassumption.
  - unfold bind at 1.
    destruct (VolumeGrid.of_template t st) as [[g st1]|] eqn:Hg;
      [|discriminate].
    unfold ret. intros [= _ <-]. eapply of_template_trace, Hg.
Qed.

Lemma add_grids_trace env path vdb_grids : forall grids st l st',
  add_grids env path vdb_grids grids st = Some (l, st') ->
  exists n, trace st' = trace st ++ locked_times n.
Proof.
  induction vdb_grids as [|[vdb_grid|] rest IH]; intros grids st l st';
    cbn [add_grids].
  - intros [= _ <-]. exists 0%nat. cbn. now rewrite app_nil_r.
  - unfold bind at 1.
    destruct (emplace_back env grids _ st) as [[l1 st1]|] eqn:He;
      [|discriminate].
    intros H. destruct (emplace_back_trace _ _ _ _ _ _ He) as [n1 Hn1].
    destruct (IH _ _ _ _ H) as [n2 Hn2]. exists (n1 + n2)%nat.
    eapply locked_times_chain; eassumption.
  - apply IH.
Qed.

Lemma read_metadata_trace env path msg st r st' :
  read_metadata env path msg st = Some (r, st') ->
  exists tr, trace st' = trace st ++ tr /\ forallb is_io tr = true.
Proof.
  unfold read_metadata. rewrite emit_eval.
  destruct (File_open env path).
  - intros [= _ <-]. now exists [FileOpen path].
  - rewrite emit_eval. exists [FileOpen path; FileReadAllGridMetadata path].
    destruct (File_readAllGridMetadata env path);
      injection H as _ <-; cbn [trace]; now rewrite <- app_assoc.
Qed.

Lemma volume_load_trace env v bmain st r st' :
  BKE_volume_load env v bmain st = Some (r, st') ->
  exists tr, trace st' = trace st ++ tr /\ lock_discipline tr.
Proof.
  unfold BKE_volume_load.
  destruct (runtime_frame v =? VOLUME_FRAME_NONE).
  { intros [= _ <-]. exists []. rewrite app_nil_r.
    split; [reflexivity|apply segment_nil]. }
  destruct (BKE_volume_is_loaded v).
  { intros [= _ <-]. exists []. rewrite app_nil_r.
    split; [reflexivity|apply segment_nil]. }
  rewrite emit_eval. cbv iota. rewrite emit_eval.
  cbn [VolumeGridVector.filepath VolumeGridVector.with_filepath].
  set (path := volume_filepath_get env bmain v).
  destruct (BLI_exists env path); cbn [negb]; cbv iota.
  2:{ unfold not_found. rewrite emit_eval. intros [= _ <-]. cbn [trace].
      exists [Acquire GridsLock; FileExists path; Release GridsLock].
      split; [now rewrite <- !app_assoc|].
      apply (segment_outer GridsLock [FileExists path]); [reflexivity|].
      now apply segment_io. }
  rewrite emit_eval. unfold bind at 1.
  destruct (read_metadata env _ _ _) as [[meta st1]|] eqn:Hmeta; [|discriminate].
  destruct (read_metadata_trace _ _ _ _ _ _ Hmeta) as (io & Hio & Hall).
  unfold bind at 1.
  destruct (add_grids _ _ _ _ st1) as [[l st2]|] eqn:Hadd; [|discriminate].
  destruct (add_grids_trace _ _ _ _ _ _ _ Hadd) as [n Hn].
  rewrite emit_eval. intros [= _ <-]. cbn [trace].
  rewrite Hn, Hio. cbn [trace].
  exists (Acquire GridsLock
          :: ([FileExists path; FileExists path] ++ io ++ locked_times n)
          ++ [Release GridsLock]).
  split.
  { rewrite <- !app_assoc. reflexivity. }
  apply segment_outer; [reflexivity|].
  eapply segment_app; [now apply segment_io|].
  eapply segment_app; [now apply segment_io|].
  now apply segment_locked_times.
Qed.

Lemma volume_unload_trace v st v' st' :
  BKE_volume_unload v st = Some (v', st') ->
  exists tr, trace st' = trace st ++ tr /\ lock_discipline tr.
Proof.
  unfold BKE_volume_unload.
  destruct (negb _).
  - unfold bind at 1.
    destruct (clear_grids _ st) as [[[] st1]|] eqn:Hc; [|discriminate].
    intros [= _ <-]. destruct (clear_grids_trace _ _ _ Hc) as [n Hn].
    exists (locked_times n). split; [exact Hn|].
    apply discipline_locked_times.
  - intros [= _ <-]. exists []. rewrite app_nil_r.
    split; [reflexivity|apply segment_nil].
Qed.

Lemma run_grid_op_trace env op st st' :
  run_grid_op env op st = Some (tt, st') ->
  exists tr, trace st' = trace st ++ tr /\ lock_discipline tr.
Proof.
  destruct op as [t|g|g|g vn fp|g vn]; cbn [run_grid_op].
  - unfold VolumeGrid.of_template. rewrite bind_assoc. intros H.
    exists locked. split; [|apply discipline_locked].
    apply (run_cache_op_trace (AddMetadataUser t)). cbn [run_cache_op].
    revert H. unfold bind, ret.
    now destruct (VolumeFileCache.add_metadata_user t st) as [[k st1]|].
  - unfold VolumeGrid.copy; cbn [VolumeGrid.entry].
    destruct (VolumeGrid.entry g) as [k|].
    + rewrite bind_assoc. intros H.
      exists locked. split; [|apply discipline_locked].
      apply (run_cache_op_trace (CopyUser k (VolumeGrid.is_loaded g))).
      cbn [run_cache_op VolumeGrid.is_loaded]. revert H. unfold bind, ret.
      now destruct (VolumeFileCache.copy_user k _ st) as [[[] st1]|].
    + intros [= <-]. exists []. rewrite app_nil_r.
      split; [reflexivity|apply segment_nil].
  - intros H. destruct (destroy_trace g st st' H) as [n Hn].
    exists (locked_times n). split; [exact Hn|].
    apply discipline_locked_times.
  - unfold bind at 1.
    destruct (VolumeGrid.load env g vn fp st) as [[g' st1]|] eqn:H;
      [|discriminate].
    intros [= <-]. eapply load_trace, H.
  - unfold bind at 1.
    destruct (VolumeGrid.unload g vn st) as [[g' st1]|] eqn:H;
      [|discriminate].
    intros [= <-]. eapply unload_trace, H.
Qed.

End CollectionLocks.

(** C9. The code holds two locks at once, so the rule as stated fails; the
    nesting it follows is this. Every cache method, handle method,
    collection load and collection unload that returns has recorded a piece
    of trace in which: an entry lock or the grids lock is only taken with no
    lock held; the global cache lock is only taken with at most one other
    lock held, and nothing is taken while it is held; at most two locks are
    held at any time; no file is accessed while the global cache lock is
    held; and no lock is held at the end. *)
Theorem lock_nesting (env : Env) :
  (forall op st st',
      run_cache_op op st = Some (tt, st') ->
      exists tr, trace st' = trace st ++ tr /\ lock_discipline tr)
  /\ (forall op st st',
         run_grid_op env op st = Some (tt, st') ->
         exists tr, trace st' = trace st ++ tr /\ lock_discipline tr)
  /\ (forall v bmain st r st',
         BKE_volume_load env v bmain st = Some (r, st') ->
         exists tr, trace st' = trace st ++ tr /\ lock_discipline tr)
  /\ (forall v st v' st',
         BKE_volume_unload v st = Some (v', st') ->
         exists tr, trace st' = trace st ++ tr /\ lock_discipline tr).
Proof.
  split; [|split; [|split]].
  - intros op st st' H. exists locked.
    split; [exact (run_cache_op_trace op st st' H) | apply discipline_locked].
  - apply run_grid_op_trace.
  - apply volume_load_trace.
  - apply volume_unload_trace.
Qed.

(** C9, as stated, fails: [load] of the "heat" grid keeps the entry lock
    while [change_to_tree_user] takes the global cache lock. *)
Lemma one_lock_counterexample :
  option_map (fun r => trace (snd r))
    (VolumeGrid.load Sample.env (Sample.handle Sample.key_heat false)
       "smoke" Sample.path Sample.state_heat)
  = Some [Acquire (EntryLock Sample.key_heat);
          Acquire GlobalCacheLock; Release GlobalCacheLock;
          FileOpen Sample.path; FileReadGrid Sample.path "heat";
          Release (EntryLock Sample.key_heat)]
  /\ one_lock_at_a_time
       [Acquire (EntryLock Sample.key_heat);
        Acquire GlobalCacheLock; Release GlobalCacheLock;
        FileOpen Sample.path; FileReadGrid Sample.path "heat";
        Release (EntryLock Sample.key_heat)] = false.
Proof. split; vm_compute; reflexivity. Qed.

(** ** The theorems at concrete inputs *)

Lemma eviction_invariant_witness :
  (exists st',
      run_mutation MutChangeToMetadataUser Sample.key Sample.state_tree
      = Some (tt, st')
      /\ forall e', cache st' !! Sample.key = Some e' ->
           Entry.num_metadata_users e' = 2 /\ Entry.num_tree_users e' = 0
           /\ grid_tree (Entry.grid e') = [] /\ Entry.is_loaded e' = false)
  /\ (exists st',
         run_mutation (MutRemoveUser false) Sample.key Sample.state_metadata
         = Some (tt, st')
         /\ cache st' !! Sample.key = None)
  /\ 1 <= Entry.num_metadata_users (Sample.entry_metadata "density")
          + Entry.num_tree_users (Sample.entry_metadata "density").
Proof.
  destruct (eviction_invariant Sample.env) as [Hmut Hreach].
  split; [|split].
  - destruct (Hmut MutChangeToMetadataUser Sample.key Sample.entry_tree
                Sample.state_tree)
      as (st' & Hrun & _ & Hrem & _); try reflexivity.
    exists st'. split; [exact Hrun|].
    intros e' He'. destruct (Hrem e' He') as (Hm & Ht & Hclear).
    destruct (Hclear Ht) as [Htree Hl]. repeat split; assumption.
  - destruct (Hmut (MutRemoveUser false) Sample.key
                (Sample.entry_metadata "density") Sample.state_metadata)
      as (st' & Hrun & [_ Hgone] & _); try reflexivity.
    exists st'. split; [exact Hrun | apply Hgone; reflexivity].
  - apply (Hreach {| cache := cache Sample.state_metadata; trace := locked |})
      with (k := Sample.key).
    + apply (reachable_cache Sample.env {| cache := ∅; trace := [] |}
               (AddMetadataUser (Entry.new Sample.path (mkGrid "density" [])))).
      * apply reachable_init.
      * vm_compute. reflexivity.
    + vm_compute. reflexivity.
Defined.

Lemma failed_load_is_terminal_witness :
  (exists st' e',
      VolumeGrid.load Sample.env (Sample.handle Sample.key_heat false)
        "smoke" Sample.path Sample.state_heat
      = Some (Sample.handle Sample.key_heat true, st')
      /\ cache st' !! Sample.key_heat = Some e'
      /\ Entry.error_msg e' = "Cannot read grid"
      /\ Entry.is_loaded e' = true)
  /\ (exists g' st',
         VolumeGrid.load Sample.env (Sample.handle Sample.key false)
           "smoke" Sample.path Sample.state_tree = Some (g', st')
         /\ io_events (trace st') = [])
  /\ (forall st' e',
         run_grid_op Sample.env (Unload (Sample.handle Sample.key true) "smoke")
           Sample.state_tree = Some (tt, st') ->
         cache st' !! Sample.key = Some e' ->
         Entry.is_loaded e' = false ->
         Entry.num_tree_users e' = 0).
Proof.
  destruct (failed_load_is_terminal Sample.env)
    as (Hfail & Hretry & Hreset & _).
  split; [|split].
  - apply (Hfail (Sample.handle Sample.key_heat false) "smoke" Sample.path
             Sample.state_heat Sample.key_heat (Sample.entry_metadata "heat"));
      try reflexivity.
    + unfold counts_sane, Int.INT_MAX. cbn. lia.
    + right. split; reflexivity.
  - destruct (Hretry (Sample.handle Sample.key false) "smoke" Sample.path
                Sample.state_tree Sample.key Sample.entry_tree)
      as (g' & st' & e' & Hload & Hio & _); try reflexivity.
    + unfold counts_sane, Int.INT_MAX. cbn. lia.
    + exists g', st'. split; [exact Hload | exact Hio].
  - intros st' e' Hrun Hk Hl.
    apply (Hreset (Unload (Sample.handle Sample.key true) "smoke")
             Sample.state_tree st' Sample.key Sample.entry_tree e');
      try assumption; reflexivity.
Defined.

Lemma load_is_idempotent_witness :
  BKE_volume_load Sample.env
    (Volume_with_grids (Sample.volume "smoke.vdb")
       (VolumeGridVector.mk [] Sample.path "smoke.vdb not found"))
    Sample.bmain Sample.state_metadata
  = Some ((false,
           Volume_with_grids (Sample.volume "smoke.vdb")
             (VolumeGridVector.mk [] Sample.path "smoke.vdb not found")),
          Sample.state_metadata)
  /\ forall r v' st',
       BKE_volume_load Sample.env (Sample.volume "smoke.vdb") Sample.bmain
         Sample.state_metadata = Some ((r, v'), st') ->
       BKE_volume_load Sample.env v' Sample.bmain st' = Some ((r, v'), st').
Proof.
  split.
  - apply (proj1 (proj2 (load_is_idempotent Sample.env
             (Volume_with_grids (Sample.volume "smoke.vdb")
                (VolumeGridVector.mk [] Sample.path "smoke.vdb not found"))
             Sample.bmain Sample.state_metadata))).
    + vm_compute. discriminate.
    + reflexivity.
  - intros r v' st'.
    apply (proj2 (proj2 (load_is_idempotent Sample.env
             (Sample.volume "smoke.vdb") Sample.bmain Sample.state_metadata))).
    reflexivity.
Defined.

Lemma load_not_found_short_circuits_witness :
  exists v' st',
    BKE_volume_load Sample.env (Sample.volume "fire.vdb") Sample.bmain
      Sample.state_metadata = Some ((false, v'), st')
    /\ VolumeGridVector.error_msg (runtime_grids v') = "fire.vdb not found"
    /\ VolumeGridVector.filepath (runtime_grids v') = "/vdb/fire.vdb"
    /\ trace st' = [Acquire GridsLock; FileExists "/vdb/fire.vdb";
                    Release GridsLock]
    /\ BKE_volume_load Sample.env v' Sample.bmain st' = Some ((false, v'), st').
Proof.
  destruct (load_not_found_short_circuits Sample.env
              (Sample.volume "fire.vdb") Sample.bmain Sample.state_metadata)
    as (v' & st' & Hload & Hmsg & Hpath & Htrace & _ & Hagain).
  - vm_compute. discriminate.
  - reflexivity.
  - reflexivity.
  - exists v', st'. repeat split; try assumption. apply Hagain. reflexivity.
Defined.


Lemma load_unload_idempotent_witness :
  VolumeGrid.load Sample.env (Sample.handle Sample.key true) "smoke"
    Sample.path Sample.state_tree
  = Some (Sample.handle Sample.key true, Sample.state_tree)
  /\ VolumeGrid.unload (Sample.handle Sample.key false) "smoke"
       Sample.state_tree
     = Some (Sample.handle Sample.key false, Sample.state_tree)
  /\ (forall g' st',
         VolumeGrid.load Sample.env (Sample.handle Sample.key false) "smoke"
           Sample.path Sample.state_metadata = Some (g', st') ->
         VolumeGrid.load Sample.env g' "smoke" Sample.path st'
         = Some (g', st')).
Proof.
  split; [|split].
  - apply (proj1 (load_unload_idempotent Sample.env
                    (Sample.handle Sample.key true) "smoke" Sample.path
                    Sample.state_tree)).
    left. reflexivity.
  - apply (proj1 (proj2 (load_unload_idempotent Sample.env
                           (Sample.handle Sample.key false) "smoke"
                           Sample.path Sample.state_tree))).
    left. reflexivity.
  - apply (proj1 (proj2 (proj2 (load_unload_idempotent Sample.env
                                  (Sample.handle Sample.key false) "smoke"
                                  Sample.path Sample.state_metadata)))).
Defined.

Lemma lock_nesting_witness :
  (exists tr,
      [Acquire (EntryLock Sample.key_heat);
       Acquire GlobalCacheLock; Release GlobalCacheLock;
       FileOpen Sample.path; FileReadGrid Sample.path "heat";
       Release (EntryLock Sample.key_heat)] = [] ++ tr
      /\ lock_discipline tr)
  /\ exists r st',
       BKE_volume_load Sample.env (Sample.volume "smoke.vdb") Sample.bmain
         {| cache := ∅; trace := [] |} = Some (r, st')
       /\ trace st'
          = [Acquire GridsLock;
             FileExists Sample.path; FileExists Sample.path;
             FileOpen Sample.path; FileReadAllGridMetadata Sample.path;
             Acquire GlobalCacheLock; Release GlobalCacheLock;
             Acquire GlobalCacheLock; Release GlobalCacheLock;
             Acquire GlobalCacheLock; Release GlobalCacheLock;
             Acquire GlobalCacheLock; Release GlobalCacheLock;
             Release GridsLock]
       /\ exists tr, trace st' = [] ++ tr /\ lock_discipline tr.
Proof.
  split.
  - apply (proj1 (proj2 (lock_nesting Sample.env))
             (Load (Sample.handle Sample.key_heat false) "smoke" Sample.path)
             Sample.state_heat
             {| cache :=
                  {[ Sample.key_heat :=
                       {| Entry.grid := mkGrid "heat" [];
                          Entry.is_loaded := true;
                          Entry.error_msg := "Cannot read grid";
                          Entry.num_metadata_users := 0;
                          Entry.num_tree_users := 1 |} ]};
                trace :=
                  [Acquire (EntryLock Sample.key_heat);
                   Acquire GlobalCacheLock; Release GlobalCacheLock;
                   FileOpen Sample.path; FileReadGrid Sample.path "heat";
                   Release (EntryLock Sample.key_heat)] |}).
    vm_compute. reflexivity.
  - do 2 eexists. split; [vm_compute; reflexivity|]. split; [reflexivity|].
    eapply (proj1 (proj2 (proj2 (lock_nesting Sample.env)))
              (Sample.volume "smoke.vdb") Sample.bmain
              {| cache := ∅; trace := [] |}).
    vm_compute. reflexivity.
Defined.

(** * Further properties *)

(** ** Sequence frames, mode by mode *)

Section SequenceModes.

Implicit Types (v : Volume) (mode : VolumeSequenceMode).

Lemma range_bounds z : Int.in_range z = true -> -2147483648 <= z <= 2147483647.
Proof. intros H. apply in_range_spec in H. exact H. Qed.

Lemma range_of_bounds z :
  -2147483648 <= z <= 2147483647 -> Int.checked z = Some z.
Proof. intros H. apply checked_in_range, in_range_spec. exact H. Qed.

(** The function is the switch on the relative frame, then the offset. *)
Lemma sequence_frame_via_switch v mode scene_frame duration start offset :
  duration <> 0 ->
  Int.in_range (scene_frame - start) = true ->
  Int.in_range (relative_frame scene_frame start) = true ->
  volume_sequence_frame scene_frame
    (Volume_with_sequence v mode duration start offset)
  = match volume_sequence_switch mode duration
            (relative_frame scene_frame start) with
    | Some (Return value) => Some value
    | Some (Break frame) => Int.add frame offset
    | None => None
    end.
Proof.
  intros Hd H1 H2. unfold volume_sequence_frame, Volume_with_sequence.
  cbn [is_sequence negb sequence_mode frame_duration frame_start frame_offset].
  destruct (Z.eqb_spec duration 0); [contradiction|].
  unfold Int.sub at 1. rewrite (checked_in_range _ H1).
  cbn [mbind option_bind]. unfold relative_frame in *.
  change (Int.add (scene_frame - start) 1)
    with (Int.checked (scene_frame - start + 1)).
  rewrite (checked_in_range _ H2). cbn [mbind option_bind].
  destruct (volume_sequence_switch _ _ _) as [[value|frame]|]; reflexivity.
Qed.

Lemma rem_to_modulo raw d :
  1 <= d ->
  (if (if Z.rem raw d <? 0 then Z.rem raw d + d else Z.rem raw d) =? 0 then d
   else if Z.rem raw d <? 0 then Z.rem raw d + d else Z.rem raw d)
  = (raw - 1) mod d + 1.
Proof.
  intros Hd.
  pose proof (Z.quot_rem' raw d) as Hqr.
  pose proof (Z.rem_bound_abs raw d ltac:(lia)) as Hb.
  remember (Z.rem raw d) as r eqn:Er. remember (Z.quot raw d) as q eqn:Eq.
  assert (Hr : - d < r < d) by lia.
  destruct (Z.ltb_spec r 0) as [H|H].
  - destruct (Z.eqb_spec (r + d) 0) as [H0|H0]; [lia|].
    rewrite <- (Z.mod_unique_pos (raw - 1) d (q - 1) (r + d - 1)); lia.
  - destruct (Z.eqb_spec r 0) as [H0|H0].
    + rewrite <- (Z.mod_unique_pos (raw - 1) d (q - 1) (d - 1)); lia.
    + rewrite <- (Z.mod_unique_pos (raw - 1) d q (r - 1)); lia.
Qed.

Lemma repeat_frame_bounds d raw : 1 <= d -> 1 <= repeat_frame d raw <= d.
Proof.
  intros Hd. unfold repeat_frame.
  pose proof (Z.mod_pos_bound (raw - 1) d ltac:(lia)). lia.
Qed.

Lemma ping_pong_frame_bounds d raw : 2 <= d -> 1 <= ping_pong_frame d raw <= d.
Proof.
  intros Hd. unfold ping_pong_frame.
  pose proof (Z.mod_pos_bound (raw - 1) (d * 2 - 2) ltac:(lia)).
  destruct (Z.leb_spec ((raw - 1) mod (d * 2 - 2) + 1) d); lia.
Qed.

Lemma switch_repeat d raw :
  1 <= d -> Int.in_range d = true -> Int.in_range raw = true ->
  volume_sequence_switch VOLUME_SEQUENCE_REPEAT d raw
  = Some (Break (repeat_frame d raw)).
Proof.
  intros Hd Hdr Hraw. apply range_bounds in Hdr, Hraw.
  unfold repeat_frame. rewrite <- (rem_to_modulo raw d Hd).
  unfold volume_sequence_switch, Int.rem, Int.add.
  destruct (Z.eqb_spec d 0); [lia|].
  destruct (Z.eqb_spec d (-1)); [lia|]. rewrite andb_false_r.
  cbn [mbind option_bind].
  pose proof (Z.rem_bound_abs raw d ltac:(lia)) as Hb.
  destruct (Z.ltb_spec (Z.rem raw d) 0).
  - rewrite range_of_bounds by lia. reflexivity.
  - reflexivity.
Qed.

Lemma switch_ping_pong d raw :
  2 <= d <= 1073741823 -> Int.in_range raw = true ->
  volume_sequence_switch VOLUME_SEQUENCE_PING_PONG d raw
  = Some (Break (ping_pong_frame d raw)).
Proof.
  intros Hd Hraw. apply range_bounds in Hraw.
  unfold ping_pong_frame. cbv zeta.
  rewrite <- (rem_to_modulo raw (d * 2 - 2)) by lia.
  unfold volume_sequence_switch, Int.mul, Int.sub, Int.add.
  rewrite (range_of_bounds (d * 2)) by lia. cbn [mbind option_bind].
  rewrite (range_of_bounds (d * 2 - 2)) by lia. cbn [mbind option_bind].
  unfold Int.rem.
  destruct (Z.eqb_spec (d * 2 - 2) 0); [lia|].
  destruct (Z.eqb_spec (d * 2 - 2) (-1)); [lia|]. rewrite andb_false_r.
  cbn [mbind option_bind].
  pose proof (Z.rem_bound_abs raw (d * 2 - 2) ltac:(lia)) as Hb.
  remember (Z.rem raw (d * 2 - 2)) as r eqn:Er.
  destruct (Z.ltb_spec r 0).
  - rewrite (range_of_bounds (r + (d * 2 - 2))) by lia.
    cbn [mbind option_bind].
    destruct (Z.eqb_spec (r + (d * 2 - 2)) 0); [lia|].
    destruct (Z.gtb_spec (r + (d * 2 - 2)) d);
      destruct (Z.leb_spec (r + (d * 2 - 2)) d); try lia.
    + rewrite (range_of_bounds (d * 2 - (r + (d * 2 - 2)))) by lia.
      reflexivity.
    + reflexivity.
  - cbn [mbind option_bind].
    destruct (Z.eqb_spec r 0).
    + destruct (Z.gtb_spec (d * 2 - 2) d);
        destruct (Z.leb_spec (d * 2 - 2) d); try lia.
      * rewrite (range_of_bounds (d * 2 - (d * 2 - 2))) by lia. reflexivity.
      * reflexivity.
    + destruct (Z.gtb_spec r d); destruct (Z.leb_spec r d); try lia.
      * rewrite (range_of_bounds (d * 2 - r)) by lia. reflexivity.
      * reflexivity.
Qed.

End SequenceModes.

Lemma add_offset frame duration offset :
  1 <= frame <= duration ->
  Int.in_range (1 + offset) = true ->
  Int.in_range (duration + offset) = true ->
  Int.add frame offset = Some (frame + offset).
Proof.
  intros Hf H1 H2. apply range_bounds in H1, H2.
  unfold Int.add. apply range_of_bounds. lia.
Qed.

(** X1. On the frames of the sequence itself, from the start frame to the
    start frame plus the duration minus one, the four modes agree: the
    result is the frame relative to the start plus the offset. PingPong
    needs at least two frames. *)
Theorem sequence_modes_agree_inside (v : Volume) (mode : VolumeSequenceMode)
    (scene_frame duration start offset : Z) :
  sequence_args_ok scene_frame start offset duration ->
  1 <= relative_frame scene_frame start <= duration ->
  (mode = VOLUME_SEQUENCE_PING_PONG -> 2 <= duration <= 1073741823) ->
  volume_sequence_frame scene_frame
    (Volume_with_sequence v mode duration start offset)
  = Some (relative_frame scene_frame start + offset).
Proof.
  intros (H1 & H2 & Hd & Ho1 & Ho2) Hin Hpp.
  rewrite sequence_frame_via_switch by (try assumption; lia).
  set (raw := relative_frame scene_frame start) in *.
  destruct mode.
  - cbn [volume_sequence_switch].
    destruct (Z.ltb_spec raw 1); [lia|].
    destruct (Z.gtb_spec raw duration); [lia|]. cbn [orb].
    now apply (add_offset raw duration).
  - cbn [volume_sequence_switch]. unfold clamp_i.
    replace (Z.min (Z.max raw 1) duration) with raw by lia.
    now apply (add_offset raw duration).
  - rewrite switch_repeat by (try assumption; lia).
    unfold repeat_frame. rewrite Z.mod_small by lia.
    replace (raw - 1 + 1) with raw by lia.
    now apply (add_offset raw duration).
  - specialize (Hpp eq_refl). rewrite switch_ping_pong by assumption.
    unfold ping_pong_frame. cbv zeta. rewrite Z.mod_small by lia.
    replace (raw - 1 + 1) with raw by lia.
    destruct (Z.leb_spec raw duration); [|lia].
    now apply (add_offset raw duration).
Qed.

(** X2. In Repeat mode with a duration of at least one frame the result is
    the offset plus [((frame - 1) mod duration) + 1], where [frame] is the
    frame relative to the start and [mod] never is negative; that frame
    lies in [1, duration], and the result repeats with the duration. *)
Theorem repeat_sequence_frame (v : Volume)
    (scene_frame duration start offset : Z) :
  1 <= duration ->
  sequence_args_ok scene_frame start offset duration ->
  volume_sequence_frame scene_frame
    (Volume_with_sequence v VOLUME_SEQUENCE_REPEAT duration start offset)
  = Some (repeat_frame duration (relative_frame scene_frame start) + offset)
  /\ 1 <= repeat_frame duration (relative_frame scene_frame start) <= duration
  /\ (sequence_args_ok (scene_frame + duration) start offset duration ->
      volume_sequence_frame (scene_frame + duration)
        (Volume_with_sequence v VOLUME_SEQUENCE_REPEAT duration start offset)
      = volume_sequence_frame scene_frame
          (Volume_with_sequence v VOLUME_SEQUENCE_REPEAT duration start offset)).
Proof.
  intros Hd1 Hok.
  assert (Heval : forall sf,
    sequence_args_ok sf start offset duration ->
    volume_sequence_frame sf
      (Volume_with_sequence v VOLUME_SEQUENCE_REPEAT duration start offset)
    = Some (repeat_frame duration (relative_frame sf start) + offset)).
  { intros sf (H1 & H2 & Hd & Ho1 & Ho2).
    rewrite sequence_frame_via_switch by (try assumption; lia).
    rewrite switch_repeat by assumption.
    apply (add_offset _ duration); try assumption.
    now apply repeat_frame_bounds. }
  split; [now apply Heval|]. split; [now apply repeat_frame_bounds|].
  intros Hok'. rewrite !Heval by assumption. do 2 f_equal.
  unfold repeat_frame, relative_frame. f_equal.
  replace (scene_frame + duration - start + 1 - 1)
    with (scene_frame - start + 1 - 1 + 1 * duration) by lia.
  apply Z.mod_add. lia.
Qed.

Lemma ping_pong_frame_mirror d raw :
  2 <= d -> ping_pong_frame d (d * 2 - raw) = ping_pong_frame d raw.
Proof.
  intros Hd. unfold ping_pong_frame. cbv zeta.
  set (p := d * 2 - 2).
  pose proof (Z.mod_pos_bound (raw - 1) p ltac:(subst p; lia)) as Ha.
  pose proof (Z.div_mod (raw - 1) p ltac:(subst p; lia)) as Hdm.
  remember ((raw - 1) mod p) as a eqn:Ea.
  remember ((raw - 1) / p) as k eqn:Ek.
  destruct (Z.eq_dec a 0) as [Hz|Hnz].
  - rewrite <- (Z.mod_unique_pos (d * 2 - raw - 1) p (1 - k) 0)
      by (subst p; lia).
    subst a. rewrite Hz. reflexivity.
  - rewrite <- (Z.mod_unique_pos (d * 2 - raw - 1) p (- k) (p - a))
      by (subst p; lia).
    destruct (Z.leb_spec (p - a + 1) d); destruct (Z.leb_spec (a + 1) d);
      subst p; lia.
Qed.

(** X3. In PingPong mode with a duration of 2 to 1073741823 frames the
    result is the offset plus the frame of a triangle wave of period
    [2 * duration - 2]: it lies in [1, duration], it repeats with that
    period, and two scene frames that mirror each other about the last
    frame of the sequence show the same frame. *)
Theorem ping_pong_sequence_frame (v : Volume)
    (scene_frame duration start offset : Z) :
  2 <= duration <= 1073741823 ->
  sequence_args_ok scene_frame start offset duration ->
  volume_sequence_frame scene_frame
    (Volume_with_sequence v VOLUME_SEQUENCE_PING_PONG duration start offset)
  = Some (ping_pong_frame duration (relative_frame scene_frame start) + offset)
  /\ 1 <= ping_pong_frame duration (relative_frame scene_frame start)
       <= duration
  /\ (forall scene_frame',
         sequence_args_ok scene_frame' start offset duration ->
         scene_frame' = scene_frame + (duration * 2 - 2)
         \/ relative_frame scene_frame' start
            = duration * 2 - relative_frame scene_frame start ->
         volume_sequence_frame scene_frame'
           (Volume_with_sequence v VOLUME_SEQUENCE_PING_PONG duration start
              offset)
         = volume_sequence_frame scene_frame
             (Volume_with_sequence v VOLUME_SEQUENCE_PING_PONG duration start
                offset)).
Proof.
  intros Hd Hok.
  assert (Heval : forall sf,
    sequence_args_ok sf start offset duration ->
    volume_sequence_frame sf
      (Volume_with_sequence v VOLUME_SEQUENCE_PING_PONG duration start offset)
    = Some (ping_pong_frame duration (relative_frame sf start) + offset)).
  { intros sf (H1 & H2 & Hdr & Ho1 & Ho2).
    rewrite sequence_frame_via_switch by (try assumption; lia).
    rewrite switch_ping_pong by assumption.
    apply (add_offset _ duration); try assumption.
    apply ping_pong_frame_bounds. lia. }
  split; [now apply Heval|].
  split; [apply ping_pong_frame_bounds; lia|].
  intros sf' Hok' Hrel. rewrite !Heval by assumption. do 2 f_equal.
  destruct Hrel as [-> | ->].
  - unfold ping_pong_frame, relative_frame. cbv zeta.
    replace (scene_frame + (duration * 2 - 2) - start + 1 - 1)
      with (scene_frame - start + 1 - 1 + 1 * (duration * 2 - 2)) by lia.
    rewrite Z.mod_add by lia. reflexivity.
  - apply ping_pong_frame_mirror. lia.
Qed.

(** X4. Outside the frames of a sequence of at least one frame, Clip mode
    gives the no-frame sentinel, and Extend mode holds the first frame
    before the start and the last frame after the end. *)
Theorem clip_and_extend_outside (v : Volume)
    (scene_frame duration start offset : Z) :
  1 <= duration ->
  sequence_args_ok scene_frame start offset duration ->
  relative_frame scene_frame start < 1
  \/ duration < relative_frame scene_frame start ->
  volume_sequence_frame scene_frame
    (Volume_with_sequence v VOLUME_SEQUENCE_CLIP duration start offset)
  = Some VOLUME_FRAME_NONE
  /\ volume_sequence_frame scene_frame
       (Volume_with_sequence v VOLUME_SEQUENCE_EXTEND duration start offset)
     = Some ((if relative_frame scene_frame start <? 1 then 1 else duration)
             + offset).
Proof.
  intros Hd1 (H1 & H2 & Hd & Ho1 & Ho2) Hout.
  rewrite !sequence_frame_via_switch by (try assumption; lia).
  set (raw := relative_frame scene_frame start) in *.
  cbn [volume_sequence_switch]. split.
  - destruct (Z.ltb_spec raw 1); [reflexivity|].
    destruct (Z.gtb_spec raw duration); [reflexivity|lia].
  - unfold clamp_i. destruct (Z.ltb_spec raw 1).
    + replace (Z.min (Z.max raw 1) duration) with 1 by lia.
      now apply (add_offset 1 duration); [lia| |].
    + replace (Z.min (Z.max raw 1) duration) with duration by lia.
      now apply (add_offset duration duration); [lia| |].
Qed.

(** ** Live handles and counters *)

Section LiveHandles.

Implicit Types (k : Key) (e : Entry.t) (st : State) (g : VolumeGrid.t)
  (l : list VolumeGrid.t) (w : World).

Lemma uses_no_entry k b g : VolumeGrid.entry g = None -> uses k b g = false.
Proof. unfold uses. now intros ->. Qed.

Lemma uses_other k k' b g :
  VolumeGrid.entry g = Some k -> k' <> k -> uses k' b g = false.
Proof.
  unfold uses. intros -> Hne. rewrite bool_decide_eq_false_2 by congruence.
  reflexivity.
Qed.

Lemma uses_own k b g :
  VolumeGrid.entry g = Some k ->
  uses k b g = Bool.eqb (VolumeGrid.is_loaded g) b.
Proof.
  unfold uses. intros ->. now rewrite bool_decide_eq_true_2 by reflexivity.
Qed.

Lemma count_users_nonneg k b l : 0 <= count_users k b l.
Proof.
  induction l as [|g l IH]; cbn [count_users]; [lia|].
  destruct (uses k b g); lia.
Qed.

Lemma count_users_app k b l g :
  count_users k b (l ++ [g])
  = count_users k b l + (if uses k b g then 1 else 0).
Proof.
  induction l as [|g' l IH]; cbn [count_users app]; [lia|]. rewrite IH. lia.
Qed.

Lemma count_users_delete k b l : forall i g,
  l !! i = Some g ->
  count_users k b (delete i l)
  = count_users k b l - (if uses k b g then 1 else 0).
Proof.
  induction l as [|g' l IH]; intros [|i] g H; try discriminate.
  - injection H as ->. cbn. lia.
  - cbn in H. change (delete (S i) (g' :: l)) with (g' :: delete i l).
    cbn [count_users]. rewrite (IH i g H). lia.
Qed.

Lemma count_users_insert k b l : forall i g g',
  l !! i = Some g ->
  count_users k b (<[i := g']> l)
  = count_users k b l - (if uses k b g then 1 else 0)
    + (if uses k b g' then 1 else 0).
Proof.
  induction l as [|g0 l IH]; intros [|i] g g' H; try discriminate.
  - injection H as ->. cbn. lia.
  - cbn in H. change (<[S i := g']> (g0 :: l)) with (g0 :: <[i := g']> l).
    cbn [count_users]. rewrite (IH i g g' H). lia.
Qed.

Lemma count_users_member k b l i g :
  l !! i = Some g -> uses k b g = true -> 1 <= count_users k b l.
Proof.
  revert i. induction l as [|g' l IH]; intros [|i] H Hu; try discriminate.
  - injection H as ->. cbn [count_users]. rewrite Hu.
    pose proof (count_users_nonneg k b l). lia.
  - cbn in H. cbn [count_users]. specialize (IH i H Hu).
    destruct (uses k b g'); lia.
Qed.

Lemma invariant_keys w :
  counted w /\ resident w
  <-> forall k, key_ok (cache (world_state w)) (handles w) k.
Proof.
  unfold counted, resident, key_ok. split.
  - intros [Hc Hr] k. specialize (Hc k).
    destruct (cache (world_state w) !! k) as [e|] eqn:Hk; [|exact Hc].
    destruct Hc as (Hm & Ht & Hs). repeat split; try assumption;
      apply (Hr k e Hk).
  - intros H. split.
    + intros k. specialize (H k).
      destruct (cache (world_state w) !! k); [|exact H].
      destruct H as (Hm & Ht & Hs & _). now repeat split.
    + intros k e Hk. specialize (H k). rewrite Hk in H. apply H.
Qed.

Lemma key_ok_frame (c c' : gmap Key Entry.t) l l' k :
  c' !! k = c !! k ->
  (forall b, count_users k b l' = count_users k b l) ->
  key_ok c l k -> key_ok c' l' k.
Proof. unfold key_ok. intros -> Hcount. now rewrite !Hcount. Qed.

End LiveHandles.

Section WorldSteps.

Implicit Types (k : Key) (e : Entry.t) (st : State) (g : VolumeGrid.t)
  (l : list VolumeGrid.t) (w : World) (c : gmap Key Entry.t).

Lemma keys_insert c l l' k0 e' :
  (forall k, key_ok c l k) ->
  (forall k b, k <> k0 -> count_users k b l' = count_users k b l) ->
  Entry.num_metadata_users e' = count_users k0 false l' ->
  Entry.num_tree_users e' = count_users k0 true l' ->
  1 <= Entry.num_metadata_users e' + Entry.num_tree_users e' ->
  (Entry.is_loaded e' = true <-> 1 <= Entry.num_tree_users e') ->
  forall k, key_ok (<[k0 := e']> c) l' k.
Proof.
  intros H Hcount Hm Ht Hs Hl k. destruct (decide (k = k0)) as [->|Hne].
  - unfold key_ok. rewrite lookup_insert_eq.
    exact (conj Hm (conj Ht (conj Hs Hl))).
  - apply (key_ok_frame c _ l); [now apply lookup_insert_ne | | apply H].
    intros b. now apply Hcount.
Qed.

Lemma keys_evicted c l l' k0 e1 :
  (forall k, key_ok c l k) ->
  (forall k b, k <> k0 -> count_users k b l' = count_users k b l) ->
  Entry.num_metadata_users e1 = count_users k0 false l' ->
  Entry.num_tree_users e1 = count_users k0 true l' ->
  (1 <= Entry.num_tree_users e1 -> Entry.is_loaded e1 = true) ->
  forall k, key_ok (evicted k0 e1 c) l' k.
Proof.
  intros H Hcount Hm Ht Hl k. destruct (decide (k = k0)) as [->|Hne].
  - unfold key_ok. rewrite evicted_lookup.
    pose proof (count_users_nonneg k0 false l').
    pose proof (count_users_nonneg k0 true l').
    destruct (Z.eqb_spec (Entry.num_metadata_users e1
                          + Entry.num_tree_users e1) 0); [lia|].
    destruct (Z.eqb_spec (Entry.num_tree_users e1) 0) as [Hz|Hnz].
    + cbn. split; [|split; [|split; [|split]]]; try lia; discriminate.
    + split; [|split; [|split; [|split]]]; try lia; try assumption.
  - apply (key_ok_frame c _ l); [now apply evicted_lookup_ne | | apply H].
    intros b. now apply Hcount.
Qed.

Lemma key_ok_present c l k i g b :
  key_ok c l k -> l !! i = Some g -> uses k b g = true ->
  exists e, c !! k = Some e.
Proof.
  intros H Hi Hu. pose proof (count_users_member k b l i g Hi Hu) as Hpos.
  unfold key_ok in H. destruct (c !! k) as [e|]; [now exists e|].
  destruct b; lia.
Qed.

Lemma step_of_template w fp vg r :
  (forall k, key_ok (cache (world_state w)) (handles w) k) ->
  VolumeGrid.of_template (Entry.new fp vg) (world_state w) = Some r ->
  forall k, key_ok (cache (snd r)) (handles w ++ [fst r]) k.
Proof.
  intros H. unfold VolumeGrid.of_template, bind at 1.
  rewrite add_metadata_user_eval. cbn zeta. cbn [Entry.new fst snd].
  generalize (fp, Grid_getName vg). intros k0.
  destruct (Int.in_range _); [|discriminate]. intros [= <-]. cbn [fst snd cache].
  pose proof (H k0) as Hk0. unfold key_ok in Hk0.
  pose proof (count_users_nonneg k0 true (handles w)).
  revert Hk0.
  destruct (lookup (K := Key) k0 (cache (world_state w))) as [e|];
    cbn [default]; intros Hk0.
  - destruct Hk0 as (Hm & Htr & Hs & Hl).
    apply (keys_insert _ (handles w)); try assumption.
    + intros k b Hne. rewrite count_users_app, (uses_other k0) by easy. lia.
    + rewrite count_users_app, (uses_own k0) by reflexivity. cbn. lia.
    + rewrite count_users_app, (uses_own k0) by reflexivity. cbn. lia.
    + cbn. lia.
  - destruct Hk0 as (Hm & Htr).
    apply (keys_insert _ (handles w)); try assumption.
    + intros k b Hne. rewrite count_users_app, (uses_other k0) by easy. lia.
    + rewrite count_users_app, (uses_own k0) by reflexivity. cbn. lia.
    + rewrite count_users_app, (uses_own k0) by reflexivity. cbn. lia.
    + cbn. lia.
    + cbn. split; [discriminate | lia].
Qed.

Lemma step_copy w i g r :
  (forall k, key_ok (cache (world_state w)) (handles w) k) ->
  handles w !! i = Some g ->
  VolumeGrid.copy g (world_state w) = Some r ->
  forall k, key_ok (cache (snd r)) (handles w ++ [fst r]) k.
Proof.
  intros H Hi. unfold VolumeGrid.copy; cbn [VolumeGrid.entry VolumeGrid.is_loaded].
  destruct (VolumeGrid.entry g) as [k0|] eqn:He.
  - unfold bind at 1. rewrite copy_user_eval.
    destruct (cache (world_state w) !! k0) as [e|] eqn:Hk0; [|discriminate].
    pose proof (H k0) as Hk. unfold key_ok in Hk. rewrite Hk0 in Hk.
    destruct Hk as (Hm & Ht & Hs & Hl).
    pose proof (count_users_nonneg k0 true (handles w)).
    destruct (VolumeGrid.is_loaded g) eqn:Hgl;
      (destruct (Int.in_range _); [|discriminate]);
      intros [= <-]; cbn [fst snd cache];
      apply (keys_insert _ (handles w)); try assumption.
    + intros k b Hne. rewrite count_users_app, (uses_other k0) by easy. lia.
    + rewrite count_users_app, (uses_own k0) by reflexivity. cbn. lia.
    + rewrite count_users_app, (uses_own k0) by reflexivity. cbn. lia.
    + cbn. lia.
    + cbn. split; [lia|]. intros _. apply Hl.
      rewrite Ht. apply (count_users_member _ _ _ i g Hi).
      rewrite (uses_own k0) by assumption. now rewrite Hgl.
    + intros k b Hne. rewrite count_users_app, (uses_other k0) by easy. lia.
    + rewrite count_users_app, (uses_own k0) by reflexivity. cbn. lia.
    + rewrite count_users_app, (uses_own k0) by reflexivity. cbn. lia.
    + cbn. lia.
  - intros [= <-]. cbn [fst snd]. intros k.
    apply (key_ok_frame (cache (world_state w)) _ (handles w));
      [reflexivity | | apply H].
    intros b. rewrite count_users_app, uses_no_entry by reflexivity. lia.
Qed.

Lemma step_destroy w i g r :
  (forall k, key_ok (cache (world_state w)) (handles w) k) ->
  handles w !! i = Some g ->
  VolumeGrid.destroy g (world_state w) = Some r ->
  forall k, key_ok (cache (snd r)) (delete i (handles w)) k.
Proof.
  intros H Hi. unfold VolumeGrid.destroy.
  destruct (VolumeGrid.entry g) as [k0|] eqn:He.
  - change (VolumeFileCache.remove_user k0 (VolumeGrid.is_loaded g))
      with (run_mutation (MutRemoveUser (VolumeGrid.is_loaded g)) k0).
    rewrite run_mutation_eval.
    destruct (cache (world_state w) !! k0) as [e|] eqn:Hk0; [|discriminate].
    destruct (mutation_defined _ e); [|discriminate].
    intros [= <-]. cbn [snd cache].
    pose proof (H k0) as Hk. unfold key_ok in Hk. rewrite Hk0 in Hk.
    destruct Hk as (Hm & Ht & Hs & Hl).
    apply (keys_evicted _ (handles w)); try exact H.
    + intros k b Hne.
      rewrite (count_users_delete _ _ _ i g Hi), (uses_other k0) by easy. lia.
    + rewrite (count_users_delete _ _ _ i g Hi), (uses_own k0) by assumption.
      destruct (VolumeGrid.is_loaded g); cbn; lia.
    + rewrite (count_users_delete _ _ _ i g Hi), (uses_own k0) by assumption.
      destruct (VolumeGrid.is_loaded g); cbn; lia.
    + intros Hpos. apply Hl.
      destruct (VolumeGrid.is_loaded g); cbn in *; lia.
  - intros [= <-]. cbn [snd]. intros k.
    apply (key_ok_frame (cache (world_state w)) _ (handles w));
      [reflexivity | | apply H].
    intros b. rewrite (count_users_delete _ _ _ i g Hi), uses_no_entry by easy.
    lia.
Qed.

Lemma step_same w i g :
  (forall k, key_ok (cache (world_state w)) (handles w) k) ->
  handles w !! i = Some g ->
  forall k, key_ok (cache (world_state w)) (<[i := g]> (handles w)) k.
Proof.
  intros H Hi k. rewrite list_insert_id by exact Hi. apply H.
Qed.

Lemma step_load env w i g vn fp r :
  (forall k, key_ok (cache (world_state w)) (handles w) k) ->
  handles w !! i = Some g ->
  VolumeGrid.load env g vn fp (world_state w) = Some r ->
  forall k, key_ok (cache (snd r)) (<[i := fst r]> (handles w)) k.
Proof.
  intros H Hi Hload.
  destruct (VolumeGrid.entry g) as [k0|] eqn:He.
  2:{ rewrite load_noop in Hload by auto. injection Hload as <-.
      now apply step_same. }
  destruct (VolumeGrid.is_loaded g) eqn:Hgl.
  { rewrite load_noop in Hload by auto. injection Hload as <-.
    now apply step_same. }
  destruct (cache (world_state w) !! k0) as [e|] eqn:Hk0.
  2:{ now rewrite (load_dangling env g vn fp _ k0) in Hload. }
  rewrite (load_eval env g vn fp _ k0 e He Hgl Hk0) in Hload.
  destruct (mutation_defined _ e); [|discriminate].
  destruct (_ =? 0); [discriminate|].
  pose proof (H k0) as Hk. unfold key_ok in Hk. rewrite Hk0 in Hk.
  destruct Hk as (Hm & Ht & Hs & Hl).
  destruct (promoted_counts e) as [Hpm Hpt].
  pose proof (count_users_nonneg k0 true (handles w)).
  assert (Hother : forall k b, k <> k0 ->
            count_users k b (<[i := VolumeGrid.with_is_loaded g true]> (handles w))
            = count_users k b (handles w)).
  { intros k b Hne. rewrite (count_users_insert _ _ _ i g _ Hi).
    rewrite !(uses_other k0) by easy. lia. }
  assert (Hf : count_users k0 false
                 (<[i := VolumeGrid.with_is_loaded g true]> (handles w))
               = count_users k0 false (handles w) - 1).
  { rewrite (count_users_insert _ _ _ i g _ Hi), !(uses_own k0) by easy.
    cbn. rewrite Hgl. cbn. lia. }
  assert (Htr : count_users k0 true
                  (<[i := VolumeGrid.with_is_loaded g true]> (handles w))
                = count_users k0 true (handles w) + 1).
  { rewrite (count_users_insert _ _ _ i g _ Hi), !(uses_own k0) by easy.
    cbn. rewrite Hgl. cbn. lia. }
  destruct (Entry.is_loaded (promoted e)) eqn:Hp;
    injection Hload as <-; cbn [fst snd cache];
    apply (keys_insert _ (handles w)); try assumption.
  - lia.
  - lia.
  - lia.
  - split; [lia | intros _; exact Hp].
  - destruct (tree_read_counts env fp (name_of g (promoted e)) (promoted e)).
    lia.
  - destruct (tree_read_counts env fp (name_of g (promoted e)) (promoted e)).
    lia.
  - destruct (tree_read_counts env fp (name_of g (promoted e)) (promoted e)).
    lia.
  - destruct (tree_read_counts env fp (name_of g (promoted e)) (promoted e))
      as [_ Htt].
    split; [lia | intros _; apply tree_read_is_loaded].
Qed.

Lemma step_unload w i g vn r :
  (forall k, key_ok (cache (world_state w)) (handles w) k) ->
  handles w !! i = Some g ->
  VolumeGrid.unload g vn (world_state w) = Some r ->
  forall k, key_ok (cache (snd r)) (<[i := fst r]> (handles w)) k.
Proof.
  intros H Hi Hun.
  destruct (VolumeGrid.entry g) as [k0|] eqn:He.
  2:{ rewrite unload_noop in Hun by auto. injection Hun as <-.
      now apply step_same. }
  destruct (VolumeGrid.is_loaded g) eqn:Hgl.
  2:{ rewrite unload_noop in Hun by auto. injection Hun as <-.
      now apply step_same. }
  destruct (cache (world_state w) !! k0) as [e|] eqn:Hk0.
  2:{ now rewrite (unload_dangling g vn _ k0) in Hun. }
  rewrite (unload_eval g vn _ k0 e He Hgl Hk0) in Hun.
  destruct (mutation_defined _ e); [|discriminate].
  injection Hun as <-. cbn [fst snd cache].
  pose proof (H k0) as Hk. unfold key_ok in Hk. rewrite Hk0 in Hk.
  destruct Hk as (Hm & Ht & Hs & Hl).
  apply (keys_evicted _ (handles w)); try exact H.
  - intros k b Hne. rewrite (count_users_insert _ _ _ i g _ Hi).
    rewrite !(uses_other k0) by easy. lia.
  - rewrite (count_users_insert _ _ _ i g _ Hi), !(uses_own k0) by easy.
    cbn. rewrite Hgl. cbn. lia.
  - rewrite (count_users_insert _ _ _ i g _ Hi), !(uses_own k0) by easy.
    cbn. rewrite Hgl. cbn. lia.
  - intros Hpos. apply Hl. cbn in Hpos. lia.
Qed.

Lemma world_step_keys env op w w' :
  (forall k, key_ok (cache (world_state w)) (handles w) k) ->
  world_step env op w = Some w' ->
  forall k, key_ok (cache (world_state w')) (handles w') k.
Proof.
  intros H. destruct op as [fp vg|vdb|i|i|i vn fp|i vn]; cbn [world_step].
  - destruct (VolumeGrid.of_template _ _) as [r|] eqn:Hr; [|discriminate].
    intros [= <-]. cbn. eapply step_of_template; eassumption.
  - intros [= <-]. cbn. intros k.
    apply (key_ok_frame (cache (world_state w)) _ (handles w));
      [reflexivity | | apply H].
    intros b. rewrite count_users_app, uses_no_entry by reflexivity. lia.
  - destruct (handles w !! i) as [g|] eqn:Hi; [|discriminate]. cbn.
    destruct (VolumeGrid.copy g _) as [r|] eqn:Hr; [|discriminate].
    intros [= <-]. cbn. eapply step_copy; eassumption.
  - destruct (handles w !! i) as [g|] eqn:Hi; [|discriminate]. cbn.
    destruct (VolumeGrid.destroy g _) as [r|] eqn:Hr; [|discriminate].
    intros [= <-]. cbn. eapply step_destroy; eassumption.
  - destruct (handles w !! i) as [g|] eqn:Hi; [|discriminate]. cbn.
    destruct (VolumeGrid.load env g vn fp _) as [r|] eqn:Hr; [|discriminate].
    intros [= <-]. cbn. eapply step_load; eassumption.
  - destruct (handles w !! i) as [g|] eqn:Hi; [|discriminate]. cbn.
    destruct (VolumeGrid.unload g vn _) as [r|] eqn:Hr; [|discriminate].
    intros [= <-]. cbn. eapply step_unload; eassumption.
Qed.

Lemma world_run_keys env ops : forall w w',
  (forall k, key_ok (cache (world_state w)) (handles w) k) ->
  world_run env ops w = Some w' ->
  forall k, key_ok (cache (world_state w')) (handles w') k.
Proof.
  induction ops as [|op ops IH]; intros w w' H; cbn [world_run].
  - now intros [= <-].
  - destruct (world_step env op w) as [w1|] eqn:Hstep; [|discriminate]. cbn.
    apply IH. eapply world_step_keys; eassumption.
Qed.

Lemma world_empty_keys k :
  key_ok (cache (world_state world_empty)) (handles world_empty) k.
Proof. unfold key_ok. cbn. rewrite lookup_empty. now split. Qed.

End WorldSteps.

(** X5. Whatever is done to handles, starting with no handle and an empty
    cache (construction from a template or from a grid, copies,
    destruction, load, unload, in any order and on any handles): the
    metadata-user and tree-user counters of every entry are the numbers of
    live handles of that entry that are not loaded and that are loaded, and
    a key has an entry exactly when some live handle points to it. *)
Theorem live_handles_are_counted (env : Env) (ops : list HandleOp) (w : World) :
  world_run env ops world_empty = Some w ->
  counted w
  /\ forall k,
       cache (world_state w) !! k = None
       <-> count_users k false (handles w) = 0
           /\ count_users k true (handles w) = 0.
Proof.
  intros Hrun.
  pose proof (world_run_keys env ops _ _ world_empty_keys Hrun) as Hkeys.
  split; [apply (proj2 (invariant_keys w) Hkeys)|].
  intros k. specialize (Hkeys k). unfold key_ok in Hkeys.
  pose proof (count_users_nonneg k false (handles w)).
  pose proof (count_users_nonneg k true (handles w)).
  destruct (cache (world_state w) !! k) as [e|].
  - split; [discriminate | lia].
  - split; [intros _; exact Hkeys | reflexivity].
Qed.

(** X6. In every such world no handle dangles and the flags agree: the
    entry of a live handle is in the cache, the entry of a loaded handle is
    marked loaded, and an entry is marked loaded exactly when at least one
    live handle of it is loaded. *)
Theorem loaded_handles_have_resident_entry (env : Env) (ops : list HandleOp)
    (w : World) :
  world_run env ops world_empty = Some w ->
  forall i g k,
    handles w !! i = Some g ->
    VolumeGrid.entry g = Some k ->
    exists e,
      cache (world_state w) !! k = Some e
      /\ (VolumeGrid.is_loaded g = true -> Entry.is_loaded e = true)
      /\ (Entry.is_loaded e = true <-> 1 <= count_users k true (handles w)).
Proof.
  intros Hrun i g k Hi He.
  pose proof (world_run_keys env ops _ _ world_empty_keys Hrun k) as Hk.
  assert (Hu : uses k (VolumeGrid.is_loaded g) g = true).
  { rewrite (uses_own k) by exact He. now destruct (VolumeGrid.is_loaded g). }
  destruct (key_ok_present _ _ _ _ _ _ Hk Hi Hu) as [e Hlook].
  exists e. split; [exact Hlook|].
  unfold key_ok in Hk. rewrite Hlook in Hk.
  destruct Hk as (Hm & Ht & Hs & Hl). split.
  - intros Hgl. apply Hl. rewrite Ht.
    apply (count_users_member _ _ _ i g Hi). rewrite Hgl in Hu. exact Hu.
  - now rewrite <- Ht.
Qed.

(** ** A handle through load and unload *)

Section HandleRoundTrip.

Implicit Types (k : Key) (e : Entry.t) (st : State) (g : VolumeGrid.t).

Lemma tree_read_succeeds env fp nm tree e :
  File_open env fp = None -> File_readGrid env fp nm = inr tree ->
  tree_read env fp nm e
  = (Entry.with_is_loaded
       (Entry.with_grid e (Grid_setTree (Entry.grid e) tree)) true,
     [FileOpen fp; FileReadGrid fp nm]).
Proof. unfold tree_read. now intros -> ->. Qed.

Lemma tree_read_error env fp nm e :
  Entry.error_msg (fst (tree_read env fp nm e)) = Entry.error_msg e
  \/ exists what,
       read_fails env fp nm what
       /\ Entry.error_msg (fst (tree_read env fp nm e)) = what.
Proof.
  unfold tree_read, read_fails.
  destruct (File_open env fp) as [what|] eqn:Hopen.
  - right. exists what. split; [now left | reflexivity].
  - destruct (File_readGrid env fp nm) as [what|tree] eqn:Hread.
    + right. exists what. split; [now right | reflexivity].
    + now left.
Qed.

Lemma evicted_error k0 e0 (c : gmap Key Entry.t) k e' :
  evicted k0 e0 c !! k = Some e' ->
  (k <> k0 /\ c !! k = Some e')
  \/ (k = k0 /\ Entry.error_msg e' = Entry.error_msg e0).
Proof.
  intros Hlook. destruct (decide (k0 = k)) as [<-|Hne].
  - right. split; [reflexivity|]. rewrite evicted_lookup in Hlook.
    destruct (_ + _ =? 0); [discriminate|].
    destruct (Entry.num_tree_users e0 =? 0); now injection Hlook as <-.
  - left. rewrite evicted_lookup_ne in Hlook by exact Hne. now split.
Qed.

Lemma run_mutation_error mu k0 st st' k e e' :
  run_mutation mu k0 st = Some (tt, st') ->
  cache st !! k = Some e -> cache st' !! k = Some e' ->
  Entry.error_msg e' = Entry.error_msg e.
Proof.
  rewrite run_mutation_eval. intros H Hk Hk'.
  destruct (cache st !! k0) as [e0|] eqn:Hk0; [|discriminate].
  destruct (mutation_defined mu e0); [|discriminate].
  injection H as <-. cbn [cache] in Hk'.
  destruct (evicted_error _ _ _ _ _ Hk') as [[_ Hsame]|[-> Herr]].
  - congruence.
  - rewrite Herr. assert (e0 = e) by congruence. now subst e0.
Qed.

End HandleRoundTrip.

(** X7. A handle that loads the tree of an entry nobody else has loaded,
    from a file that reads without error, and then unloads it again, leaves
    the cache exactly as it found it: in between the entry holds the tree
    that was read and counts the handle as its one tree user; afterwards
    the tree is dropped, [is_loaded] is false and the counters are back. *)
Theorem load_then_unload_restores (env : Env) (g : VolumeGrid.t)
    (vn fp : string) (st : State) (k : Key) (e : Entry.t) (tree : Tree) :
  VolumeGrid.entry g = Some k ->
  VolumeGrid.is_loaded g = false ->
  cache st !! k = Some e ->
  Entry.is_loaded e = false ->
  grid_tree (Entry.grid e) = [] ->
  Entry.num_tree_users e = 0 ->
  1 <= Entry.num_metadata_users e < Int.INT_MAX ->
  File_open env fp = None ->
  File_readGrid env fp (name_of g e) = inr tree ->
  exists st1 e1 st2,
    VolumeGrid.load env g vn fp st = Some (VolumeGrid.with_is_loaded g true, st1)
    /\ cache st1 !! k = Some e1
    /\ grid_tree (Entry.grid e1) = tree
    /\ Entry.is_loaded e1 = true
    /\ Entry.num_metadata_users e1 = Entry.num_metadata_users e - 1
    /\ Entry.num_tree_users e1 = 1
    /\ VolumeGrid.unload (VolumeGrid.with_is_loaded g true) vn st1
       = Some (g, st2)
    /\ cache st2 = cache st.
Proof.
  intros He Hgl Hk Hel Htree Ht Hm Hopen Hread.
  assert (Hsane : counts_sane e).
  { unfold counts_sane. lia. }
  destruct (counts_sane_defined e Hsane) as (Hdef & Hsum & Hprom).
  rewrite (load_eval env g vn fp st k e He Hgl Hk), Hdef, Hsum, Hprom.
  replace (Entry.is_loaded (with_counts e _ _)) with (Entry.is_loaded e)
    by reflexivity.
  rewrite Hel.
  replace (name_of g (with_counts e _ _)) with (name_of g e) by reflexivity.
  rewrite (tree_read_succeeds env fp (name_of g e) tree _ Hopen Hread).
  cbn [fst snd].
  set (e1 := Entry.with_is_loaded _ true).
  eexists _, e1, _. split; [reflexivity|].
  cbn [cache]. rewrite lookup_insert_eq.
  split; [reflexivity|]. split; [reflexivity|]. split; [reflexivity|].
  split; [reflexivity|]. split; [subst e1; cbn; lia|].
  split.
  - rewrite (unload_eval _ vn _ k e1)
      by (try exact He; try reflexivity; apply lookup_insert_eq).
    assert (Hdef' : mutation_defined MutChangeToMetadataUser e1 = true).
    { subst e1. cbn [mutation_defined Entry.num_metadata_users
                     Entry.num_tree_users Entry.with_is_loaded Entry.with_grid
                     with_counts Entry.with_tree_users
                     Entry.with_metadata_users].
      unfold Int.INT_MAX in *.
      rewrite !andb_true_iff, !in_range_spec.
      unfold Int.INT_MIN, Int.INT_MAX. lia. }
    rewrite Hdef'. f_equal. f_equal. now destruct g as [vdb entry []].
  - cbn [cache]. unfold evicted.
    subst e1. cbn [Entry.num_metadata_users Entry.num_tree_users
                   Entry.with_is_loaded Entry.with_grid with_counts
                   Entry.with_tree_users Entry.with_metadata_users].
    destruct (Z.eqb_spec (Entry.num_metadata_users e - 1 + 1
                          + (Entry.num_tree_users e + 1 - 1)) 0); [lia|].
    destruct (Z.eqb_spec (Entry.num_tree_users e + 1 - 1) 0); [|lia].
    rewrite insert_insert_eq. apply insert_id. rewrite Hk. f_equal.
    destruct e as [[nm tr] l msg m t]. cbn in *. subst.
    unfold cleared, with_counts, Entry.with_is_loaded, Entry.with_grid,
      Entry.with_tree_users, Entry.with_metadata_users, Grid_clear,
      Grid_setTree. cbn. f_equal. lia.
Qed.

(** X8. Nothing ever clears the error message of an entry: across every
    handle method, an entry that is in the cache before and after keeps its
    message, unless the method is a load whose read fails, which stores the
    message of that failure. So after a failed read, an unload and a read
    that succeeds, the handle still reports the old error next to the tree
    that was read. *)
Theorem error_message_is_sticky (env : Env) :
  (forall op st st' k e e',
      run_grid_op env op st = Some (tt, st') ->
      cache st !! k = Some e -> cache st' !! k = Some e' ->
      Entry.error_msg e' = Entry.error_msg e
      \/ exists g vn fp nm what,
           op = Load g vn fp /\ read_fails env fp nm what
           /\ Entry.error_msg e' = what)
  /\ (forall g vn fp st k e tree,
         VolumeGrid.entry g = Some k ->
         VolumeGrid.is_loaded g = false ->
         cache st !! k = Some e ->
         Entry.is_loaded e = false ->
         counts_sane e ->
         string_empty (Entry.error_msg e) = false ->
         File_open env fp = None ->
         File_readGrid env fp (name_of g e) = inr tree ->
         exists g' st' e',
           VolumeGrid.load env g vn fp st = Some (g', st')
           /\ cache st' !! k = Some e'
           /\ grid_tree (Entry.grid e') = tree
           /\ VolumeGrid.error_message g' st'
              = Some (Some (Entry.error_msg e), st')).
Proof.
  split.
  - intros op st st' k e e' H Hk Hk'.
    destruct op as [t|g|g|g vn fp|g vn]; cbn [run_grid_op] in H.
    + left. unfold VolumeGrid.of_template in H. rewrite bind_assoc in H.
      unfold bind at 1 in H. rewrite add_metadata_user_eval in H.
      cbn zeta in H. destruct (Int.in_range _); [|discriminate].
      injection H as <-. cbn [cache] in Hk'. rewrite lookup_insert in Hk'.
      destruct (decide (t.1 = k)) as [Heq|Hne]; [|congruence].
      rewrite Heq, Hk in Hk'. now injection Hk' as <-.
    + left. unfold VolumeGrid.copy in H; cbn [VolumeGrid.entry] in H.
      destruct (VolumeGrid.entry g) as [k0|]; [|injection H as <-; congruence].
      rewrite bind_assoc in H. unfold bind at 1 in H.
      rewrite copy_user_eval in H.
      destruct (cache st !! k0) as [e0|] eqn:Hk0; [|discriminate].
      cbn [VolumeGrid.is_loaded] in H.
      destruct (VolumeGrid.is_loaded g);
        (destruct (Int.in_range _); [|discriminate]);
        injection H as <-; cbn [cache] in Hk'; rewrite lookup_insert in Hk';
        (destruct (decide (k0 = k)) as [Heq|Hne]; [|congruence]);
        subst k0; injection Hk' as <-; cbn; congruence.
    + left. unfold VolumeGrid.destroy in H.
      destruct (VolumeGrid.entry g) as [k0|]; [|injection H as <-; congruence].
      eapply (run_mutation_error (MutRemoveUser _)); eassumption.
    + unfold bind at 1 in H.
      destruct (VolumeGrid.load env g vn fp st) as [[g' st1]|] eqn:Hload;
        [|discriminate].
      injection H as <-.
      destruct (VolumeGrid.entry g) as [k0|] eqn:He.
      2:{ rewrite load_noop in Hload by auto. injection Hload as _ <-.
          left. congruence. }
      destruct (VolumeGrid.is_loaded g) eqn:Hgl.
      { rewrite load_noop in Hload by auto. injection Hload as _ <-.
        left. congruence. }
      destruct (cache st !! k0) as [e0|] eqn:Hk0.
      2:{ now rewrite (load_dangling env g vn fp st k0) in Hload. }
      rewrite (load_eval env g vn fp st k0 e0 He Hgl Hk0) in Hload.
      destruct (mutation_defined _ e0); [|discriminate].
      destruct (_ =? 0); [discriminate|].
      assert (Hperr : Entry.error_msg (promoted e0) = Entry.error_msg e0).
      { unfold promoted. now destruct (_ =? 0). }
      destruct (Entry.is_loaded (promoted e0)) eqn:Hp;
        injection Hload as _ <-; cbn [cache] in Hk';
        rewrite lookup_insert in Hk';
        (destruct (decide (k0 = k)) as [Heq|Hne]; [|left; congruence]);
        subst k0; injection Hk' as <-.
      * left. congruence.
      * destruct (tree_read_error env fp (name_of g (promoted e0)) (promoted e0))
          as [Hsame|(what & Hfail & Hwhat)].
        -- left. congruence.
        -- right. now exists g, vn, fp, (name_of g (promoted e0)), what.
    + left. unfold bind at 1 in H.
      destruct (VolumeGrid.unload g vn st) as [[g' st1]|] eqn:Hun;
        [|discriminate].
      injection H as <-.
      destruct (VolumeGrid.entry g) as [k0|] eqn:He.
      2:{ rewrite unload_noop in Hun by auto. injection Hun as _ <-.
          congruence. }
      destruct (VolumeGrid.is_loaded g) eqn:Hgl.
      2:{ rewrite unload_noop in Hun by auto. injection Hun as _ <-.
          congruence. }
      destruct (cache st !! k0) as [e0|] eqn:Hk0.
      2:{ now rewrite (unload_dangling g vn st k0) in Hun. }
      rewrite (unload_eval g vn st k0 e0 He Hgl Hk0) in Hun.
      assert (Hmut : run_mutation MutChangeToMetadataUser k0 st
                     = Some (tt, {| cache := cache st1;
                                    trace := trace st ++ locked |})).
      { rewrite run_mutation_eval, Hk0.
        destruct (mutation_defined _ e0); [|discriminate].
        injection Hun as _ <-. reflexivity. }
      exact (run_mutation_error _ _ _ _ k e e' Hmut Hk Hk').
  - intros g vn fp st k e tree He Hgl Hk Hel Hsane Herr Hopen Hread.
    destruct (counts_sane_defined e Hsane) as (Hdef & Hsum & Hprom).
    rewrite (load_eval env g vn fp st k e He Hgl Hk), Hdef, Hsum, Hprom.
    replace (Entry.is_loaded (with_counts e _ _)) with (Entry.is_loaded e)
      by reflexivity.
    rewrite Hel.
    replace (name_of g (with_counts e _ _)) with (name_of g e) by reflexivity.
    rewrite (tree_read_succeeds env fp (name_of g e) tree _ Hopen Hread).
    cbn [fst snd]. eexists _, _, _. split; [reflexivity|].
    cbn [cache]. rewrite lookup_insert_eq. split; [reflexivity|].
    split; [reflexivity|].
    unfold VolumeGrid.error_message. cbn [VolumeGrid.entry
      VolumeGrid.with_is_loaded VolumeGrid.is_loaded]. rewrite He.
    erewrite entry_get_eval by (cbn [cache]; apply lookup_insert_eq).
    unfold ret. cbn. now rewrite Herr.
Qed.

(** ** A collection through load and unload *)

Section CollectionRoundTrip.

Implicit Types (k : Key) (e : Entry.t) (st : State) (g : VolumeGrid.t)
  (l : list VolumeGrid.t) (c : gmap Key Entry.t).

Lemma with_metadata_users_id e :
  Entry.with_metadata_users e (Entry.num_metadata_users e) = e.
Proof. now destruct e. Qed.

Lemma pending_nil c : pending c c [].
Proof.
  intros k. cbn [count_users]. destruct (c !! k) as [e|] eqn:Hk; [|reflexivity].
  now rewrite Z.add_0_r, with_metadata_users_id.
Qed.

Lemma pending_nil_eq c0 c : pending c0 c [] -> c = c0.
Proof.
  intros H. apply map_eq. intros k. specialize (H k). cbn [count_users] in H.
  destruct (c0 !! k) as [e|]; [|exact H].
  now rewrite Z.add_0_r, with_metadata_users_id in H.
Qed.

Lemma handles_of_metadata path vdb_grids :
  Forall metadata_handle (handles_of path vdb_grids).
Proof.
  induction vdb_grids as [|[vg|] rest IH]; cbn [handles_of]; try assumption.
  - constructor.
  - constructor; [|exact IH]. split; [reflexivity|]. now eexists.
Qed.

(** One more metadata user. *)
Lemma pending_add c0 c l path vg st r :
  pending c0 (cache st) l ->
  VolumeGrid.of_template (Entry.new path vg) st = Some r ->
  fst r = {| VolumeGrid.vdb := EntryGrid;
             VolumeGrid.entry := Some (path, Grid_getName vg);
             VolumeGrid.is_loaded := false |}
  /\ pending c0 (cache (snd r)) (l ++ [fst r])
  /\ trace (snd r) = trace st ++ locked.
Proof.
  intros H. unfold VolumeGrid.of_template, bind at 1.
  rewrite add_metadata_user_eval. cbn zeta. cbn [Entry.new fst snd].
  destruct (Int.in_range _); [|discriminate]. intros [= <-].
  cbn [fst snd cache trace]. split; [reflexivity|]. split; [|reflexivity].
  generalize (path, Grid_getName vg). intros k0.
  intros k. specialize (H k). rewrite count_users_app.
  destruct (decide (k = k0)) as [->|Hne].
  - rewrite (uses_own k0) by reflexivity. cbn [Bool.eqb VolumeGrid.is_loaded].
    rewrite lookup_insert_eq.
    pose proof (count_users_nonneg k0 false l) as Hn.
    revert H.
    destruct (lookup (K := Key) k0 c0) as [e0|]; cbv beta iota.
    + intros Hc. rewrite Hc. cbn [default]. f_equal.
      unfold id, Entry.with_metadata_users. cbn. f_equal. lia.
    + destruct (Z.eqb_spec (count_users k0 false l) 0) as [Hz|Hnz].
      * intros Hc. rewrite Hc. cbn [default].
        destruct (Z.eqb_spec (count_users k0 false l + 1) 0); [lia|].
        eexists. split; [reflexivity|]. cbn. rewrite Hz. now repeat split.
      * intros (e & Hc & Hm & Ht & Hl). rewrite Hc. cbn [default].
        destruct (Z.eqb_spec (count_users k0 false l + 1) 0); [lia|].
        eexists. split; [reflexivity|]. cbn. rewrite Hm. now repeat split.
  - rewrite (uses_other k0) by easy. rewrite Z.add_0_r.
    rewrite lookup_insert_ne by congruence. exact H.
Qed.

(** One metadata user less. *)
Lemma pending_remove c0 g l st st' :
  users_positive c0 -> unused_trees_dropped c0 ->
  metadata_handle g ->
  pending c0 (cache st) (g :: l) ->
  VolumeGrid.destroy g st = Some (tt, st') ->
  pending c0 (cache st') l.
Proof.
  intros Hpos Hdrop [Hgl [k1 He]] Hp. unfold VolumeGrid.destroy.
  rewrite He, Hgl.
  change (VolumeFileCache.remove_user k1 false)
    with (run_mutation (MutRemoveUser false) k1).
  rewrite run_mutation_eval.
  destruct (cache st !! k1) as [e|] eqn:Hk1; [|discriminate].
  destruct (mutation_defined _ e); [|discriminate].
  intros [= <-]. cbn [cache mutated_counts fst snd].
  intros k. specialize (Hp k). cbn [count_users] in Hp.
  destruct (decide (k = k1)) as [->|Hne].
  - rewrite (uses_own k1), Hgl in Hp by exact He. cbn [Bool.eqb] in Hp.
    rewrite evicted_lookup.
    cbn [with_counts Entry.num_metadata_users Entry.num_tree_users
         Entry.with_tree_users Entry.with_metadata_users].
    pose proof (count_users_nonneg k1 false l) as Hn.
    revert Hp.
    destruct (lookup (K := Key) k1 c0) as [e0|] eqn:Hc0; cbv beta iota.
    + rewrite Hk1. intros [= ->].
      pose proof (Hpos k1 e0 Hc0) as Hsum.
      cbn [Entry.num_metadata_users Entry.num_tree_users
           Entry.with_metadata_users].
      destruct (Z.eqb_spec (Entry.num_metadata_users e0
                            + (1 + count_users k1 false l) - 1
                            + Entry.num_tree_users e0) 0); [lia|].
      destruct (Z.eqb_spec (Entry.num_tree_users e0) 0) as [Hz|Hnz].
      * destruct (Hdrop k1 e0 Hc0 Hz) as [Htree Hl].
        f_equal. destruct e0 as [[nm tr] il msg m t]. cbn in *. subst.
        unfold cleared, with_counts, Entry.with_is_loaded, Entry.with_grid,
          Entry.with_tree_users, Entry.with_metadata_users, Grid_clear.
        cbn. f_equal. lia.
      * f_equal. destruct e0 as [gr il msg m t].
        unfold with_counts, Entry.with_tree_users, Entry.with_metadata_users.
        cbn. f_equal. lia.
    + destruct (Z.eqb_spec (1 + count_users k1 false l) 0); [lia|].
      rewrite Hk1. intros (e' & [= <-] & Hm & Ht & Hl).
      rewrite Hm, Ht.
      replace (1 + count_users k1 false l - 1 + 0)
        with (count_users k1 false l) by lia.
      destruct (Z.eqb_spec (count_users k1 false l) 0); [reflexivity|].
      cbn [Z.eqb]. eexists. split; [reflexivity|]. cbn.
      split; [lia|]. now split.
  - rewrite (uses_other k1) in Hp by easy. rewrite Z.add_0_l in Hp.
    rewrite evicted_lookup_ne by congruence. exact Hp.
Qed.

Lemma clear_grids_pending c0 l : forall st st',
  users_positive c0 -> unused_trees_dropped c0 ->
  Forall metadata_handle l ->
  pending c0 (cache st) l ->
  clear_grids l st = Some (tt, st') ->
  cache st' = c0.
Proof.
  induction l as [|g l IH]; intros st st' Hpos Hdrop Hall Hp;
    cbn [clear_grids].
  - intros [= <-]. now apply pending_nil_eq.
  - unfold bind at 1.
    destruct (VolumeGrid.destroy g st) as [[[] st1]|] eqn:Hd; [|discriminate].
    inversion Hall as [|? ? Hg Hl]; subst.
    apply IH; try assumption.
    eapply pending_remove; eassumption.
Qed.

(** ** The vector moves to new storage *)

Lemma count_users_append k b l1 l2 :
  count_users k b (l1 ++ l2) = count_users k b l1 + count_users k b l2.
Proof.
  induction l1 as [|g l1 IH]; cbn [count_users app]; [lia|]. rewrite IH. lia.
Qed.

Lemma pending_counts c0 c l1 l2 :
  (forall k, count_users k false l1 = count_users k false l2) ->
  pending c0 c l1 -> pending c0 c l2.
Proof. intros Heq Hp k. specialize (Hp k). now rewrite (Heq k) in Hp. Qed.

(** One more metadata user, by the copy of a handle. *)
Lemma pending_copy c0 acc g st g' st' :
  metadata_handle g ->
  pending c0 (cache st) acc ->
  VolumeGrid.copy g st = Some (g', st') ->
  g' = g /\ pending c0 (cache st') (acc ++ [g]).
Proof.
  intros [Hgl [k1 He]] Hp. unfold VolumeGrid.copy.
  cbn [VolumeGrid.entry VolumeGrid.is_loaded]. rewrite He, Hgl.
  unfold bind at 1. rewrite copy_user_eval.
  destruct (cache st !! k1) as [e|] eqn:Hk1; [|discriminate].
  destruct (Int.in_range _); [|discriminate]. unfold ret. intros [= <- <-].
  split. { destruct g as [vdb en il]. cbn in *. now subst. }
  cbn [cache]. intros k. specialize (Hp k). rewrite count_users_app.
  destruct (decide (k = k1)) as [->|Hne].
  - rewrite (uses_own k1) by exact He. rewrite Hgl. cbn [Bool.eqb].
    rewrite lookup_insert_eq.
    pose proof (count_users_nonneg k1 false acc) as Hn.
    revert Hp.
    destruct (lookup (K := Key) k1 c0) as [e0|]; cbv beta iota.
    + rewrite Hk1. intros [= ->]. f_equal.
      unfold Entry.with_metadata_users. cbn. f_equal. lia.
    + destruct (Z.eqb_spec (count_users k1 false acc) 0) as [Hz|Hnz].
      * rewrite Hk1. discriminate.
      * rewrite Hk1. intros (e' & [= <-] & Hm & Ht & Hl).
        destruct (Z.eqb_spec (count_users k1 false acc + 1) 0); [lia|].
        eexists. split; [reflexivity|]. cbn. rewrite Hm. now repeat split.
  - rewrite (uses_other k1) by easy. rewrite Z.add_0_r.
    rewrite lookup_insert_ne by congruence. exact Hp.
Qed.

Lemma copy_grids_pending c0 : forall l acc st l' st',
  Forall metadata_handle l ->
  pending c0 (cache st) acc ->
  copy_grids l st = Some (l', st') ->
  l' = l /\ pending c0 (cache st') (acc ++ l).
Proof.
  induction l as [|g l IH]; intros acc st l' st' Hall Hp; cbn [copy_grids].
  - intros [= <- <-]. now rewrite app_nil_r.
  - unfold bind at 1.
    destruct (VolumeGrid.copy g st) as [[g1 st1]|] eqn:Hc; [|discriminate].
    inversion Hall as [|? ? Hg Hl]; subst.
    destruct (pending_copy c0 acc g st g1 st1 Hg Hp Hc) as [-> Hp1].
    unfold bind at 1.
    destruct (copy_grids l st1) as [[l1 st2]|] eqn:Hr; [|discriminate].
    unfold ret. intros [= <- <-].
    destruct (IH _ _ _ _ Hl Hp1 Hr) as [-> Hp2]. split; [reflexivity|].
    now rewrite <- app_assoc in Hp2.
Qed.

Lemma clear_grids_pending_app c0 l : forall rest st st',
  users_positive c0 -> unused_trees_dropped c0 ->
  Forall metadata_handle l ->
  pending c0 (cache st) (l ++ rest) ->
  clear_grids l st = Some (tt, st') ->
  pending c0 (cache st') rest.
Proof.
  induction l as [|g l IH]; intros rest st st' Hpos Hdrop Hall Hp;
    cbn [clear_grids].
  - now intros [= <-].
  - unfold bind at 1.
    destruct (VolumeGrid.destroy g st) as [[[] st1]|] eqn:Hd; [|discriminate].
    inversion Hall as [|? ? Hg Hl]; subst.
    apply IH; try assumption.
    eapply pending_remove; eassumption.
Qed.

(** [emplace_back] leaves one more metadata user, also when the vector
    moves: the copies and the destructions cancel. *)
Lemma emplace_back_pending env c0 path vg grids st l st' :
  users_positive c0 -> unused_trees_dropped c0 ->
  Forall metadata_handle grids ->
  pending c0 (cache st) grids ->
  emplace_back env grids (Entry.new path vg) st = Some (l, st') ->
  l = grids ++ handles_of path [Some vg]
  /\ pending c0 (cache st') l.
Proof.
  intros Hpos Hdrop Hall Hp. unfold emplace_back. cbn [handles_of].
  destruct (Vector_reallocates env (length grids)).
  - unfold bind at 1.
    destruct (VolumeGrid.of_template _ st) as [[g st1]|] eqn:Hg; [|discriminate].
    destruct (pending_add c0 c0 grids path vg st _ Hp Hg) as (Hfst & Hp1 & _).
    cbn [fst snd] in Hfst, Hp1. subst g.
    unfold bind at 1.
    destruct (copy_grids grids st1) as [[copies st2]|] eqn:Hc; [|discriminate].
    destruct (copy_grids_pending c0 _ _ _ _ _ Hall Hp1 Hc) as [-> Hp2].
    unfold bind at 1.
    destruct (clear_grids grids st2) as [[[] st3]|] eqn:Hd; [|discriminate].
    unfold ret. intros [= <- <-]. split; [reflexivity|].
    eapply clear_grids_pending_app; [exact Hpos|exact Hdrop|exact Hall| |exact Hd].
    eapply pending_counts; [|exact Hp2].
    intros k. rewrite !count_users_append. lia.
  - unfold bind at 1.
    destruct (VolumeGrid.of_template _ st) as [[g st1]|] eqn:Hg; [|discriminate].
    destruct (pending_add c0 c0 grids path vg st _ Hp Hg) as (Hfst & Hp1 & _).
    cbn [fst snd] in Hfst, Hp1. subst g.
    unfold ret. intros [= <- <-]. now split.
Qed.

Lemma add_grids_pending env c0 path : forall vdb_grids grids st l st',
  users_positive c0 -> unused_trees_dropped c0 ->
  Forall metadata_handle grids ->
  pending c0 (cache st) grids ->
  add_grids env path vdb_grids grids st = Some (l, st') ->
  l = grids ++ handles_of path vdb_grids
  /\ pending c0 (cache st') l.
Proof.
  induction vdb_grids as [|[vg|] rest IH];
    intros grids st l st' Hpos Hdrop Hall Hp; cbn [add_grids].
  - intros [= <- <-]. cbn [handles_of]. now rewrite app_nil_r.
  - unfold bind at 1.
    destruct (emplace_back env grids _ st) as [[l1 st1]|] eqn:He;
      [|discriminate].
    destruct (emplace_back_pending _ _ _ _ _ _ _ _ Hpos Hdrop Hall Hp He)
      as [-> Hp1].
    intros Hrest.
    destruct (IH _ _ _ _ Hpos Hdrop
                ltac:(apply Forall_app; split;
                      [exact Hall|apply handles_of_metadata]) Hp1 Hrest)
      as [-> Hp2].
    split; [|exact Hp2]. cbn [handles_of]. now rewrite <- app_assoc.
  - cbn [handles_of]. now apply IH.
Qed.

End CollectionRoundTrip.

Section CollectionEnumeration.

Implicit Types (k : Key) (e : Entry.t) (st : State) (g : VolumeGrid.t)
  (l : list VolumeGrid.t) (c : gmap Key Entry.t) (v : Volume).

Lemma count_users_length k b l : count_users k b l <= Z.of_nat (length l).
Proof.
  induction l as [|g l IH]; cbn [count_users length]; [lia|].
  destruct (uses k b g); lia.
Qed.

Lemma count_users_elem k b g l :
  g ∈ l -> uses k b g = true -> 1 <= count_users k b l.
Proof.
  intros Hin Hu. induction Hin as [g l|g g' l Hin IH]; cbn [count_users].
  - rewrite Hu. pose proof (count_users_nonneg k b l). lia.
  - specialize (IH Hu). destruct (uses k b g'); lia.
Qed.

Lemma of_template_defined c0 acc path vg st (N : nat) :
  pending c0 (cache st) acc ->
  room c0 N -> (length acc < N)%nat ->
  exists r, VolumeGrid.of_template (Entry.new path vg) st = Some r.
Proof.
  intros Hp [HN Hroom] Hlt. unfold VolumeGrid.of_template, bind at 1.
  rewrite add_metadata_user_eval. cbn zeta. cbn [Entry.new fst snd].
  generalize ((path, Grid_getName vg) : Key). intros k0.
  specialize (Hp k0).
  pose proof (count_users_nonneg k0 false acc) as Hn.
  pose proof (count_users_length k0 false acc) as Hlen.
  assert (Hrange : Int.in_range
            (Entry.num_metadata_users
               (default (Entry.copy
                           {| Entry.grid := vg; Entry.is_loaded := false;
                              Entry.error_msg := "";
                              Entry.num_metadata_users := 0;
                              Entry.num_tree_users := 0 |})
                  (cache st !! k0)) + 1) = true).
  { apply in_range_spec. unfold Int.INT_MIN, Int.INT_MAX in *.
    revert Hp.
    destruct (lookup (K := Key) k0 c0) as [e0|] eqn:Hc0; cbv beta iota.
    - intros Hc. rewrite Hc. cbn. destruct (Hroom k0 e0 Hc0) as (? & ? & ?).
      lia.
    - destruct (Z.eqb_spec (count_users k0 false acc) 0).
      + intros Hc. rewrite Hc. cbn. lia.
      + intros (e & Hc & Hm & _). rewrite Hc. cbn. lia. }
  rewrite Hrange. now eexists.
Qed.

Lemma copy_defined c0 acc g st (N : nat) :
  metadata_handle g -> g ∈ acc ->
  pending c0 (cache st) acc ->
  room c0 N -> (length acc < N)%nat ->
  exists r, VolumeGrid.copy g st = Some r.
Proof.
  intros [Hgl [k1 He]] Hin Hp [HN Hroom] Hlt. unfold VolumeGrid.copy.
  cbn [VolumeGrid.entry VolumeGrid.is_loaded]. rewrite He, Hgl.
  unfold bind at 1. rewrite copy_user_eval.
  specialize (Hp k1).
  pose proof (count_users_length k1 false acc) as Hlen.
  assert (Hone : 1 <= count_users k1 false acc).
  { apply (count_users_elem k1 false g); [exact Hin|].
    rewrite (uses_own k1) by exact He. now rewrite Hgl. }
  revert Hp.
  destruct (lookup (K := Key) k1 c0) as [e0|] eqn:Hc0; cbv beta iota.
  - intros Hc. rewrite Hc. cbn [Entry.num_metadata_users
      Entry.with_metadata_users].
    destruct (Hroom k1 e0 Hc0) as (? & ? & ?).
    replace (Int.in_range _) with true; [now eexists|].
    symmetry. apply in_range_spec. unfold Int.INT_MIN, Int.INT_MAX in *. lia.
  - destruct (Z.eqb_spec (count_users k1 false acc) 0); [lia|].
    intros (e & Hc & Hm & _). rewrite Hc.
    replace (Int.in_range _) with true; [now eexists|].
    symmetry. apply in_range_spec. unfold Int.INT_MIN, Int.INT_MAX in *. lia.
Qed.

Lemma copy_grids_defined c0 (N : nat) : forall l acc st,
  Forall metadata_handle l -> Forall (fun g => g ∈ acc) l ->
  pending c0 (cache st) acc ->
  room c0 N -> (length acc + length l <= N)%nat ->
  exists r, copy_grids l st = Some r.
Proof.
  induction l as [|g l IH]; intros acc st Hall Hin Hp Hroom Hlen;
    cbn [copy_grids].
  - now eexists.
  - inversion Hall as [|? ? Hg Hl]; subst.
    inversion Hin as [|? ? Hgin Hlin]; subst.
    cbn [length] in Hlen.
    destruct (copy_defined c0 acc g st N Hg Hgin Hp Hroom ltac:(lia))
      as [[g1 st1] Hc].
    unfold bind at 1. rewrite Hc.
    destruct (pending_copy c0 acc g st g1 st1 Hg Hp Hc) as [-> Hp1].
    destruct (IH (acc ++ [g]) st1 Hl) as [[l1 st2] Hr].
    + eapply Forall_impl; [exact Hlin|]. intros x Hx.
      apply elem_of_app. now left.
    + exact Hp1.
    + exact Hroom.
    + rewrite length_app. cbn [length]. lia.
    + unfold bind at 1. rewrite Hr. now eexists.
Qed.

Lemma destroy_defined c0 g l st (N : nat) :
  metadata_handle g ->
  pending c0 (cache st) (g :: l) ->
  room c0 N -> (length (g :: l) <= N)%nat ->
  exists st', VolumeGrid.destroy g st = Some (tt, st').
Proof.
  intros [Hgl [k1 He]] Hp [HN Hroom] Hlen. unfold VolumeGrid.destroy.
  rewrite He, Hgl.
  change (VolumeFileCache.remove_user k1 false)
    with (run_mutation (MutRemoveUser false) k1).
  rewrite run_mutation_eval.
  specialize (Hp k1). cbn [count_users length] in Hp, Hlen.
  rewrite (uses_own k1), Hgl in Hp by exact He. cbn [Bool.eqb] in Hp.
  pose proof (count_users_nonneg k1 false l) as Hn.
  pose proof (count_users_length k1 false l) as Hcl.
  revert Hp.
  destruct (lookup (K := Key) k1 c0) as [e0|] eqn:Hc0; cbv beta iota.
  - intros Hc. rewrite Hc. destruct (Hroom k1 e0 Hc0) as (? & ? & ?).
    replace (mutation_defined _ _) with true; [now eexists|].
    symmetry. unfold mutation_defined.
    cbn [Entry.num_metadata_users Entry.num_tree_users
         Entry.with_metadata_users].
    apply andb_true_intro.
    split; apply in_range_spec; unfold Int.INT_MIN, Int.INT_MAX in *; lia.
  - destruct (Z.eqb_spec (1 + count_users k1 false l) 0); [lia|].
    intros (e & Hc & Hm & Ht & _). rewrite Hc.
    replace (mutation_defined _ _) with true; [now eexists|].
    symmetry. unfold mutation_defined. rewrite Hm, Ht.
    apply andb_true_intro.
    split; apply in_range_spec; unfold Int.INT_MIN, Int.INT_MAX in *; lia.
Qed.

Lemma clear_grids_defined c0 (N : nat) l : forall rest st,
  users_positive c0 -> unused_trees_dropped c0 ->
  Forall metadata_handle l ->
  pending c0 (cache st) (l ++ rest) ->
  room c0 N -> (length (l ++ rest) <= N)%nat ->
  exists st', clear_grids l st = Some (tt, st').
Proof.
  induction l as [|g l IH]; intros rest st Hpos Hdrop Hall Hp Hroom Hlen;
    cbn [clear_grids].
  - now eexists.
  - inversion Hall as [|? ? Hg Hl]; subst.
    destruct (destroy_defined c0 g (l ++ rest) st N Hg Hp Hroom Hlen)
      as [st1 Hd].
    unfold bind at 1. rewrite Hd.
    apply (IH rest st1 Hpos Hdrop Hl).
    + eapply pending_remove; eassumption.
    + exact Hroom.
    + cbn [length app] in Hlen. lia.
Qed.

Lemma emplace_back_defined env c0 path vg grids st (N : nat) :
  users_positive c0 -> unused_trees_dropped c0 ->
  Forall metadata_handle grids ->
  pending c0 (cache st) grids ->
  room c0 N -> (2 * length grids + 1 <= N)%nat ->
  exists r, emplace_back env grids (Entry.new path vg) st = Some r.
Proof.
  intros Hpos Hdrop Hall Hp Hroom Hlen. unfold emplace_back.
  destruct (of_template_defined c0 grids path vg st N Hp Hroom ltac:(lia))
    as [[g st1] Hg].
  destruct (pending_add c0 c0 grids path vg st _ Hp Hg) as (_ & Hp1 & _).
  cbn [fst snd] in Hp1.
  destruct (Vector_reallocates env (length grids)).
  - unfold bind at 1. rewrite Hg.
    destruct (copy_grids_defined c0 N grids (grids ++ [g]) st1 Hall)
      as [[copies st2] Hc].
    + apply Forall_forall. intros x Hx. apply elem_of_app. now left.
    + exact Hp1.
    + exact Hroom.
    + rewrite length_app. cbn [length]. lia.
    + unfold bind at 1. rewrite Hc.
      destruct (copy_grids_pending c0 _ _ _ _ _ Hall Hp1 Hc) as [-> Hp2].
      destruct (clear_grids_defined c0 N grids (grids ++ [g]) st2 Hpos Hdrop
                  Hall) as [st3 Hd].
      * eapply pending_counts; [|exact Hp2].
        intros k. rewrite !count_users_append. lia.
      * exact Hroom.
      * rewrite !length_app. cbn [length]. lia.
      * unfold bind at 1. rewrite Hd. now eexists.
  - unfold bind at 1. rewrite Hg. now eexists.
Qed.

Lemma add_grids_defined env c0 path (N : nat) : forall vdb_grids grids st,
  users_positive c0 -> unused_trees_dropped c0 ->
  Forall metadata_handle grids ->
  pending c0 (cache st) grids ->
  room c0 N -> (2 * (length grids + length vdb_grids) <= N)%nat ->
  exists r, add_grids env path vdb_grids grids st = Some r.
Proof.
  induction vdb_grids as [|[vg|] rest IH];
    intros grids st Hpos Hdrop Hall Hp Hroom Hlen; cbn [add_grids].
  - now eexists.
  - cbn [length] in Hlen.
    destruct (emplace_back_defined env c0 path vg grids st N Hpos Hdrop Hall
                Hp Hroom ltac:(lia)) as [[l1 st1] He].
    unfold bind at 1. rewrite He.
    destruct (emplace_back_pending _ _ _ _ _ _ _ _ Hpos Hdrop Hall Hp He)
      as [-> Hp1].
    apply (IH _ _ Hpos Hdrop); [|exact Hp1|exact Hroom|].
    + apply Forall_app. split; [exact Hall|apply handles_of_metadata].
    + rewrite length_app. cbn [handles_of length]. lia.
  - cbn [length] in Hlen. apply (IH _ _ Hpos Hdrop Hall Hp Hroom). lia.
Qed.

End CollectionEnumeration.

(** X9. A collection load that starts without handles, finds the file and
    enumerates its grids returns with one handle per grid that is not null,
    in the order of the file; every handle is a metadata user, the entry of
    each key gains as many metadata users as the file has grids of that
    name (so two grids of one name share one entry, counted twice), entries
    that were missing are created unloaded, and no other entry changes,
    whenever the vector moves to new storage on the way. The cache is one
    in which every entry has a user and the entries without tree users hold
    no tree, and its counters have room for twice the number of grids: a
    vector that moves counts its handles twice for a moment. The returned
    value is whether the error message was empty before. *)
Theorem load_enumerates_grids (env : Env) (v : Volume) (bmain : Main)
    (st : State) (vdb_grids : list (option Grid)) :
  runtime_frame v <> VOLUME_FRAME_NONE ->
  BKE_volume_is_loaded v = false ->
  VolumeGridVector.grids (runtime_grids v) = [] ->
  BLI_exists env (volume_filepath_get env bmain v) = true ->
  File_open env (volume_filepath_get env bmain v) = None ->
  File_readAllGridMetadata env (volume_filepath_get env bmain v)
  = inr vdb_grids ->
  users_positive (cache st) ->
  unused_trees_dropped (cache st) ->
  room (cache st) (2 * length vdb_grids) ->
  exists v' st',
    BKE_volume_load env v bmain st
    = Some ((string_empty (VolumeGridVector.error_msg (runtime_grids v)), v'),
            st')
    /\ VolumeGridVector.grids (runtime_grids v')
       = handles_of (volume_filepath_get env bmain v) vdb_grids
    /\ VolumeGridVector.filepath (runtime_grids v')
       = volume_filepath_get env bmain v
    /\ Forall metadata_handle
         (handles_of (volume_filepath_get env bmain v) vdb_grids)
    /\ pending (cache st) (cache st')
         (handles_of (volume_filepath_get env bmain v) vdb_grids).
Proof.
  intros Hf Hl Hnil Hex Hopen Hread Hpos Hdrop Hroom.
  set (path := volume_filepath_get env bmain v) in *.
  unfold BKE_volume_load.
  destruct (Z.eqb_spec (runtime_frame v) VOLUME_FRAME_NONE); [contradiction|].
  rewrite Hl. cbv iota. rewrite emit_eval. cbv iota. rewrite emit_eval.
  cbn [VolumeGridVector.filepath VolumeGridVector.with_filepath].
  fold path. rewrite Hex; cbn [negb]; cbv iota. rewrite emit_eval.
  unfold read_metadata at 1. rewrite bind_assoc, emit_eval, Hopen.
  rewrite bind_assoc, emit_eval, Hread. unfold bind at 1, ret at 1.
  cbn [fst snd VolumeGridVector.grids VolumeGridVector.with_error_msg
       VolumeGridVector.error_msg].
  change (VolumeGridVector.grids
            (VolumeGridVector.with_filepath (runtime_grids v) path))
    with (VolumeGridVector.grids (runtime_grids v)).
  rewrite Hnil.
  match goal with
  | |- context [bind (add_grids env path vdb_grids [] ) _ ?s] =>
      destruct (add_grids_defined env (cache st) path
                  (2 * length vdb_grids) vdb_grids [] s Hpos Hdrop)
        as [[l st1] Hadd];
        [constructor | apply pending_nil | exact Hroom | cbn [length]; lia |];
      destruct (add_grids_pending env (cache st) path vdb_grids [] s l st1
                  Hpos Hdrop)
        as [-> Hp]; [constructor | apply pending_nil | exact Hadd |];
      unfold bind at 1; rewrite Hadd
  end.
  rewrite emit_eval. unfold ret. do 2 eexists. split; [reflexivity|].
  cbn. repeat split; try apply handles_of_metadata. exact Hp.
Qed.

(** Why a collection load is stated over a cache without unused trees: the
    vector of the sample moves when the second grid is added, the copy of
    the first handle is made and the old handle destroyed, and the eviction
    check that the destructor runs drops the tree of an entry without tree
    users. *)
Example moving_vector_drops_unused_tree :
  option_map (fun r => cache (snd r) !! Sample.key)
    (BKE_volume_load Sample.env (Sample.volume "smoke.vdb") Sample.bmain
       {| cache :=
            {[ Sample.key :=
                 {| Entry.grid := mkGrid "density" [4; 8; 15];
                    Entry.is_loaded := true; Entry.error_msg := "";
                    Entry.num_metadata_users := 1;
                    Entry.num_tree_users := 0 |} ]};
          trace := [] |})
  = Some (Some {| Entry.grid := mkGrid "density" [];
                  Entry.is_loaded := false; Entry.error_msg := "";
                  Entry.num_metadata_users := 2;
                  Entry.num_tree_users := 0 |}).
Proof. vm_compute. reflexivity. Qed.

Section CollectionRoundTripTop.

Implicit Types (st : State) (v : Volume).

Lemma read_metadata_cache env path msg st r st' :
  read_metadata env path msg st = Some (r, st') -> cache st' = cache st.
Proof.
  unfold read_metadata. rewrite emit_eval.
  destruct (File_open env path).
  - now intros [= _ <-].
  - rewrite emit_eval.
    destruct (File_readAllGridMetadata env path); now intros [= _ <-].
Qed.

Lemma load_pending env v bmain st r v1 st1 :
  users_positive (cache st) -> unused_trees_dropped (cache st) ->
  VolumeGridVector.grids (runtime_grids v) = [] ->
  BKE_volume_load env v bmain st = Some ((r, v1), st1) ->
  (v1 = v /\ st1 = st)
  \/ (VolumeGridVector.filepath (runtime_grids v1)
      = volume_filepath_get env bmain v
      /\ pending (cache st) (cache st1)
           (VolumeGridVector.grids (runtime_grids v1))
      /\ Forall metadata_handle (VolumeGridVector.grids (runtime_grids v1))).
Proof.
  intros Hpos Hdrop Hnil. unfold BKE_volume_load.
  destruct (runtime_frame v =? VOLUME_FRAME_NONE).
  { intros [= <- <- <-]. now left. }
  destruct (BKE_volume_is_loaded v).
  { intros [= <- <- <-]. now left. }
  rewrite emit_eval. cbv iota. rewrite emit_eval.
  cbn [VolumeGridVector.filepath VolumeGridVector.with_filepath].
  assert (Hnf : forall s,
    cache s = cache st ->
    not_found env v
      {| VolumeGridVector.grids := VolumeGridVector.grids (runtime_grids v);
         VolumeGridVector.filepath := volume_filepath_get env bmain v;
         VolumeGridVector.error_msg := VolumeGridVector.error_msg (runtime_grids v) |}
      s = Some (r, v1, st1) ->
    (v1 = v /\ st1 = st)
    \/ (VolumeGridVector.filepath (runtime_grids v1)
        = volume_filepath_get env bmain v
        /\ pending (cache st) (cache st1)
             (VolumeGridVector.grids (runtime_grids v1))
        /\ Forall metadata_handle (VolumeGridVector.grids (runtime_grids v1)))).
  { intros s Hs. unfold not_found. rewrite emit_eval. intros [= <- <- <-].
    right. cbn. rewrite Hnil, Hs. repeat split; [apply pending_nil|constructor]. }
  destruct (BLI_exists env (volume_filepath_get env bmain v)); cbn [negb];
    cbv iota; [|now apply Hnf].
  rewrite emit_eval.
  unfold bind at 1.
  destruct (read_metadata env _ _ _) as [[meta st_a]|] eqn:Hmeta; [|discriminate].
  apply read_metadata_cache in Hmeta. cbn [cache] in Hmeta.
  unfold bind at 1.
  destruct (add_grids _ _ _ _ st_a) as [[l st_b]|] eqn:Hadd; [|discriminate].
  cbn [VolumeGridVector.grids VolumeGridVector.with_error_msg
       VolumeGridVector.with_filepath VolumeGridVector.filepath] in Hadd.
  rewrite Hnil in Hadd.
  destruct (add_grids_pending env (cache st) _ _ _ _ _ _ Hpos Hdrop
              ltac:(constructor)
              ltac:(rewrite Hmeta; apply pending_nil) Hadd) as [-> Hp].
  rewrite emit_eval. intros [= <- <- <-]. right. cbn.
  repeat split; [exact Hp | apply handles_of_metadata].
Qed.

End CollectionRoundTripTop.

(** X10. Loading a collection and unloading it again leaves the global
    cache exactly as it was before the load: every entry the load created is
    erased and every entry it shared has its counters and its grid back.
    This holds for a collection that starts without handles and resolves a
    non-empty path, over a cache in which every entry has a user and the
    entries without tree users hold no tree. *)
Theorem load_then_unload_restores_cache (env : Env) (v : Volume) (bmain : Main)
    (st : State) (r : bool) (v1 : Volume) (st1 : State) (v2 : Volume)
    (st2 : State) :
  VolumeGridVector.grids (runtime_grids v) = [] ->
  string_empty (volume_filepath_get env bmain v) = false ->
  users_positive (cache st) ->
  unused_trees_dropped (cache st) ->
  BKE_volume_load env v bmain st = Some ((r, v1), st1) ->
  BKE_volume_unload v1 st1 = Some (v2, st2) ->
  cache st2 = cache st
  /\ VolumeGridVector.grids (runtime_grids v2) = [].
Proof.
  intros Hnil Hpath Hpos Hdrop Hload Hunload.
  destruct (load_pending env v bmain st r v1 st1 Hpos Hdrop Hnil Hload)
    as [[-> ->]|(Hfp & Hp & Hall)].
  - unfold BKE_volume_unload in Hunload. rewrite Hnil in Hunload.
    destruct (negb _); cbn in Hunload; injection Hunload as <- <-;
      split; try reflexivity. exact Hnil.
  - unfold BKE_volume_unload in Hunload. rewrite Hfp, Hpath in Hunload.
    cbn [negb] in Hunload. unfold bind at 1 in Hunload.
    destruct (clear_grids _ st1) as [[[] st_c]|] eqn:Hclear; [|discriminate].
    injection Hunload as <- <-. split; [|reflexivity].
    eapply clear_grids_pending; eassumption.
Qed.

(** X11. When the file exists but opening it or enumerating its grids
    throws an I/O error, the collection load stores the message as the
    error of the collection, records the path, adds no handle and leaves
    the global cache untouched; it returns whether that message is empty,
    and a repeated call, for a non-empty path, returns the same without any
    event. *)
Theorem load_enumeration_error (env : Env) (v : Volume) (bmain : Main)
    (st : State) (what : string) :
  runtime_frame v <> VOLUME_FRAME_NONE ->
  BKE_volume_is_loaded v = false ->
  BLI_exists env (volume_filepath_get env bmain v) = true ->
  File_open env (volume_filepath_get env bmain v) = Some what
  \/ (File_open env (volume_filepath_get env bmain v) = None
      /\ File_readAllGridMetadata env (volume_filepath_get env bmain v)
         = inl what) ->
  exists v' st',
    BKE_volume_load env v bmain st = Some ((string_empty what, v'), st')
    /\ VolumeGridVector.error_msg (runtime_grids v') = what
    /\ VolumeGridVector.filepath (runtime_grids v')
       = volume_filepath_get env bmain v
    /\ VolumeGridVector.grids (runtime_grids v')
       = VolumeGridVector.grids (runtime_grids v)
    /\ cache st' = cache st
    /\ (string_empty (volume_filepath_get env bmain v) = false ->
        BKE_volume_load env v' bmain st' = Some ((string_empty what, v'), st')).
Proof.
  intros Hf Hl Hex Hfail.
  set (path := volume_filepath_get env bmain v) in *.
  assert (Hagain : forall v' st',
    runtime_frame v' = runtime_frame v ->
    VolumeGridVector.filepath (runtime_grids v') = path ->
    VolumeGridVector.error_msg (runtime_grids v') = what ->
    string_empty path = false ->
    BKE_volume_load env v' bmain st' = Some ((string_empty what, v'), st')).
  { intros v' st' Hfr Hfp Hmsg Hpath. rewrite load_already_loaded.
    - now rewrite Hmsg.
    - congruence.
    - unfold BKE_volume_is_loaded, VolumeGridVector.is_loaded.
      rewrite Hfp, Hpath. apply orb_true_r. }
  unfold BKE_volume_load at 1.
  destruct (Z.eqb_spec (runtime_frame v) VOLUME_FRAME_NONE); [contradiction|].
  rewrite Hl. cbv iota. rewrite emit_eval. cbv iota. rewrite emit_eval.
  cbn [VolumeGridVector.filepath VolumeGridVector.with_filepath].
  fold path. rewrite Hex; cbn [negb]; cbv iota. rewrite emit_eval.
  unfold read_metadata at 1. rewrite bind_assoc, emit_eval.
  destruct Hfail as [Hopen|[Hopen Hread]]; rewrite Hopen.
  - unfold bind at 1, ret at 1. cbn [fst snd add_grids]. unfold bind at 1, ret at 1.
    rewrite emit_eval. unfold ret. do 2 eexists. split; [reflexivity|].
    cbn -[BKE_volume_load]. repeat split. intros Hpath. now apply Hagain.
  - rewrite bind_assoc, emit_eval, Hread.
    unfold bind at 1, ret at 1. cbn [fst snd add_grids]. unfold bind at 1, ret at 1.
    rewrite emit_eval. unfold ret. do 2 eexists. split; [reflexivity|].
    cbn -[BKE_volume_load]. repeat split. intros Hpath. now apply Hagain.
Qed.

(** ** Copies, unload and evaluation of the datablock *)

(** X12. The copy of a datablock gets a grid vector with the file path and
    the error message of the source but without any of its grids. A copy of
    a loaded volume therefore counts as loaded while it has no grid: its
    number of grids is 0, its active grid is null, and a collection load on
    it returns at once, with the state untouched. *)
Theorem copy_data_drops_grids (env : Env) (volume_dst volume_src : Volume)
    (bmain : Main) (st : State) :
  VolumeGridVector.is_loaded (runtime_grids volume_src) = true ->
  runtime_frame volume_dst <> VOLUME_FRAME_NONE ->
  VolumeGridVector.grids
    (runtime_grids (BKE_volume_copy_data volume_dst volume_src)) = []
  /\ BKE_volume_is_loaded (BKE_volume_copy_data volume_dst volume_src) = true
  /\ BKE_volume_num_grids (BKE_volume_copy_data volume_dst volume_src) = 0
  /\ BKE_volume_grid_active_get (BKE_volume_copy_data volume_dst volume_src)
     = Some GridNull
  /\ BKE_volume_load env (BKE_volume_copy_data volume_dst volume_src) bmain st
     = Some ((string_empty
                (VolumeGridVector.error_msg (runtime_grids volume_src)),
              BKE_volume_copy_data volume_dst volume_src), st).
Proof.
  intros Hl Hf.
  assert (Hloaded :
    BKE_volume_is_loaded (BKE_volume_copy_data volume_dst volume_src) = true).
  { unfold BKE_volume_is_loaded, BKE_volume_copy_data, VolumeGridVector.is_loaded
      in *. cbn. rewrite Hl. apply orb_true_r. }
  repeat split; try reflexivity; try exact Hloaded.
  now rewrite load_already_loaded.
Qed.

Lemma unload_result_shape v st v' st' :
  BKE_volume_unload v st = Some (v', st') ->
  (v' = v /\ st' = st
   /\ string_empty (VolumeGridVector.filepath (runtime_grids v)) = true)
  \/ (v' = Volume_with_grids v VolumeGridVector.empty
      /\ string_empty (VolumeGridVector.filepath (runtime_grids v)) = false).
Proof.
  unfold BKE_volume_unload.
  destruct (string_empty (VolumeGridVector.filepath (runtime_grids v)));
    cbn [negb].
  - intros [= <- <-]. now left.
  - unfold bind at 1.
    destruct (clear_grids _ st) as [[[] st1]|]; [|discriminate].
    intros [= <- <-]. now right.
Qed.

(** X13. After a collection unload the vector has no grids, no path and no
    error message (when it had a path; without a path nothing changes at
    all), and a second unload changes nothing. A volume with a file path is
    not loaded after the unload, so the next load tests the path again: for
    a path that does not exist it returns false after one more existence
    test. *)
Theorem unload_resets_collection (env : Env) (v : Volume) (bmain : Main)
    (st : State) (v' : Volume) (st' : State) :
  BKE_volume_unload v st = Some (v', st') ->
  (string_empty (VolumeGridVector.filepath (runtime_grids v)) = false ->
   runtime_grids v' = VolumeGridVector.empty)
  /\ (string_empty (VolumeGridVector.filepath (runtime_grids v)) = true ->
      v' = v /\ st' = st)
  /\ BKE_volume_unload v' st' = Some (v', st')
  /\ (string_empty (filepath v) = false ->
      runtime_frame v <> VOLUME_FRAME_NONE ->
      BLI_exists env (volume_filepath_get env bmain v') = false ->
      BKE_volume_is_loaded v' = false
      /\ exists v'' st'',
           BKE_volume_load env v' bmain st' = Some ((false, v''), st'')
           /\ io_events (trace st'')
              = io_events (trace st')
                ++ [FileExists (volume_filepath_get env bmain v')]).
Proof.
  intros Hun.
  destruct (unload_result_shape v st v' st' Hun)
    as [(-> & -> & Hempty)|[-> Hnonempty]].
  - split; [congruence|]. split; [auto|]. split; [exact Hun|].
    intros Hfile Hframe Hex.
    assert (Hl : BKE_volume_is_loaded v = false).
    { unfold BKE_volume_is_loaded, VolumeGridVector.is_loaded.
      now rewrite Hfile, Hempty. }
    split; [exact Hl|].
    rewrite (load_not_found env v bmain st Hframe Hl Hex).
    do 2 eexists. split; [reflexivity|]. cbn [trace].
    now rewrite io_events_app.
  - split; [reflexivity|]. split; [congruence|]. split; [reflexivity|].
    intros Hfile Hframe Hex.
    assert (Hl : BKE_volume_is_loaded
                   (Volume_with_grids v VolumeGridVector.empty) = false).
    { unfold BKE_volume_is_loaded, VolumeGridVector.is_loaded. cbn.
      now rewrite Hfile. }
    split; [exact Hl|].
    rewrite (load_not_found env (Volume_with_grids v VolumeGridVector.empty)
               bmain st' Hframe Hl Hex).
    do 2 eexists. split; [reflexivity|]. cbn [trace].
    now rewrite io_events_app.
Qed.

(** X14. Geometry evaluation stores the frame of the sequence at the scene
    time in the volume and passes it on to the original datablock of an
    active depsgraph without touching the grids of the original. A second
    evaluation at the same scene time changes nothing. At a scene time
    outside a clipped sequence the stored frame is the no-frame sentinel,
    so the collection load that follows succeeds without a file event. *)
Theorem eval_geometry_sets_frame (env : Env) (bmain : Main) (scene_frame : Z)
    (is_active : bool) (v : Volume) (orig : option Volume) (st : State)
    (v' : Volume) (orig' : option Volume) (st' : State) :
  BKE_volume_eval_geometry scene_frame is_active v orig st
  = Some ((v', orig'), st') ->
  volume_sequence_frame scene_frame v = Some (runtime_frame v')
  /\ (runtime_frame v' = runtime_frame v -> v' = v /\ st' = st)
  /\ orig' = (if is_active then
                (fun o => Volume_with_frame o (runtime_frame v')) <$> orig
              else orig)
  /\ BKE_volume_eval_geometry scene_frame is_active v' orig' st'
     = Some ((v', orig'), st')
  /\ (runtime_frame v' = VOLUME_FRAME_NONE ->
      BKE_volume_load env v' bmain st' = Some ((true, v'), st')).
Proof.
  unfold BKE_volume_eval_geometry at 1. unfold bind at 1, lift.
  destruct (volume_sequence_frame scene_frame v) as [frame|] eqn:Hframe;
    [|discriminate].
  assert (Hgoal : forall v1 st1,
    volume_sequence_frame scene_frame v1 = Some frame ->
    runtime_frame v1 = frame ->
    (frame = runtime_frame v -> v1 = v /\ st1 = st) ->
    (if is_active
     then ret (v1, (fun o => Volume_with_frame o (runtime_frame v1)) <$> orig)
     else ret (v1, orig)) st1 = Some ((v', orig'), st') ->
    Some frame = Some (runtime_frame v')
    /\ (runtime_frame v' = runtime_frame v -> v' = v /\ st' = st)
    /\ orig' = (if is_active then
                  (fun o => Volume_with_frame o (runtime_frame v')) <$> orig
                else orig)
    /\ BKE_volume_eval_geometry scene_frame is_active v' orig' st'
       = Some ((v', orig'), st')
    /\ (runtime_frame v' = VOLUME_FRAME_NONE ->
        BKE_volume_load env v' bmain st' = Some ((true, v'), st'))).
  { intros v1 st1 Hseq Hrt Hsame Hret.
    assert (Hv : v' = v1 /\ st' = st1
                 /\ orig' = (if is_active then
                               (fun o => Volume_with_frame o (runtime_frame v1))
                                 <$> orig
                             else orig)).
    { destruct is_active; now injection Hret as <- <- <-. }
    destruct Hv as (-> & -> & ->). subst frame.
    split; [reflexivity|]. split; [intros H; apply Hsame; congruence|].
    split; [reflexivity|]. split.
    - unfold BKE_volume_eval_geometry, bind at 1, lift. rewrite Hseq.
      rewrite Z.eqb_refl. cbn [negb]. unfold bind, ret.
      destruct is_active; [|reflexivity].
      destruct orig as [o|]; reflexivity.
    - intros Hnone. now apply load_outside_range. }
  destruct (Z.eqb_spec frame (runtime_frame v)) as [Heq|Hne]; cbn [negb].
  - unfold bind at 1, ret at 1. apply Hgoal; auto.
  - unfold bind at 1. unfold bind at 1.
    destruct (BKE_volume_unload v st) as [[v1 st1]|] eqn:Hun; [|discriminate].
    unfold ret at 1. apply Hgoal.
    + destruct (unload_result_shape v st v1 st1 Hun) as [(-> & _)|[-> _]];
        exact Hframe.
    + reflexivity.
    + intros Heq. contradiction.
Qed.

(** ** Single grids of a volume *)

(** X15. Loading one grid of a volume returns false exactly when the cache
    entry of that grid holds an error message; the message is then copied
    to the grid vector, and from there it makes every later collection load
    of the volume return false without a file event. When the result is
    true the message of the vector is the one it had. The number of grids
    and the file path of the vector never change. *)
Theorem grid_load_reports_entry_error (env : Env) (bmain : Main) (v : Volume)
    (i : nat) (st : State) (r : bool) (v' : Volume) (st' : State) :
  BKE_volume_grid_load env v i st = Some ((r, v'), st') ->
  length (VolumeGridVector.grids (runtime_grids v'))
  = length (VolumeGridVector.grids (runtime_grids v))
  /\ VolumeGridVector.filepath (runtime_grids v')
     = VolumeGridVector.filepath (runtime_grids v)
  /\ exists g',
       VolumeGridVector.grids (runtime_grids v') !! i = Some g'
       /\ (r = true ->
           VolumeGridVector.error_msg (runtime_grids v')
           = VolumeGridVector.error_msg (runtime_grids v)
           /\ forall k e,
                VolumeGrid.entry g' = Some k -> cache st' !! k = Some e ->
                string_empty (Entry.error_msg e) = true)
       /\ (r = false ->
           exists k e,
             VolumeGrid.entry g' = Some k /\ cache st' !! k = Some e
             /\ string_empty (Entry.error_msg e) = false
             /\ VolumeGridVector.error_msg (runtime_grids v')
                = Entry.error_msg e
             /\ (runtime_frame v <> VOLUME_FRAME_NONE ->
                 VolumeGridVector.is_loaded (runtime_grids v) = true ->
                 BKE_volume_load env v' bmain st' = Some ((false, v'), st'))).
Proof.
  unfold BKE_volume_grid_load.
  destruct (VolumeGridVector.grids (runtime_grids v) !! i) as [g|] eqn:Hi;
    [|discriminate].
  assert (Hlt : (i < length (VolumeGridVector.grids (runtime_grids v)))%nat)
    by (apply lookup_lt_is_Some; eauto).
  unfold bind at 1.
  destruct (VolumeGrid.load env g (id_name v)
              (VolumeGridVector.filepath (runtime_grids v)) st)
    as [[g1 st1]|] eqn:Hload; [|discriminate].
  pose proof (load_result _ _ _ _ _ _ _ Hload) as Hres.
  unfold bind at 1, VolumeGrid.error_message.
  destruct (VolumeGrid.entry g1) as [k|] eqn:Hk.
  - destruct Hres as [Hres|Hres]; [|discriminate]. rewrite Hres.
    unfold bind at 1, entry_get.
    destruct (cache st1 !! k) as [e|] eqn:He; [|discriminate]. unfold ret at 1.
    destruct (string_empty (Entry.error_msg e)) eqn:Hmsg; cbn [negb];
      intros [= <- <- <-]; cbn.
    + rewrite length_insert. split; [reflexivity|]. split; [reflexivity|].
      exists g1. split; [now apply list_lookup_insert_eq|].
      split; [|discriminate]. intros _. split; [reflexivity|].
      intros k0 e0 Hk0 He0. rewrite Hk in Hk0. injection Hk0 as <-.
      rewrite He in He0. now injection He0 as <-.
    + rewrite length_insert. split; [reflexivity|]. split; [reflexivity|].
      exists g1. split; [now apply list_lookup_insert_eq|].
      split; [discriminate|]. intros _. exists k, e.
      split; [exact Hk|]. split; [exact He|]. split; [exact Hmsg|].
      split; [reflexivity|]. intros Hframe Hl.
      rewrite load_already_loaded.
      * cbn. now rewrite Hmsg.
      * exact Hframe.
      * unfold BKE_volume_is_loaded, VolumeGridVector.is_loaded in *. cbn.
        rewrite Hl. apply orb_true_r.
  - unfold ret at 1. intros [= <- <- <-]. cbn.
    rewrite length_insert. split; [reflexivity|]. split; [reflexivity|].
    exists g1. split; [now apply list_lookup_insert_eq|].
    split; [|discriminate]. intros _. split; [reflexivity|].
    intros k e Hk0. rewrite Hk in Hk0. discriminate.
Qed.



(** * Worked examples of the further properties *)

Lemma sequence_modes_agree_inside_witness :
  volume_sequence_frame 5
    (Volume_with_sequence (Sample.volume "smoke.vdb")
       VOLUME_SEQUENCE_PING_PONG 10 1 0)
  = Some (relative_frame 5 1 + 0).
Proof.
  apply (sequence_modes_agree_inside (Sample.volume "smoke.vdb")
           VOLUME_SEQUENCE_PING_PONG 5 10 1 0).
  - vm_compute; repeat split.
  - unfold relative_frame. lia.
  - intros _. lia.
Defined.

Lemma repeat_sequence_frame_witness :
  volume_sequence_frame 13
    (Volume_with_sequence (Sample.volume "smoke.vdb")
       VOLUME_SEQUENCE_REPEAT 10 1 0)
  = Some 3
  /\ volume_sequence_frame (13 + 10)
       (Volume_with_sequence (Sample.volume "smoke.vdb")
          VOLUME_SEQUENCE_REPEAT 10 1 0)
     = volume_sequence_frame 13
         (Volume_with_sequence (Sample.volume "smoke.vdb")
            VOLUME_SEQUENCE_REPEAT 10 1 0).
Proof.
  destruct (repeat_sequence_frame (Sample.volume "smoke.vdb") 13 10 1 0)
    as (Hv & _ & Hp).
  - lia.
  - vm_compute; repeat split.
  - split; [exact Hv|]. apply Hp. vm_compute; repeat split.
Defined.

Lemma ping_pong_sequence_frame_witness :
  volume_sequence_frame 13
    (Volume_with_sequence (Sample.volume "smoke.vdb")
       VOLUME_SEQUENCE_PING_PONG 10 1 0)
  = Some 7
  /\ volume_sequence_frame 7
       (Volume_with_sequence (Sample.volume "smoke.vdb")
          VOLUME_SEQUENCE_PING_PONG 10 1 0)
     = volume_sequence_frame 13
         (Volume_with_sequence (Sample.volume "smoke.vdb")
            VOLUME_SEQUENCE_PING_PONG 10 1 0).
Proof.
  destruct (ping_pong_sequence_frame (Sample.volume "smoke.vdb") 13 10 1 0)
    as (Hv & _ & Hp).
  - lia.
  - vm_compute; repeat split.
  - split; [exact Hv|]. apply Hp.
    + vm_compute; repeat split.
    + right. reflexivity.
Defined.

Lemma clip_and_extend_outside_witness :
  volume_sequence_frame 11
    (Volume_with_sequence (Sample.volume "smoke.vdb")
       VOLUME_SEQUENCE_CLIP 10 1 0)
  = Some VOLUME_FRAME_NONE
  /\ volume_sequence_frame 11
       (Volume_with_sequence (Sample.volume "smoke.vdb")
          VOLUME_SEQUENCE_EXTEND 10 1 0)
     = Some 10.
Proof.
  apply (clip_and_extend_outside (Sample.volume "smoke.vdb") 11 10 1 0).
  - lia.
  - vm_compute; repeat split.
  - right. unfold relative_frame. lia.
Defined.

Lemma live_handles_are_counted_witness :
  exists w,
    world_run Sample.env Scenario.ops world_empty = Some w
    /\ counted w
    /\ forall k,
         cache (world_state w) !! k = None
         <-> count_users k false (handles w) = 0
             /\ count_users k true (handles w) = 0.
Proof.
  eexists. split; [vm_compute; reflexivity|].
  apply (live_handles_are_counted Sample.env Scenario.ops).
  vm_compute; reflexivity.
Defined.

Lemma loaded_handles_have_resident_entry_witness :
  exists w,
    world_run Sample.env Scenario.ops world_empty = Some w
    /\ handles w !! 0%nat = Some (Sample.handle Sample.key true)
    /\ exists e,
         cache (world_state w) !! Sample.key = Some e
         /\ (VolumeGrid.is_loaded (Sample.handle Sample.key true) = true ->
             Entry.is_loaded e = true)
         /\ (Entry.is_loaded e = true
             <-> 1 <= count_users Sample.key true (handles w)).
Proof.
  eexists. split; [vm_compute; reflexivity|].
  split; [vm_compute; reflexivity|].
  apply (loaded_handles_have_resident_entry Sample.env Scenario.ops _
           ltac:(vm_compute; reflexivity) 0%nat
           (Sample.handle Sample.key true) Sample.key).
  - vm_compute; reflexivity.
  - reflexivity.
Defined.

Lemma load_then_unload_restores_witness :
  exists st1 e1 st2,
    VolumeGrid.load Sample.env (Sample.handle Sample.key false) "smoke"
      Sample.path Sample.state_metadata
    = Some (VolumeGrid.with_is_loaded (Sample.handle Sample.key false) true,
            st1)
    /\ cache st1 !! Sample.key = Some e1
    /\ grid_tree (Entry.grid e1) = [4; 8; 15]
    /\ Entry.is_loaded e1 = true
    /\ Entry.num_metadata_users e1
       = Entry.num_metadata_users (Sample.entry_metadata "density") - 1
    /\ Entry.num_tree_users e1 = 1
    /\ VolumeGrid.unload
         (VolumeGrid.with_is_loaded (Sample.handle Sample.key false) true)
         "smoke" st1
       = Some (Sample.handle Sample.key false, st2)
    /\ cache st2 = cache Sample.state_metadata.
Proof.
  apply (load_then_unload_restores Sample.env
           (Sample.handle Sample.key false) "smoke" Sample.path
           Sample.state_metadata Sample.key (Sample.entry_metadata "density")
           [4; 8; 15]); try reflexivity.
  cbn. unfold Int.INT_MAX. lia.
Defined.

Lemma error_message_is_sticky_witness :
  exists g' st' e',
    VolumeGrid.load Sample.env (Sample.handle Sample.key false) "smoke"
      Sample.path Scenario.state_stale = Some (g', st')
    /\ cache st' !! Sample.key = Some e'
    /\ grid_tree (Entry.grid e') = [4; 8; 15]
    /\ VolumeGrid.error_message g' st'
       = Some (Some (Entry.error_msg Scenario.entry_stale), st').
Proof.
  apply (proj2 (error_message_is_sticky Sample.env)
           (Sample.handle Sample.key false) "smoke" Sample.path
           Scenario.state_stale Sample.key Scenario.entry_stale [4; 8; 15]);
    try reflexivity.
  unfold counts_sane, Int.INT_MAX. cbn. lia.
Defined.

Lemma room_state_metadata (n : nat) :
  Z.of_nat n < Int.INT_MAX -> room (cache Sample.state_metadata) n.
Proof.
  intros Hn. split; [lia|]. intros k e He.
  unfold Sample.state_metadata in He. cbn [cache] in He.
  apply lookup_singleton_Some in He as [_ <-]. cbn. lia.
Qed.

Lemma state_metadata_users_positive :
  users_positive (cache Sample.state_metadata)
  /\ unused_trees_dropped (cache Sample.state_metadata).
Proof.
  split; intros k e He; unfold Sample.state_metadata in He;
    cbn [cache] in He; apply lookup_singleton_Some in He as [_ <-].
  - cbn. lia.
  - intros _. split; reflexivity.
Qed.

Lemma load_enumerates_grids_witness :
  exists v' st',
    BKE_volume_load Sample.env (Sample.volume "smoke.vdb") Sample.bmain
      Sample.state_metadata
    = Some ((true, v'), st')
    /\ VolumeGridVector.grids (runtime_grids v')
       = [Sample.handle Sample.key false; Sample.handle Sample.key_heat false]
    /\ VolumeGridVector.filepath (runtime_grids v') = Sample.path
    /\ pending (cache Sample.state_metadata) (cache st')
         [Sample.handle Sample.key false; Sample.handle Sample.key_heat false].
Proof.
  destruct (load_enumerates_grids Sample.env (Sample.volume "smoke.vdb")
              Sample.bmain Sample.state_metadata
              [Some (mkGrid "density" []); None; Some (mkGrid "heat" [])])
    as (v' & st' & Hload & Hgrids & Hpath & _ & Hpending).
  - vm_compute. discriminate.
  - reflexivity.
  - reflexivity.
  - reflexivity.
  - reflexivity.
  - reflexivity.
  - exact (proj1 state_metadata_users_positive).
  - exact (proj2 state_metadata_users_positive).
  - apply room_state_metadata. unfold Int.INT_MAX. cbn. lia.
  - exists v', st'. split; [exact Hload|]. split; [exact Hgrids|].
    split; [exact Hpath|]. exact Hpending.
Defined.

Lemma load_then_unload_restores_cache_witness :
  exists r v1 st1 v2 st2,
    BKE_volume_load Sample.env (Sample.volume "smoke.vdb") Sample.bmain
      Sample.state_metadata = Some ((r, v1), st1)
    /\ length (VolumeGridVector.grids (runtime_grids v1)) = 2%nat
    /\ BKE_volume_unload v1 st1 = Some (v2, st2)
    /\ cache st2 = cache Sample.state_metadata
    /\ VolumeGridVector.grids (runtime_grids v2) = [].
Proof.
  do 5 eexists. split; [vm_compute; reflexivity|].
  split; [reflexivity|]. split; [vm_compute; reflexivity|].
  eapply (load_then_unload_restores_cache Sample.env
            (Sample.volume "smoke.vdb") Sample.bmain Sample.state_metadata).
  - reflexivity.
  - reflexivity.
  - exact (proj1 state_metadata_users_positive).
  - exact (proj2 state_metadata_users_positive).
  - vm_compute; reflexivity.
  - vm_compute; reflexivity.
Defined.

Lemma load_enumeration_error_witness :
  exists v' st',
    BKE_volume_load Scenario.env_unreadable (Sample.volume "smoke.vdb")
      Sample.bmain Sample.state_metadata = Some ((false, v'), st')
    /\ VolumeGridVector.error_msg (runtime_grids v') = "Failed to open file"
    /\ cache st' = cache Sample.state_metadata
    /\ BKE_volume_load Scenario.env_unreadable v' Sample.bmain st'
       = Some ((false, v'), st').
Proof.
  destruct (load_enumeration_error Scenario.env_unreadable
              (Sample.volume "smoke.vdb") Sample.bmain Sample.state_metadata
              "Failed to open file")
    as (v' & st' & Hload & Hmsg & _ & _ & Hcache & Hagain).
  - vm_compute. discriminate.
  - reflexivity.
  - reflexivity.
  - left. reflexivity.
  - exists v', st'. split; [exact Hload|]. split; [exact Hmsg|].
    split; [exact Hcache|]. apply Hagain. reflexivity.
Defined.

Lemma copy_data_drops_grids_witness :
  VolumeGridVector.grids
    (runtime_grids
       (BKE_volume_copy_data
          (Scenario.volume_with "smoke.vdb" Sample.path
             [Sample.handle Sample.key false] "")
          (Scenario.volume_with "smoke.vdb" Sample.path
             [Sample.handle Sample.key false] ""))) = []
  /\ BKE_volume_load Sample.env
       (BKE_volume_copy_data
          (Scenario.volume_with "smoke.vdb" Sample.path
             [Sample.handle Sample.key false] "")
          (Scenario.volume_with "smoke.vdb" Sample.path
             [Sample.handle Sample.key false] ""))
       Sample.bmain Sample.state_metadata
     = Some ((true,
              BKE_volume_copy_data
                (Scenario.volume_with "smoke.vdb" Sample.path
                   [Sample.handle Sample.key false] "")
                (Scenario.volume_with "smoke.vdb" Sample.path
                   [Sample.handle Sample.key false] "")),
             Sample.state_metadata).
Proof.
  destruct (copy_data_drops_grids Sample.env
              (Scenario.volume_with "smoke.vdb" Sample.path
                 [Sample.handle Sample.key false] "")
              (Scenario.volume_with "smoke.vdb" Sample.path
                 [Sample.handle Sample.key false] "")
              Sample.bmain Sample.state_metadata)
    as (Hgrids & _ & _ & _ & Hload).
  - reflexivity.
  - vm_compute. discriminate.
  - split; [exact Hgrids|exact Hload].
Defined.

Lemma unload_resets_collection_witness :
  exists v' st',
    BKE_volume_unload
      (Scenario.volume_with "gone.vdb" "/vdb/gone.vdb" [] "gone.vdb not found")
      Sample.state_metadata = Some (v', st')
    /\ runtime_grids v' = VolumeGridVector.empty
    /\ BKE_volume_unload v' st' = Some (v', st')
    /\ BKE_volume_is_loaded v' = false
    /\ exists v'' st'',
         BKE_volume_load Sample.env v' Sample.bmain st'
         = Some ((false, v''), st'')
         /\ io_events (trace st'')
            = io_events (trace st')
              ++ [FileExists (volume_filepath_get Sample.env Sample.bmain v')].
Proof.
  edestruct (unload_resets_collection Sample.env
               (Scenario.volume_with "gone.vdb" "/vdb/gone.vdb" []
                  "gone.vdb not found")
               Sample.bmain Sample.state_metadata)
    as (Hempty & _ & Hagain & Hload); [vm_compute; reflexivity|].
  do 2 eexists. split; [vm_compute; reflexivity|].
  split; [apply Hempty; reflexivity|]. split; [exact Hagain|].
  apply Hload.
  - reflexivity.
  - vm_compute. discriminate.
  - reflexivity.
Defined.

Lemma eval_geometry_sets_frame_witness :
  exists v' orig' st',
    BKE_volume_eval_geometry 11 true
      (Volume_with_sequence (Sample.volume "smoke.vdb")
         VOLUME_SEQUENCE_CLIP 10 1 0)
      (Some (Sample.volume "smoke.vdb")) Sample.state_metadata
    = Some ((v', orig'), st')
    /\ runtime_frame v' = VOLUME_FRAME_NONE
    /\ runtime_frame <$> orig' = Some VOLUME_FRAME_NONE
    /\ BKE_volume_eval_geometry 11 true v' orig' st' = Some ((v', orig'), st')
    /\ BKE_volume_load Sample.env v' Sample.bmain st' = Some ((true, v'), st').
Proof.
  edestruct (eval_geometry_sets_frame Sample.env Sample.bmain 11 true
               (Volume_with_sequence (Sample.volume "smoke.vdb")
                  VOLUME_SEQUENCE_CLIP 10 1 0)
               (Some (Sample.volume "smoke.vdb")) Sample.state_metadata)
    as (_ & _ & _ & Hagain & Hload); [vm_compute; reflexivity|].
  do 3 eexists. split; [vm_compute; reflexivity|].
  split; [reflexivity|]. split; [reflexivity|]. split; [exact Hagain|].
  apply Hload. reflexivity.
Defined.

Lemma grid_load_reports_entry_error_witness :
  exists v' st',
    BKE_volume_grid_load Sample.env
      (Scenario.volume_with "smoke.vdb" Sample.path
         [Sample.handle Sample.key_heat false] "")
      0%nat Sample.state_heat
    = Some ((false, v'), st')
    /\ VolumeGridVector.error_msg (runtime_grids v') = "Cannot read grid"
    /\ BKE_volume_load Sample.env v' Sample.bmain st'
       = Some ((false, v'), st').
Proof.
  edestruct (grid_load_reports_entry_error Sample.env Sample.bmain
               (Scenario.volume_with "smoke.vdb" Sample.path
                  [Sample.handle Sample.key_heat false] "")
               0%nat Sample.state_heat)
    as (_ & _ & g' & _ & _ & Hfalse); [vm_compute; reflexivity|].
  destruct (Hfalse eq_refl) as (k & e & _ & _ & _ & _ & Hload).
  do 2 eexists. split; [vm_compute; reflexivity|].
  split; [reflexivity|]. apply Hload.
  - vm_compute. discriminate.
  - reflexivity.
Defined.

